(** * PaiGram: group-joining verification and template preview cache

    A shallow embedding of

    - [plugins/system/auth.py]  (class [GroupJoiningVerification]) and
    - [core/template/cache.py]  (class [TemplatePreviewCache]),

    followed by the properties of the specification that concern them.

    Modelling conventions.

    - A handler is a computation in the monad [M]: it threads the [World]
      (the fields of [self], the per-chat [chat_data], the scheduler's job
      store and the observable Telegram side) and either returns or raises
      a Python exception.  State written before a [raise] stays written.
    - The bot client, the quiz service, the clock and the random sources
      are outside the repository.  Their answers are read from an [Env]:
      a bot call succeeds or raises [BadRequest] as the [Env] says, and on
      success its effect is recorded in the [World].  A call is fallible
      exactly when the source has a [BadRequest] handler for that API
      somewhere.  Other errors of the bot client, and failures of
      [get_chat_administrators], [answer], [send_message] and
      [reply_text], are outside the model: what is proved of a handler is
      proved of the runs without them.  The quiz refresh comes both ways,
      as a call that returns ([quiz_service_refresh_quiz]) and as a call
      that may raise ([quiz_service_refresh_quiz_faulty]).
    - [async with self.lock] is mutual exclusion between coroutines; one
      handler runs at a time here, so the lock has no effect of its own.
    - [Log.*] calls have no effect on any modelled state and are left out.
    - [time.time()] is a float in the source; timestamps are rationals
      here and [int(...)] truncates towards zero. *)

From Stdlib Require Import ZArith QArith Lqa String Ascii List Bool Lia.
From Stdlib.Strings Require Byte.
From stdpp Require Import base option gmap strings pretty list fin_maps.

Local Open Scope string_scope.
Local Open Scope Z_scope.

(** ** Python primitives used by the handlers *)

Module Py.

(** Exceptions that can cross a handler boundary. *)
Inductive exn : Type :=
| BadRequest (message : string)
| ValueError
| IndexError
| ConflictingIdError
| OtherError (message : string).

(** [str.split(sep)] for a one-character separator: the pieces between
    the separators, empty pieces kept. *)
Fixpoint split (sep : ascii) (s : string) : list string :=
  match s with
  | EmptyString => [EmptyString]
  | String c rest =>
      if Ascii.eqb c sep then EmptyString :: split sep rest
      else match split sep rest with
           | [] => [String c EmptyString]
           | w :: ws => String c w :: ws
           end
  end.

(** [needle in hay] on strings. *)
Fixpoint contains (needle hay : string) : bool :=
  String.prefix needle hay
  || match hay with
     | EmptyString => false
     | String _ rest => contains needle rest
     end.

(** [seq[i]] for an [int] index: negative indices count from the end,
    anything out of range is an [IndexError]. *)
Definition index {A} (l : list A) (i : Z) : exn + A :=
  let n := Z.of_nat (length l) in
  let j := if i <? 0 then n + i else i in
  if (j <? 0) || (n <=? j) then inl IndexError
  else match l !! Z.to_nat j with
       | Some x => inr x
       | None => inl IndexError
       end.

(** The ASCII characters [int] skips around a number: tab, line feed,
    vertical tab, form feed, carriage return and space. *)
Definition is_ws (c : ascii) : bool :=
  let n := nat_of_ascii c in
  ((9 <=? n) && (n <=? 13))%nat || (n =? 32)%nat.

Fixpoint lstrip (s : string) : string :=
  match s with
  | String c rest => if is_ws c then lstrip rest else s
  | EmptyString => EmptyString
  end.

Definition strip (s : string) : string :=
  String.rev (lstrip (String.rev (lstrip s))).

Definition digit (c : ascii) : option Z :=
  let n := nat_of_ascii c in
  if ((48 <=? n) && (n <=? 57))%nat then Some (Z.of_nat n - 48) else None.

(** Decimal digits, a single underscore allowed between two digits.
    [prev] tells whether the previous character was a digit. *)
Fixpoint digits (acc : Z) (prev : bool) (s : string) : option Z :=
  match s with
  | EmptyString => if prev then Some acc else None
  | String c rest =>
      match digit c with
      | Some d => digits (10 * acc + d) true rest
      | None =>
          if Ascii.eqb c "_"%char && prev then digits acc false rest
          else None
      end
  end.

(** [int(s)] on a [str] of ASCII characters: surrounding whitespace,
    an optional sign, then decimal digits.  Whitespace and digits outside
    ASCII, which [int] also takes, are not covered. *)
Definition int (s : string) : exn + Z :=
  let body :=
    match strip s with
    | String "-" rest => option_map Z.opp (digits 0 false rest)
    | String "+" rest => digits 0 false rest
    | t => digits 0 false t
    end in
  match body with
  | Some z => inr z
  | None => inl ValueError
  end.

(** [int(x)] on a float: truncation towards zero. *)
Definition int_of_float (x : Q) : Z := Z.quot (Qnum x) (Zpos (Qden x)).

End Py.

(** ** Telegram and quiz data *)

Record User : Type := { user_id : Z; is_bot : bool }.

Record ChatMember : Type := { member_user : User }.

(** [telegram.ChatPermissions]: a field left out of the constructor call
    is [None]. *)
Record ChatPermissions : Type := {
  can_send_messages : option bool;
  can_send_media_messages : option bool;
  can_send_polls : option bool;
  can_send_other_messages : option bool;
  can_add_web_page_previews : option bool;
  can_change_info : option bool;
  can_invite_users : option bool;
  can_pin_messages : option bool }.

Definition FullChatPermissions : ChatPermissions :=
  {| can_send_messages := Some true;
     can_send_media_messages := Some true;
     can_send_polls := Some true;
     can_send_other_messages := Some true;
     can_add_web_page_previews := Some true;
     can_change_info := Some true;
     can_invite_users := Some true;
     can_pin_messages := Some true |}.

(** [ChatPermissions(can_send_messages=False)] of [new_mem]. *)
Definition MutedChatPermissions : ChatPermissions :=
  {| can_send_messages := Some false;
     can_send_media_messages := None;
     can_send_polls := None;
     can_send_other_messages := None;
     can_add_web_page_previews := None;
     can_change_info := None;
     can_invite_users := None;
     can_pin_messages := None |}.

Record InlineKeyboardButton : Type := { button_text : string; callback_data : string }.

(** [InlineKeyboardMarkup(buttons)]: rows of buttons. *)
Abbreviation InlineKeyboardMarkup := (list (list InlineKeyboardButton)).

Record Answer : Type := { answer_id : Z; answer_text : string; is_correct : bool }.

Record Question : Type := { question_id : Z; question_text : string; answers : list Answer }.

(** The two callbacks handed to [job_queue.run_once]. *)
Inductive JobCallback : Type := kick_member_job | clean_message_job.

(** What [run_once] is given besides the store id. *)
Record Job : Type := {
  job_callback : JobCallback;
  job_when : Z;
  job_data : option Z;
  job_name : string;
  job_chat_id : Z;
  job_user_id : Z }.

(** [update.callback_query], with the chat and id of its message. *)
Record CallbackQuery : Type := {
  cq_from_user : User;
  cq_chat_id : Z;
  cq_message_id : Z;
  cq_data : string }.

(** [update.message] of a new-chat-members event. *)
Record JoinMessage : Type := {
  message_id : Z;
  chat_id : Z;
  from_user : User;
  new_chat_members : list User }.

(** A message the bot sent: [send_message], [reply_text] or
    [reply_markdown_v2]. *)
Record Outgoing : Type := {
  out_chat_id : Z;
  out_reply_to : option Z;
  out_text : string;
  out_markup : option InlineKeyboardMarkup }.

(** [callback_query.answer(text, show_alert)]. *)
Record CallbackAnswer : Type := { answer_alert_text : string; show_alert : bool }.

(** ** The world a handler runs in *)

Record World : Type := {
  (* fields of GroupJoiningVerification *)
  is_refresh_quiz : bool;
  chat_administrators_cache : gmap string (Q * list ChatMember);
  (* how often quiz_service.refresh_quiz() ran, how often the clock was read *)
  quiz_refreshes : nat;
  clock_reads : nat;
  (* CallbackContext: chat_data per chat, the scheduler's job store by id *)
  chat_data : gmap Z (gmap string bool);
  scheduler : gmap string Job;
  (* Telegram side: last restriction and ban per (chat, user), last edit
     per (chat, message), messages sent, callback answers given *)
  permissions : gmap (Z * Z) ChatPermissions;
  bans : gmap (Z * Z) (option Z);
  edits : gmap (Z * Z) (string * option InlineKeyboardMarkup);
  sent : list Outgoing;
  callback_answers : list CallbackAnswer }.

(** The state [__init__] leaves, in a world where nothing happened yet. *)
Definition init_world : World :=
  {| is_refresh_quiz := false;
     chat_administrators_cache := ∅;
     quiz_refreshes := 0%nat;
     clock_reads := 0%nat;
     chat_data := ∅;
     scheduler := ∅;
     permissions := ∅;
     bans := ∅;
     edits := ∅;
     sent := [];
     callback_answers := [] |}.

Definition set_is_refresh_quiz (b : bool) (w : World) : World :=
  {| is_refresh_quiz := b;
     chat_administrators_cache := chat_administrators_cache w;
     quiz_refreshes := quiz_refreshes w; clock_reads := clock_reads w;
     chat_data := chat_data w; scheduler := scheduler w;
     permissions := permissions w; bans := bans w; edits := edits w;
     sent := sent w; callback_answers := callback_answers w |}.

Definition set_chat_administrators_cache
    (f : gmap string (Q * list ChatMember) -> gmap string (Q * list ChatMember))
    (w : World) : World :=
  {| is_refresh_quiz := is_refresh_quiz w;
     chat_administrators_cache := f (chat_administrators_cache w);
     quiz_refreshes := quiz_refreshes w; clock_reads := clock_reads w;
     chat_data := chat_data w; scheduler := scheduler w;
     permissions := permissions w; bans := bans w; edits := edits w;
     sent := sent w; callback_answers := callback_answers w |}.

Definition set_quiz_refreshes (f : nat -> nat) (w : World) : World :=
  {| is_refresh_quiz := is_refresh_quiz w;
     chat_administrators_cache := chat_administrators_cache w;
     quiz_refreshes := f (quiz_refreshes w); clock_reads := clock_reads w;
     chat_data := chat_data w; scheduler := scheduler w;
     permissions := permissions w; bans := bans w; edits := edits w;
     sent := sent w; callback_answers := callback_answers w |}.

Definition set_clock_reads (f : nat -> nat) (w : World) : World :=
  {| is_refresh_quiz := is_refresh_quiz w;
     chat_administrators_cache := chat_administrators_cache w;
     quiz_refreshes := quiz_refreshes w; clock_reads := f (clock_reads w);
     chat_data := chat_data w; scheduler := scheduler w;
     permissions := permissions w; bans := bans w; edits := edits w;
     sent := sent w; callback_answers := callback_answers w |}.

Definition set_chat_data
    (f : gmap Z (gmap string bool) -> gmap Z (gmap string bool)) (w : World) : World :=
  {| is_refresh_quiz := is_refresh_quiz w;
     chat_administrators_cache := chat_administrators_cache w;
     quiz_refreshes := quiz_refreshes w; clock_reads := clock_reads w;
     chat_data := f (chat_data w); scheduler := scheduler w;
     permissions := permissions w; bans := bans w; edits := edits w;
     sent := sent w; callback_answers := callback_answers w |}.

Definition set_scheduler (f : gmap string Job -> gmap string Job) (w : World) : World :=
  {| is_refresh_quiz := is_refresh_quiz w;
     chat_administrators_cache := chat_administrators_cache w;
     quiz_refreshes := quiz_refreshes w; clock_reads := clock_reads w;
     chat_data := chat_data w; scheduler := f (scheduler w);
     permissions := permissions w; bans := bans w; edits := edits w;
     sent := sent w; callback_answers := callback_answers w |}.

Definition set_permissions
    (f : gmap (Z * Z) ChatPermissions -> gmap (Z * Z) ChatPermissions) (w : World) : World :=
  {| is_refresh_quiz := is_refresh_quiz w;
     chat_administrators_cache := chat_administrators_cache w;
     quiz_refreshes := quiz_refreshes w; clock_reads := clock_reads w;
     chat_data := chat_data w; scheduler := scheduler w;
     permissions := f (permissions w); bans := bans w; edits := edits w;
     sent := sent w; callback_answers := callback_answers w |}.

Definition set_bans
    (f : gmap (Z * Z) (option Z) -> gmap (Z * Z) (option Z)) (w : World) : World :=
  {| is_refresh_quiz := is_refresh_quiz w;
     chat_administrators_cache := chat_administrators_cache w;
     quiz_refreshes := quiz_refreshes w; clock_reads := clock_reads w;
     chat_data := chat_data w; scheduler := scheduler w;
     permissions := permissions w; bans := f (bans w); edits := edits w;
     sent := sent w; callback_answers := callback_answers w |}.

Definition set_edits
    (f : gmap (Z * Z) (string * option InlineKeyboardMarkup)
         -> gmap (Z * Z) (string * option InlineKeyboardMarkup)) (w : World) : World :=
  {| is_refresh_quiz := is_refresh_quiz w;
     chat_administrators_cache := chat_administrators_cache w;
     quiz_refreshes := quiz_refreshes w; clock_reads := clock_reads w;
     chat_data := chat_data w; scheduler := scheduler w;
     permissions := permissions w; bans := bans w; edits := f (edits w);
     sent := sent w; callback_answers := callback_answers w |}.

Definition set_sent (f : list Outgoing -> list Outgoing) (w : World) : World :=
  {| is_refresh_quiz := is_refresh_quiz w;
     chat_administrators_cache := chat_administrators_cache w;
     quiz_refreshes := quiz_refreshes w; clock_reads := clock_reads w;
     chat_data := chat_data w; scheduler := scheduler w;
     permissions := permissions w; bans := bans w; edits := edits w;
     sent := f (sent w); callback_answers := callback_answers w |}.

Definition set_callback_answers
    (f : list CallbackAnswer -> list CallbackAnswer) (w : World) : World :=
  {| is_refresh_quiz := is_refresh_quiz w;
     chat_administrators_cache := chat_administrators_cache w;
     quiz_refreshes := quiz_refreshes w; clock_reads := clock_reads w;
     chat_data := chat_data w; scheduler := scheduler w;
     permissions := permissions w; bans := bans w; edits := edits w;
     sent := sent w; callback_answers := f (callback_answers w) |}.

(** ** What lies outside the repository *)

Record Env : Type := {
  (* context.bot.id *)
  bot_id : Z;
  (* the n-th reading of time.time() *)
  now : nat -> Q;
  (* telegram helpers that only build text *)
  mention_markdown_v2 : User -> string;
  escape_markdown : string -> string;
  (* bot client: inl/Some carry the text of a BadRequest *)
  api_get_chat_administrators : Z -> list ChatMember;
  api_get_chat_member : Z -> Z -> string + ChatMember;
  api_restrict_chat_member : Z -> Z -> ChatPermissions -> option string;
  api_ban_chat_member : Z -> Z -> option Z -> option string;
  api_edit_text : Z -> Z -> string -> option InlineKeyboardMarkup -> option string;
  api_reply_markdown_v2 : Z -> Z -> string -> InlineKeyboardMarkup -> string + Z;
  (* core.quiz.QuizService *)
  quiz_get_question_id_list : list Z;
  quiz_get_question : Z -> Py.exn + Question;
  quiz_get_answer : Z -> Py.exn + Answer;
  (* utils.random.MT19937_Random.random(low, high) and random.shuffle *)
  mt_random : Z -> Z -> Z;
  shuffle : InlineKeyboardMarkup -> InlineKeyboardMarkup }.

(** ** State and exception monad *)

Inductive Result (A : Type) : Type :=
| Ok (a : A)
| Raise (e : Py.exn).

Arguments Ok {A} a.
Arguments Raise {A} e.

Definition M (A : Type) : Type := World -> Result A * World.

Definition ret {A} (a : A) : M A := fun w => (Ok a, w).

Definition bind {A B} (m : M A) (k : A -> M B) : M B :=
  fun w =>
    match m w with
    | (Ok a, w') => k a w'
    | (Raise e, w') => (Raise e, w')
    end.

Definition raise {A} (e : Py.exn) : M A := fun w => (Raise e, w).

Definition lift {A} (r : Py.exn + A) : M A :=
  match r with
  | inl e => raise e
  | inr a => ret a
  end.

Definition gets {A} (f : World -> A) : M A := fun w => (Ok (f w), w).

Definition modify (f : World -> World) : M unit := fun w => (Ok tt, f w).

(** [try: body / except BadRequest as error: handler]. *)
Definition try_except_BadRequest {A} (body : M A) (handler : string -> M A) : M A :=
  fun w =>
    match body w with
    | (Raise (Py.BadRequest message), w') => handler message w'
    | r => r
    end.

Notation "x <- m ;; k" := (bind m (fun x => k))
  (at level 100, m at next level, right associativity, only parsing).
Notation "m ;;; k" := (bind m (fun _ => k))
  (at level 100, right associativity, only parsing).

(** ** plugins/system/auth.py *)

(** [self.time_out] and [self.kick_time], set once in [__init__]. *)
Definition time_out : Z := 120.
Definition kick_time : Z := 120.

(** [f"{chat.id}|{user.id}|{kind}"], the strings that name and look up
    the jobs of one (chat, user) pair. *)
Definition job_key (chat user : Z) (kind : string) : string :=
  pretty chat +:+ "|" +:+ pretty user +:+ "|" +:+ kind.

(** The texts of the handlers. *)
Definition nl : string := String "010" EmptyString.
Definition text_not_admin : string :=
  "你不是管理！" +:+ nl +:+ "再乱点我叫西风骑士团、千岩军和天领奉行了！".
Definition text_not_yours : string :=
  "这不是你的验证！" +:+ nl +:+ "再乱点再按我叫西风骑士团、千岩军和天领奉行了！".
Definition text_unknown_command : string := "派蒙这边收到了错误的消息！请检查详细日记！".
Definition text_admin_invite : string := "派蒙检测到管理员邀请，自动放行了！".
Definition text_no_questions : string :=
  "旅行者！！！派蒙的问题清单你还没给我！！快去私聊我给我问题！".
Definition text_forgot_you : string :=
  "派蒙分心了一下，不小心忘记你了，你只能先退出群再重新进来吧。".
Definition marker_not_enough_rights : string := "Not enough rights".
Definition marker_same_content : string := "are exactly the same as ".

Section Auth.

Variable env : Env.

(** *** The collaborators, as the handlers call them *)

Definition time_time : M Q :=
  n <- gets clock_reads ;;
  modify (set_clock_reads S) ;;;
  ret (now env n).

Definition quiz_service_refresh_quiz : M unit :=
  modify (set_quiz_refreshes S).

Definition bot_get_chat_administrators (chat : Z) : M (list ChatMember) :=
  ret (api_get_chat_administrators env chat).

Definition bot_get_chat_member (chat user : Z) : M ChatMember :=
  match api_get_chat_member env chat user with
  | inl message => raise (Py.BadRequest message)
  | inr member => ret member
  end.

Definition bot_restrict_chat_member (chat user : Z) (p : ChatPermissions) : M unit :=
  match api_restrict_chat_member env chat user p with
  | Some message => raise (Py.BadRequest message)
  | None => modify (set_permissions (insert (chat, user) p))
  end.

Definition bot_ban_chat_member (chat user : Z) (until_date : option Z) : M unit :=
  match api_ban_chat_member env chat user until_date with
  | Some message => raise (Py.BadRequest message)
  | None => modify (set_bans (insert (chat, user) until_date))
  end.

Definition bot_send_message (chat : Z) (text : string) : M unit :=
  modify (set_sent (fun l => app l
    [{| out_chat_id := chat; out_reply_to := None; out_text := text; out_markup := None |}])).

Definition message_reply_text (chat msg : Z) (text : string) : M unit :=
  modify (set_sent (fun l => app l
    [{| out_chat_id := chat; out_reply_to := Some msg; out_text := text; out_markup := None |}])).

(** Returns the id of the message that was sent. *)
Definition message_reply_markdown_v2 (chat msg : Z) (text : string)
    (markup : InlineKeyboardMarkup) : M Z :=
  match api_reply_markdown_v2 env chat msg text markup with
  | inl message => raise (Py.BadRequest message)
  | inr sent_id =>
      modify (set_sent (fun l => app l
        [{| out_chat_id := chat; out_reply_to := Some msg; out_text := text;
            out_markup := Some markup |}])) ;;;
      ret sent_id
  end.

Definition message_edit_text (chat msg : Z) (text : string)
    (markup : option InlineKeyboardMarkup) : M unit :=
  match api_edit_text env chat msg text markup with
  | Some message => raise (Py.BadRequest message)
  | None => modify (set_edits (insert (chat, msg) (text, markup)))
  end.

Definition callback_query_answer (text : string) (alert : bool) : M unit :=
  modify (set_callback_answers (fun l => app l
    [{| answer_alert_text := text; show_alert := alert |}])).

(** [job_queue.run_once(..., job_kwargs={"replace_existing": r, "id": id})]:
    the job goes into the scheduler's store under [id]; a job already
    stored under [id] is replaced when [r] holds and is a conflict
    otherwise. *)
Definition job_queue_run_once (j : Job) (id : string) (replace_existing : bool) : M unit :=
  existing <- gets (fun w => scheduler w !! id) ;;
  match existing with
  | Some _ =>
      if replace_existing then modify (set_scheduler (insert id j))
      else raise Py.ConflictingIdError
  | None => modify (set_scheduler (insert id j))
  end.

(** [if schedule := context.job_queue.scheduler.get_job(id): schedule.remove()] *)
Definition remove_job_if_scheduled (id : string) : M unit :=
  schedule <- gets (fun w => scheduler w !! id) ;;
  match schedule with
  | Some _ => modify (set_scheduler (delete id))
  | None => ret tt
  end.

(** *** GroupJoiningVerification *)

Definition refresh_quiz : M unit :=
  flag <- gets is_refresh_quiz ;;
  if negb flag then
    quiz_service_refresh_quiz ;;;
    modify (set_is_refresh_quiz true)
  else ret tt.

Definition get_chat_administrators (chat : Z) : M (list ChatMember) :=
  let refetch : M (list ChatMember) :=
    chat_administrators <- bot_get_chat_administrators chat ;;
    t <- time_time ;;
    modify (set_chat_administrators_cache (insert (pretty chat) (t, chat_administrators))) ;;;
    ret chat_administrators in
  cache_data <- gets (fun w => chat_administrators_cache w !! pretty chat) ;;
  match cache_data with
  | Some (cache_time, chat_administrators) =>
      t <- time_time ;;
      if Qle_bool (cache_time + 360) t then ret chat_administrators
      else refetch
  | None => refetch
  end.

Definition is_admin (chat_administrators : list ChatMember) (user : Z) : bool :=
  existsb (fun admin => user_id (member_user admin) =? user) chat_administrators.

(** Runs when a job with callback [kick_member_job] fires. *)
Definition run_kick_member_job (job : Job) : M unit :=
  try_except_BadRequest
    (t <- time_time ;;
     bot_ban_chat_member (job_chat_id job) (job_user_id job)
       (Some (Py.int_of_float t + kick_time)))
    (fun _ => ret tt).

Definition restore_member (chat user : Z) : M unit :=
  try_except_BadRequest
    (bot_restrict_chat_member chat user FullChatPermissions)
    (fun _ => ret tt).

(** **** admin *)

Definition admin_callback (callback_query_data : string) : M (string * Z) :=
  let _data := Py.split "|" callback_query_data in
  _result <- lift (Py.index _data 1) ;;
  _field <- lift (Py.index _data 2) ;;
  _user_id <- lift (Py.int _field) ;;
  ret (_result, _user_id).

Definition admin (callback_query : CallbackQuery) : M unit :=
  let user := cq_from_user callback_query in
  let chat := cq_chat_id callback_query in
  let message := cq_message_id callback_query in
  chat_administrators <- get_chat_administrators chat ;;
  if negb (is_admin chat_administrators (user_id user)) then
    callback_query_answer text_not_admin true
  else
    parsed <- admin_callback (cq_data callback_query) ;;
    let result := fst parsed in
    let user_id := snd parsed in
    user_info <- try_except_BadRequest
                   (member_info <- bot_get_chat_member chat user_id ;;
                    ret (mention_markdown_v2 env (member_user member_info)))
                   (fun _ => ret (pretty user_id)) ;;
    (if String.eqb result "pass" then
       callback_query_answer "放行" false ;;;
       restore_member chat user_id ;;;
       remove_job_if_scheduled (job_key chat user_id "auth_clean_join_message") ;;;
       message_edit_text chat message
         (user_info +:+ " 被 " +:+ mention_markdown_v2 env user +:+ " 放行") None
     else if String.eqb result "kick" then
       callback_query_answer "驱离" false ;;;
       bot_ban_chat_member chat user_id None ;;;
       message_edit_text chat message
         (user_info +:+ " 被 " +:+ mention_markdown_v2 env user +:+ " 驱离") None
     else if String.eqb result "unban" then
       callback_query_answer "解除驱离" false ;;;
       restore_member chat user_id ;;;
       remove_job_if_scheduled (job_key chat user_id "auth_clean_join_message") ;;;
       message_edit_text chat message
         (user_info +:+ " 被 " +:+ mention_markdown_v2 env user +:+ " 解除驱离") None
     else
       bot_send_message chat text_unknown_command) ;;;
    remove_job_if_scheduled (job_key chat user_id "auth_kick").

(** **** query *)

Definition query_callback (callback_query_data : string) : M (Z * bool * string * string) :=
  let _data := Py.split "|" callback_query_data in
  _field1 <- lift (Py.index _data 1) ;;
  _user_id <- lift (Py.int _field1) ;;
  _field2 <- lift (Py.index _data 2) ;;
  _question_id <- lift (Py.int _field2) ;;
  _field3 <- lift (Py.index _data 3) ;;
  _answer_id <- lift (Py.int _field3) ;;
  _answer <- lift (quiz_get_answer env _answer_id) ;;
  _question <- lift (quiz_get_question env _question_id) ;;
  ret (_user_id, is_correct _answer, question_text _question, answer_text _answer).

Definition button_kick (user : Z) : InlineKeyboardButton :=
  {| button_text := "驱离"; callback_data := "auth_admin|kick|" +:+ pretty user |}.

Definition button_unban (user : Z) : InlineKeyboardButton :=
  {| button_text := "撤回驱离"; callback_data := "auth_admin|unban|" +:+ pretty user |}.

Definition button_pass (user : Z) : InlineKeyboardButton :=
  {| button_text := "放行"; callback_data := "auth_admin|pass|" +:+ pretty user |}.

Definition text_success (user : User) (question answer : string) : string :=
  mention_markdown_v2 env user +:+ " 验证成功，向着星辰与深渊！" +:+ nl
  +:+ "问题：" +:+ escape_markdown env question +:+ " " +:+ nl
  +:+ "回答：" +:+ escape_markdown env answer.

Definition text_failure (user : User) (question answer : string) : string :=
  mention_markdown_v2 env user +:+ " 验证失败，已经赶出提瓦特大陆！" +:+ nl
  +:+ "问题：" +:+ escape_markdown env question +:+ " " +:+ nl
  +:+ "回答：" +:+ escape_markdown env answer.

Definition text_retry_later : string :=
  "验证失败，请在 " +:+ pretty time_out +:+ " 秒后重试".

Definition query (callback_query : CallbackQuery) : M unit :=
  let user := cq_from_user callback_query in
  let chat := cq_chat_id callback_query in
  let message := cq_message_id callback_query in
  parsed <- query_callback (cq_data callback_query) ;;
  let user_id' := fst (fst (fst parsed)) in
  let result := snd (fst (fst parsed)) in
  let question := snd (fst parsed) in
  let answer := snd parsed in
  if negb (user_id user =? user_id') then
    callback_query_answer text_not_yours true
  else
    outcome <-
      (if result then
         let buttons := [[button_kick (user_id user)]] in
         callback_query_answer "验证成功" false ;;;
         restore_member chat user_id' ;;;
         remove_job_if_scheduled (job_key chat (user_id user) "auth_clean_join_message") ;;;
         ret (buttons, text_success user question answer)
       else
         let buttons := [[button_kick (user_id user); button_unban (user_id user)]] in
         callback_query_answer text_retry_later true ;;;
         t <- time_time ;;
         bot_ban_chat_member chat user_id' (Some (Py.int_of_float t + kick_time)) ;;;
         ret (buttons, text_failure user question answer)) ;;
    try_except_BadRequest
      (message_edit_text chat message (snd outcome) (Some (fst outcome)))
      (fun exc =>
         if Py.contains marker_same_content exc then ret tt
         else raise (Py.BadRequest exc)) ;;;
    remove_job_if_scheduled (job_key chat (user_id user) "auth_kick").

(** **** new_mem *)

Definition get_not_enough_rights (chat : Z) (w : World) : bool :=
  default false (chat_data w !! chat ≫= fun d => d !! "not_enough_rights").

Definition set_not_enough_rights (chat : Z) : World -> World :=
  set_chat_data (fun cd => <[chat := <["not_enough_rights" := true]> (default ∅ (cd !! chat))]> cd).

Definition challenge_buttons (user : User) (question : Question) : InlineKeyboardMarkup :=
  app
    (shuffle env
       (map (fun answer =>
               [{| button_text := answer_text answer;
                   callback_data :=
                     "auth_challenge|" +:+ pretty (user_id user) +:+ "|"
                     +:+ pretty (question_id question) +:+ "|"
                     +:+ pretty (answer_id answer) |}])
            (answers question)))
    [[button_pass (user_id user); button_kick (user_id user)]].

Definition text_challenge (question : Question) : string :=
  "*欢迎来到「提瓦特」世界！* " +:+ nl
  +:+ "问题: " +:+ escape_markdown env (question_text question) +:+ " " +:+ nl
  +:+ "请在 " +:+ pretty time_out +:+ "S 内回答问题".

(** The second loop of [new_mem], over [message.new_chat_members]; a
    [return] inside the loop ends it with the members left unvisited. *)
Fixpoint new_mem_members (message : JoinMessage) (users : list User) : M unit :=
  match users with
  | [] => ret tt
  | user :: rest =>
      if is_bot user then new_mem_members message rest
      else
        let chat := chat_id message in
        let question_id_list := quiz_get_question_id_list env in
        if Z.of_nat (length question_id_list) =? 0 then
          message_reply_text chat (message_id message) text_no_questions
        else
          restricted <-
            try_except_BadRequest
              (bot_restrict_chat_member chat (user_id user) MutedChatPermissions ;;;
               ret true)
              (fun err =>
                 if Py.contains marker_not_enough_rights err then
                   modify (set_not_enough_rights chat) ;;;
                   ret false
                 else raise (Py.BadRequest err)) ;;
          if negb restricted then ret tt
          else
            let index := mt_random env 0 (Z.of_nat (length question_id_list)) in
            chosen <- lift (Py.index question_id_list index) ;;
            question <- lift (quiz_get_question env chosen) ;;
            let buttons := challenge_buttons user question in
            question_message <-
              try_except_BadRequest
                (message_reply_markdown_v2 chat (message_id message)
                   (text_challenge question) buttons)
                (fun error =>
                   message_reply_text chat (message_id message) text_forgot_you ;;;
                   raise (Py.BadRequest error)) ;;
            job_queue_run_once
              {| job_callback := kick_member_job; job_when := time_out;
                 job_data := None;
                 job_name := job_key chat (user_id user) "auth_kick";
                 job_chat_id := chat; job_user_id := user_id user |}
              (job_key chat (user_id user) "auth_kick") true ;;;
            job_queue_run_once
              {| job_callback := clean_message_job; job_when := time_out;
                 job_data := Some (message_id message);
                 job_name := job_key chat (user_id user) "auth_clean_join_message";
                 job_chat_id := chat; job_user_id := user_id user |}
              (job_key chat (user_id user) "auth_kick") true ;;;
            job_queue_run_once
              {| job_callback := clean_message_job; job_when := time_out;
                 job_data := Some question_message;
                 job_name := job_key chat (user_id user) "auth_clean_question_message";
                 job_chat_id := chat; job_user_id := user_id user |}
              (job_key chat (user_id user) "auth_kick") true ;;;
            new_mem_members message rest
  end.

Definition new_mem (message : JoinMessage) : M unit :=
  refresh_quiz ;;;
  (* first loop: return as soon as a new member is the bot itself *)
  if existsb (fun user => user_id user =? bot_id env) (new_chat_members message) then ret tt
  else
    not_enough_rights <- gets (get_not_enough_rights (chat_id message)) ;;
    if not_enough_rights then ret tt
    else
      chat_administrators <- get_chat_administrators (chat_id message) ;;
      if is_admin chat_administrators (user_id (from_user message)) then
        message_reply_text (chat_id message) (message_id message) text_admin_invite
      else new_mem_members message (new_chat_members message).

End Auth.

(** ** core/template/cache.py *)

Module TemplatePreviewCache.

(** The Redis keyspace behind [redis.client]: the bytes under a key and,
    when the key is volatile, the seconds it has left to live. *)
Abbreviation Store := (gmap string (list Byte.byte * option Z)).

(** [GET key] *)
Definition client_get (k : string) (st : Store) : option (list Byte.byte) :=
  fst <$> st !! k.

(** [SET key value]: the value is stored and any time to live of the key
    is discarded. *)
Definition client_set (k : string) (v : list Byte.byte) (st : Store) : Store :=
  <[k := (v, None)]> st.

(** [EXPIRE key seconds]: a key that exists becomes volatile; with a
    timeout that is not positive it is deleted at once. *)
Definition client_expire (k : string) (seconds : Z) (st : Store) : Store :=
  match st !! k with
  | Some (v, _) => if seconds <=? 0 then delete k st else <[k := (v, Some seconds)]> st
  | None => st
  end.

(** The keyspace [d] seconds later: volatile keys whose time is up are
    gone, the others have [d] seconds less. *)
Definition elapse (d : Z) (st : Store) : Store :=
  omap (fun entry : list Byte.byte * option Z =>
          match snd entry with
          | Some remaining =>
              if remaining <=? d then None else Some (fst entry, Some (remaining - d))
          | None => Some entry
          end) st.

Definition qname : string := "bot:template:preview".

Definition cache_key (key : string) : string := qname +:+ ":" +:+ key.

Section Codec.

(** The cached values ([Any] in the source), [pickle] and [gzip]. *)
Variable V : Type.
Variable pickle_dumps : V -> Py.exn + list Byte.byte.
Variable pickle_loads : list Byte.byte -> Py.exn + V.
Variable gzip_compress : list Byte.byte -> list Byte.byte.
Variable gzip_decompress : list Byte.byte -> Py.exn + list Byte.byte.

(** A function that ends without [return] yields [None]. *)
Definition get_data (key : string) (st : Store) : Result (option V) :=
  let data := client_get (cache_key key) st in
  match data with
  | Some ((_ :: _) as bytes) =>
      match gzip_decompress bytes with
      | inl e => Raise e
      | inr raw =>
          match pickle_loads raw with
          | inl e => Raise e
          | inr v => Ok (Some v)
          end
      end
  | Some [] | None => Ok None
  end.

Definition set_data (key : string) (data : V) (ttl : Z) (st : Store) : Result unit * Store :=
  let ck := cache_key key in
  match pickle_dumps data with
  | inl e => (Raise e, st)
  | inr raw =>
      let st1 := client_set ck (gzip_compress raw) st in
      if negb (ttl =? -1) then (Ok tt, client_expire ck ttl st1)
      else (Ok tt, st1)
  end.

(** The default of the [ttl] argument. *)
Definition default_ttl : Z := 8 * 60 * 60.

End Codec.

End TemplatePreviewCache.

(** ** Runs of several events *)

(** The events the dispatcher hands to the flow. *)
Inductive Event : Type :=
| NewChatMembers (message : JoinMessage)
| AuthAdmin (callback_query : CallbackQuery)
| AuthChallenge (callback_query : CallbackQuery).

Definition handle (env : Env) (e : Event) : M unit :=
  match e with
  | NewChatMembers message => new_mem env message
  | AuthAdmin callback_query => admin env callback_query
  | AuthChallenge callback_query => query env callback_query
  end.

(** The world after a sequence of events; a handler that raises leaves
    the world as it was at the [raise] and the next event is handled. *)
Fixpoint run (env : Env) (events : list Event) (w : World) : World :=
  match events with
  | [] => w
  | e :: rest => run env rest (snd (handle env e w))
  end.

(** A function [f] of the world that a computation never changes. *)
Definition unchanged {A B} (f : World -> B) (m : M A) : Prop :=
  forall w, f (snd (m w)) = f w.

(** ** A concrete chat, used to run the handlers *)

Module Demo.

Definition group : Z := -1001234.
Definition owner : User := {| user_id := 1; is_bot := false |}.
Definition alice : User := {| user_id := 7; is_bot := false |}.
Definition bob : User := {| user_id := 8; is_bot := false |}.

Definition right_answer : Answer :=
  {| answer_id := 31; answer_text := "Mondstadt"; is_correct := true |}.
Definition wrong_answer : Answer :=
  {| answer_id := 32; answer_text := "Liyue"; is_correct := false |}.
Definition the_question : Question :=
  {| question_id := 3; question_text := "Where is the Favonius Cathedral?";
     answers := [right_answer; wrong_answer] |}.

(** A chat where every bot call succeeds; the clock starts at 1000.5 and
    advances one second per reading. *)
Definition env : Env :=
  {| bot_id := 99;
     now := fun n => ((2001 # 2) + inject_Z (Z.of_nat n))%Q;
     mention_markdown_v2 := fun u => "@" +:+ pretty (user_id u);
     escape_markdown := fun s => s;
     api_get_chat_administrators := fun _ => [{| member_user := owner |}];
     api_get_chat_member := fun _ u => inr {| member_user := {| user_id := u; is_bot := false |} |};
     api_restrict_chat_member := fun _ _ _ => None;
     api_ban_chat_member := fun _ _ _ => None;
     api_edit_text := fun _ _ _ _ => None;
     api_reply_markdown_v2 := fun _ msg _ _ => inr (msg + 1);
     quiz_get_question_id_list := [3];
     quiz_get_question := fun q =>
       if q =? 3 then inr the_question else inl (Py.OtherError "no such question");
     quiz_get_answer := fun a =>
       if a =? 31 then inr right_answer
       else if a =? 32 then inr wrong_answer
       else inl (Py.OtherError "no such answer");
     mt_random := fun low _ => low;
     shuffle := fun rows => rev rows |}.

(** The same chat, with a bot that may not restrict members. *)
Definition env_without_rights : Env :=
  {| bot_id := bot_id env;
     now := now env;
     mention_markdown_v2 := mention_markdown_v2 env;
     escape_markdown := escape_markdown env;
     api_get_chat_administrators := api_get_chat_administrators env;
     api_get_chat_member := api_get_chat_member env;
     api_restrict_chat_member := fun _ _ _ =>
       Some "Not enough rights to restrict/unrestrict chat member";
     api_ban_chat_member := api_ban_chat_member env;
     api_edit_text := api_edit_text env;
     api_reply_markdown_v2 := api_reply_markdown_v2 env;
     quiz_get_question_id_list := quiz_get_question_id_list env;
     quiz_get_question := quiz_get_question env;
     quiz_get_answer := quiz_get_answer env;
     mt_random := mt_random env;
     shuffle := shuffle env |}.

(** Alice joins by herself: the service message comes from her. *)
Definition alice_joins : JoinMessage :=
  {| message_id := 500; chat_id := group; from_user := alice; new_chat_members := [alice] |}.

(** Bob, an ordinary member, adds the owner of the chat. *)
Definition bob_adds_owner : JoinMessage :=
  {| message_id := 510; chat_id := group; from_user := bob; new_chat_members := [owner] |}.

(** The owner adds Alice. *)
Definition owner_adds_alice : JoinMessage :=
  {| message_id := 520; chat_id := group; from_user := owner; new_chat_members := [alice] |}.

Definition press (user : User) (data : string) : CallbackQuery :=
  {| cq_from_user := user; cq_chat_id := group; cq_message_id := 501; cq_data := data |}.

(** A scheduler that holds the three jobs under the ids the handlers
    look up. *)
Definition pending_jobs : gmap string Job :=
  <[job_key group 7 "auth_kick" :=
      {| job_callback := kick_member_job; job_when := 120; job_data := None;
         job_name := job_key group 7 "auth_kick";
         job_chat_id := group; job_user_id := 7 |}]>
  (<[job_key group 7 "auth_clean_join_message" :=
      {| job_callback := clean_message_job; job_when := 120; job_data := Some 500;
         job_name := job_key group 7 "auth_clean_join_message";
         job_chat_id := group; job_user_id := 7 |}]>
  (<[job_key group 7 "auth_clean_question_message" :=
      {| job_callback := clean_message_job; job_when := 120; job_data := Some 501;
         job_name := job_key group 7 "auth_clean_question_message";
         job_chat_id := group; job_user_id := 7 |}]> ∅)).

Definition challenged_world : World := set_scheduler (fun _ => pending_jobs) init_world.

(** Toy codecs for the preview cache: a value is a list of bytes,
    pickling is the identity and compression puts one header byte in
    front. *)
Definition dumps (v : list Byte.byte) : Py.exn + list Byte.byte := inr v.
Definition loads (b : list Byte.byte) : Py.exn + list Byte.byte := inr b.
Definition compress (b : list Byte.byte) : list Byte.byte := Byte.x1f :: b.
Definition decompress (b : list Byte.byte) : Py.exn + list Byte.byte :=
  match b with
  | Byte.x1f :: rest => inr rest
  | _ => inl (Py.OtherError "not a gzipped file")
  end.

End Demo.

(** ** Views of the world and predicates used in the statements *)

(** The chat as the handlers can change it. *)
Definition chat_state (w : World) :=
  (permissions w, bans w, scheduler w, edits w, sent w, chat_data w).

Definition same_chat_state (w w' : World) : Prop := chat_state w' = chat_state w.

(** The flag of [refresh_quiz] and the count of refreshes. *)
Definition refresh_state (w : World) : bool * nat := (is_refresh_quiz w, quiz_refreshes w).

(** [new_mem] after its call of [refresh_quiz]. *)
Definition new_mem_gates (env : Env) (message : JoinMessage) : M unit :=
  if existsb (fun user => user_id user =? bot_id env) (new_chat_members message) then ret tt
  else
    not_enough_rights <- gets (get_not_enough_rights (chat_id message)) ;;
    if not_enough_rights then ret tt
    else
      chat_administrators <- get_chat_administrators env (chat_id message) ;;
      if is_admin chat_administrators (user_id (from_user message)) then
        message_reply_text (chat_id message) (message_id message) text_admin_invite
      else new_mem_members env message (new_chat_members message).

(** What [refresh_quiz] cannot change. *)
Definition outside_refresh (w : World) :=
  (chat_state w, callback_answers w, chat_administrators_cache w, clock_reads w).

(** The claim about joining administrators, read literally: a joining
    user who is in the chat's administrator list is not restricted, no
    job is scheduled and the auto-pass notice is the one message sent. *)
Definition joining_admin_auto_passed (env : Env) (message : JoinMessage) (w : World) : Prop :=
  forall user,
    In user (new_chat_members message) ->
    is_admin (api_get_chat_administrators env (chat_id message)) (user_id user) = true ->
    let w' := snd (new_mem env message w) in
    permissions w' !! (chat_id message, user_id user)
    = permissions w !! (chat_id message, user_id user)
    /\ scheduler w' = scheduler w
    /\ sent w'
       = (sent w ++ [{| out_chat_id := chat_id message;
                        out_reply_to := Some (message_id message);
                        out_text := text_admin_invite; out_markup := None |}])%list.

(** ** Further definitions: text, cleanup job, invariants, more chats *)

(** Every character of a string satisfies [p]. *)
Fixpoint string_forall (p : ascii -> bool) (s : string) : bool :=
  match s with
  | EmptyString => true
  | String c rest => p c && string_forall p rest
  end.

(** The characters [str(n)] is made of for an [int]: digits and the
    minus sign. *)
Definition numeric (c : ascii) : bool :=
  match Py.digit c with
  | Some _ => true
  | None => Ascii.eqb c "-"
  end.

Definition not_bar (c : ascii) : bool := negb (Ascii.eqb c "|").

(** A property of the world that a computation keeps. *)
Definition preserves {A} (P : World -> Prop) (m : M A) : Prop :=
  forall w, P w -> P (snd (m w)).

(** Every job in the scheduler sits under the kick key of its own chat
    and user and is due [time_out] seconds after it was scheduled. *)
Definition jobs_under_kick_key (w : World) : Prop :=
  forall id job,
    scheduler w !! id = Some job ->
    id = job_key (job_chat_id job) (job_user_id job) "auth_kick"
    /\ job_when job = time_out.

(** No job in the scheduler would kick anybody. *)
Definition no_kick_job (w : World) : Prop :=
  forall id job, scheduler w !! id = Some job -> job_callback job = clean_message_job.

(** Variants of an [Env] in one collaborator. *)
Definition with_restrict (f : Z -> Z -> ChatPermissions -> option string) (e : Env) : Env :=
  {| bot_id := bot_id e; now := now e; mention_markdown_v2 := mention_markdown_v2 e;
     escape_markdown := escape_markdown e;
     api_get_chat_administrators := api_get_chat_administrators e;
     api_get_chat_member := api_get_chat_member e;
     api_restrict_chat_member := f;
     api_ban_chat_member := api_ban_chat_member e;
     api_edit_text := api_edit_text e;
     api_reply_markdown_v2 := api_reply_markdown_v2 e;
     quiz_get_question_id_list := quiz_get_question_id_list e;
     quiz_get_question := quiz_get_question e;
     quiz_get_answer := quiz_get_answer e;
     mt_random := mt_random e; shuffle := shuffle e |}.

Definition with_ban (f : Z -> Z -> option Z -> option string) (e : Env) : Env :=
  {| bot_id := bot_id e; now := now e; mention_markdown_v2 := mention_markdown_v2 e;
     escape_markdown := escape_markdown e;
     api_get_chat_administrators := api_get_chat_administrators e;
     api_get_chat_member := api_get_chat_member e;
     api_restrict_chat_member := api_restrict_chat_member e;
     api_ban_chat_member := f;
     api_edit_text := api_edit_text e;
     api_reply_markdown_v2 := api_reply_markdown_v2 e;
     quiz_get_question_id_list := quiz_get_question_id_list e;
     quiz_get_question := quiz_get_question e;
     quiz_get_answer := quiz_get_answer e;
     mt_random := mt_random e; shuffle := shuffle e |}.

Definition with_edit (f : Z -> Z -> string -> option InlineKeyboardMarkup -> option string)
    (e : Env) : Env :=
  {| bot_id := bot_id e; now := now e; mention_markdown_v2 := mention_markdown_v2 e;
     escape_markdown := escape_markdown e;
     api_get_chat_administrators := api_get_chat_administrators e;
     api_get_chat_member := api_get_chat_member e;
     api_restrict_chat_member := api_restrict_chat_member e;
     api_ban_chat_member := api_ban_chat_member e;
     api_edit_text := f;
     api_reply_markdown_v2 := api_reply_markdown_v2 e;
     quiz_get_question_id_list := quiz_get_question_id_list e;
     quiz_get_question := quiz_get_question e;
     quiz_get_answer := quiz_get_answer e;
     mt_random := mt_random e; shuffle := shuffle e |}.

Definition with_reply (f : Z -> Z -> string -> InlineKeyboardMarkup -> string + Z)
    (e : Env) : Env :=
  {| bot_id := bot_id e; now := now e; mention_markdown_v2 := mention_markdown_v2 e;
     escape_markdown := escape_markdown e;
     api_get_chat_administrators := api_get_chat_administrators e;
     api_get_chat_member := api_get_chat_member e;
     api_restrict_chat_member := api_restrict_chat_member e;
     api_ban_chat_member := api_ban_chat_member e;
     api_edit_text := api_edit_text e;
     api_reply_markdown_v2 := f;
     quiz_get_question_id_list := quiz_get_question_id_list e;
     quiz_get_question := quiz_get_question e;
     quiz_get_answer := quiz_get_answer e;
     mt_random := mt_random e; shuffle := shuffle e |}.

Definition with_question_ids (l : list Z) (e : Env) : Env :=
  {| bot_id := bot_id e; now := now e; mention_markdown_v2 := mention_markdown_v2 e;
     escape_markdown := escape_markdown e;
     api_get_chat_administrators := api_get_chat_administrators e;
     api_get_chat_member := api_get_chat_member e;
     api_restrict_chat_member := api_restrict_chat_member e;
     api_ban_chat_member := api_ban_chat_member e;
     api_edit_text := api_edit_text e;
     api_reply_markdown_v2 := api_reply_markdown_v2 e;
     quiz_get_question_id_list := l;
     quiz_get_question := quiz_get_question e;
     quiz_get_answer := quiz_get_answer e;
     mt_random := mt_random e; shuffle := shuffle e |}.

(** [user_info] of [admin]: the mention of the member the bot client
    reports, or the bare user id when [get_chat_member] raises. *)
Definition user_info_of (env : Env) (chat target : Z) : string :=
  match api_get_chat_member env chat target with
  | inr member_info => mention_markdown_v2 env (member_user member_info)
  | inl _ => pretty target
  end.

(** The text [admin] edits into the message: who was decided upon, by
    whom, and the decision. *)
Definition text_admin_decision (env : Env) (chat target : Z) (user : User)
    (decision : string) : string :=
  user_info_of env chat target +:+ " 被 " +:+ mention_markdown_v2 env user +:+ decision.

(** ** A quiz service whose refresh can fail *)

(** [quiz_service.refresh_quiz()] as a call that can raise: the
    invocation number [n], counted from 0, raises [faults n] when that is
    an exception and returns otherwise.  [quiz_refreshes] counts the
    invocations, failed ones included. *)
Definition quiz_service_refresh_quiz_faulty (faults : nat -> option Py.exn) : M unit :=
  n <- gets quiz_refreshes ;;
  modify (set_quiz_refreshes S) ;;;
  match faults n with
  | Some e => raise e
  | None => ret tt
  end.

(** [refresh_quiz] over any quiz service: the flag is set after the
    awaited refresh has returned. *)
Definition refresh_quiz_with (service : M unit) : M unit :=
  flag <- gets is_refresh_quiz ;;
  if negb flag then
    service ;;;
    modify (set_is_refresh_quiz true)
  else ret tt.

Definition new_mem_with (service : M unit) (env : Env) (message : JoinMessage) : M unit :=
  refresh_quiz_with service ;;;
  new_mem_gates env message.

Definition handle_with (service : M unit) (env : Env) (e : Event) : M unit :=
  match e with
  | NewChatMembers message => new_mem_with service env message
  | AuthAdmin callback_query => admin env callback_query
  | AuthChallenge callback_query => query env callback_query
  end.

Fixpoint run_with (service : M unit) (env : Env) (events : list Event) (w : World) : World :=
  match events with
  | [] => w
  | e :: rest => run_with service env rest (snd (handle_with service env e w))
  end.

(** What the flag and the count of invocations say about the past: with
    the flag set, the last invocation returned and all before it raised;
    with the flag unset, every invocation so far raised. *)
Definition refresh_history (faults : nat -> option Py.exn) (w : World) : Prop :=
  if is_refresh_quiz w then
    exists n, quiz_refreshes w = S n /\ faults n = None
              /\ forall i, (i < n)%nat -> faults i <> None
  else forall i, (i < quiz_refreshes w)%nat -> faults i <> None.

(** ** The statements of the specification, read literally *)

(** The full permission set: every permission of a member granted. *)
Definition all_permissions : ChatPermissions :=
  {| can_send_messages := Some true;
     can_send_media_messages := Some true;
     can_send_polls := Some true;
     can_send_other_messages := Some true;
     can_add_web_page_previews := Some true;
     can_change_info := Some true;
     can_invite_users := Some true;
     can_pin_messages := Some true |}.

(** The admin buttons under an answered challenge. *)
Definition expected_kick_button (user : Z) : InlineKeyboardButton :=
  {| button_text := "驱离"; callback_data := "auth_admin|kick|" +:+ pretty user |}.

Definition expected_unban_button (user : Z) : InlineKeyboardButton :=
  {| button_text := "撤回驱离"; callback_data := "auth_admin|unban|" +:+ pretty user |}.

(** The message after a correct answer: the user's mention, that the
    verification succeeded, the question and the answer. *)
Definition expected_success_text (env : Env) (user : User) (question answer : string)
  : string :=
  mention_markdown_v2 env user +:+ " 验证成功，向着星辰与深渊！"
  +:+ String "010" ("问题：" +:+ escape_markdown env question +:+ " "
  +:+ String "010" ("回答：" +:+ escape_markdown env answer)).

(** The message after a wrong answer: the user's mention, that the
    verification failed, the question and the answer. *)
Definition expected_failure_text (env : Env) (user : User) (question answer : string)
  : string :=
  mention_markdown_v2 env user +:+ " 验证失败，已经赶出提瓦特大陆！"
  +:+ String "010" ("问题：" +:+ escape_markdown env question +:+ " "
  +:+ String "010" ("回答：" +:+ escape_markdown env answer)).

(** The notice for an admin payload with an unknown action. *)
Definition expected_error_notice (chat : Z) : Outgoing :=
  {| out_chat_id := chat; out_reply_to := None;
     out_text := "派蒙这边收到了错误的消息！请检查详细日记！"; out_markup := None |}.



(** "The refresh is invoked at most once", whatever the quiz service
    does. *)
Definition refresh_invoked_at_most_once (faults : nat -> option Py.exn) (env : Env)
    (events : list Event) : Prop :=
  (quiz_refreshes
     (run_with (quiz_service_refresh_quiz_faulty faults) env events init_world) <= 1)%nat.

(** "A correct answer by the addressed user restores the full
    permissions, removes both jobs and shows success", whatever the bot
    client answers. *)
Definition correct_answer_restores (env : Env) (cq : CallbackQuery) (w : World) : Prop :=
  forall question answer,
    fst (query_callback env (cq_data cq) w)
    = Ok (user_id (cq_from_user cq), true, question, answer) ->
    let user := cq_from_user cq in
    let chat := cq_chat_id cq in
    let w' := snd (query env cq w) in
    permissions w' !! (chat, user_id user) = Some all_permissions
    /\ scheduler w' !! job_key chat (user_id user) "auth_kick" = None
    /\ scheduler w' !! job_key chat (user_id user) "auth_clean_join_message" = None
    /\ edits w' !! (chat, cq_message_id cq)
       = Some (expected_success_text env user question answer,
               Some [[expected_kick_button (user_id user)]]).

(** "A wrong answer by the addressed user bans for 120 seconds, shows
    failure and removes the kick job", whatever the bot client answers. *)
Definition wrong_answer_bans (env : Env) (cq : CallbackQuery) (w : World) : Prop :=
  forall question answer,
    fst (query_callback env (cq_data cq) w)
    = Ok (user_id (cq_from_user cq), false, question, answer) ->
    let user := cq_from_user cq in
    let chat := cq_chat_id cq in
    let w' := snd (query env cq w) in
    bans w' !! (chat, user_id user)
    = Some (Some (Py.int_of_float (now env (clock_reads w)) + 120))
    /\ scheduler w' !! job_key chat (user_id user) "auth_kick" = None
    /\ edits w' !! (chat, cq_message_id cq)
       = Some (expected_failure_text env user question answer,
               Some [[expected_kick_button (user_id user);
                      expected_unban_button (user_id user)]]).


(** "An unknown action pressed by an administrator of the chat gets the
    error notice and still loses the kick job", with the administrators
    as the bot client reports them. *)
Definition unknown_action_noticed (env : Env) (cq : CallbackQuery) (w : World) : Prop :=
  forall result target,
    is_admin (api_get_chat_administrators env (cq_chat_id cq)) (user_id (cq_from_user cq))
    = true ->
    fst (admin_callback (cq_data cq) w) = Ok (result, target) ->
    result <> "pass" -> result <> "kick" -> result <> "unban" ->
    let w' := snd (admin env cq w) in
    sent w' = (sent w ++ [expected_error_notice (cq_chat_id cq)])%list
    /\ scheduler w' !! job_key (cq_chat_id cq) target "auth_kick" = None.

(** ** Chats in which something goes wrong *)

Module Adverse.

(** The cache still names Bob, who was an administrator at time 0; the
    bot client now reports the owner only (see [Demo.env]).  The clock
    reads 1000.5, so the entry is more than 360 seconds old and the cached
    list is what the handlers get. *)
Definition world : World :=
  set_chat_administrators_cache
    (insert (pretty Demo.group) ((0 # 1)%Q, [{| member_user := Demo.bob |}]))
    Demo.challenged_world.

(** A bot client that refuses to change permissions. *)
Definition env_refusing_restrict : Env :=
  with_restrict (fun _ _ _ => Some "Bad Request: user is an administrator of the chat")
    Demo.env.

(** A bot client that refuses to ban. *)
Definition env_refusing_ban : Env :=
  with_ban (fun _ _ _ => Some "Bad Request: not enough rights to restrict/unrestrict chat member")
    Demo.env.

(** Alice, challenged and muted. *)
Definition muted_world : World :=
  set_permissions (insert (Demo.group, 7) MutedChatPermissions) Demo.challenged_world.

(** A quiz service whose first refresh fails. *)
Definition first_refresh_fails (n : nat) : option Py.exn :=
  match n with
  | O => Some (Py.OtherError "quiz storage is not reachable")
  | S _ => None
  end.

End Adverse.

(** * Properties *)

(** ** Runs on the concrete chat *)

Example split_admin_payload :
  Py.split "|" "auth_admin|pass|42" = ["auth_admin"; "pass"; "42"].
Proof. reflexivity. Qed.

Example split_keeps_empty_pieces : Py.split "|" "a||" = ["a"; EmptyString; EmptyString].
Proof. reflexivity. Qed.

Example int_examples :
  Py.int "42" = inr 42 /\ Py.int "-1001" = inr (-1001) /\ Py.int " 7 " = inr 7
  /\ Py.int "1_0" = inr 10 /\ Py.int "x" = inl Py.ValueError
  /\ Py.int EmptyString = inl Py.ValueError.
Proof. repeat split; reflexivity. Qed.

Example index_examples :
  Py.index [10; 20; 30] 1 = inr 20 /\ Py.index [10; 20; 30] (-1) = inr 30
  /\ Py.index [10; 20; 30] 3 = inl Py.IndexError.
Proof. repeat split; reflexivity. Qed.

Example contains_examples :
  Py.contains "Not enough rights" "Bad Request: Not enough rights to restrict" = true
  /\ Py.contains "not found" "Message can't be deleted" = false.
Proof. split; reflexivity. Qed.

Example job_key_example : job_key (-1001234) 7 "auth_kick" = "-1001234|7|auth_kick".
Proof. reflexivity. Qed.

Example int_truncates_towards_zero :
  Py.int_of_float (2001 # 2)%Q = 1000 /\ Py.int_of_float (-3 # 2)%Q = -1.
Proof. split; reflexivity. Qed.

(** ** Reasoning about computations in [M] *)

Lemma bind_Ok {A B} (m : M A) (k : A -> M B) w a w' :
  m w = (Ok a, w') -> bind m k w = k a w'.
Proof. intros H. unfold bind. now rewrite H. Qed.

Lemma bind_Raise {A B} (m : M A) (k : A -> M B) w e w' :
  m w = (Raise e, w') -> bind m k w = (Raise e, w').
Proof. intros H. unfold bind. now rewrite H. Qed.

Lemma unchanged_ret {A B} (f : World -> B) (a : A) : unchanged f (ret a).
Proof. intros w. reflexivity. Qed.

Lemma unchanged_raise {A B} (f : World -> B) e : unchanged f (@raise A e).
Proof. intros w. reflexivity. Qed.

Lemma unchanged_lift {A B} (f : World -> B) (r : Py.exn + A) : unchanged f (lift r).
Proof. intros w. destruct r; reflexivity. Qed.

Lemma unchanged_gets {A B} (f : World -> B) (g : World -> A) : unchanged f (gets g).
Proof. intros w. reflexivity. Qed.

Lemma unchanged_modify {B} (f : World -> B) (g : World -> World) :
  (forall w, f (g w) = f w) -> unchanged f (modify g).
Proof. intros H w. apply H. Qed.

Lemma unchanged_bind {A B C} (f : World -> C) (m : M A) (k : A -> M B) :
  unchanged f m -> (forall a, unchanged f (k a)) -> unchanged f (bind m k).
Proof.
  intros Hm Hk w. unfold bind. specialize (Hm w).
  destruct (m w) as [[a | e] w1]; simpl in *.
  - rewrite Hk. exact Hm.
  - exact Hm.
Qed.

Lemma unchanged_try {A B} (f : World -> B) (body : M A) (handler : string -> M A) :
  unchanged f body -> (forall message, unchanged f (handler message)) ->
  unchanged f (try_except_BadRequest body handler).
Proof.
  intros Hb Hh w. unfold try_except_BadRequest. specialize (Hb w).
  destruct (body w) as [[a | e] w1]; simpl in *; [exact Hb |].
  destruct e; simpl; try exact Hb. rewrite Hh. exact Hb.
Qed.

Create HintDb flow discriminated.

#[local] Hint Unfold time_time quiz_service_refresh_quiz bot_get_chat_administrators
  bot_get_chat_member bot_restrict_chat_member bot_ban_chat_member bot_send_message
  message_reply_text message_reply_markdown_v2 message_edit_text callback_query_answer
  job_queue_run_once remove_job_if_scheduled refresh_quiz get_chat_administrators
  restore_member admin_callback query_callback : flow.

(** Decomposes a goal [unchanged f m] along the structure of [m]. *)
Ltac frame_step :=
  lazymatch goal with
  | |- unchanged _ (bind _ _) => apply unchanged_bind; [| intros ?]
  | |- unchanged _ (try_except_BadRequest _ _) => apply unchanged_try; [| intros ?]
  | |- unchanged _ (ret _) => apply unchanged_ret
  | |- unchanged _ (raise _) => apply unchanged_raise
  | |- unchanged _ (lift _) => apply unchanged_lift
  | |- unchanged _ (gets _) => apply unchanged_gets
  | |- unchanged _ (modify _) => apply unchanged_modify; intros ?; reflexivity
  | |- unchanged _ (if ?b then _ else _) => destruct b
  | |- unchanged _ (match ?x with _ => _ end) => destruct x
  end.

Ltac frame := autounfold with flow; cbv zeta; repeat frame_step.

(** ** The one-shot quiz refresh *)

Lemma refresh_quiz_first w :
  is_refresh_quiz w = false ->
  refresh_quiz w = (Ok tt, set_is_refresh_quiz true (set_quiz_refreshes S w)).
Proof. intros H. unfold refresh_quiz, bind, gets. simpl. rewrite H. reflexivity. Qed.

Lemma refresh_quiz_later w :
  is_refresh_quiz w = true -> refresh_quiz w = (Ok tt, w).
Proof. intros H. unfold refresh_quiz, bind, gets. simpl. rewrite H. reflexivity. Qed.

Lemma get_chat_administrators_refresh_state env chat :
  unchanged refresh_state (get_chat_administrators env chat).
Proof. unfold get_chat_administrators. frame. Qed.

Lemma admin_refresh_state env cq : unchanged refresh_state (admin env cq).
Proof.
  unfold admin. frame_step; [apply get_chat_administrators_refresh_state |].
  frame.
Qed.

Lemma query_refresh_state env cq : unchanged refresh_state (query env cq).
Proof. unfold query. frame. Qed.

Lemma new_mem_members_refresh_state env message users :
  unchanged refresh_state (new_mem_members env message users).
Proof.
  induction users as [| user rest IH]; simpl; [apply unchanged_ret |].
  destruct (is_bot user); [exact IH |].
  destruct (Z.of_nat _ =? 0); [frame |].
  frame_step; [frame |].
  frame_step; [frame |].
  repeat (frame_step; [frame |]).
  exact IH.
Qed.

Lemma refresh_quiz_returns w : fst (refresh_quiz w) = Ok tt.
Proof.
  destruct (is_refresh_quiz w) eqn:E.
  - now rewrite (refresh_quiz_later w E).
  - now rewrite (refresh_quiz_first w E).
Qed.

(** After [refresh_quiz], the rest of [new_mem] leaves the flag and the
    counter alone. *)
Lemma new_mem_refresh_state env message w :
  refresh_state (snd (new_mem env message w)) = refresh_state (snd (refresh_quiz w)).
Proof.
  unfold new_mem. unfold bind at 1.
  pose proof (refresh_quiz_returns w) as Hr.
  destruct (refresh_quiz w) as [[[] | e] w1]; simpl in *; [| discriminate].
  assert (U : unchanged refresh_state
            (if existsb (fun user => user_id user =? bot_id env) (new_chat_members message)
             then ret tt
             else
               not_enough_rights <- gets (get_not_enough_rights (chat_id message)) ;;
               if not_enough_rights then ret tt
               else
                 chat_administrators <- get_chat_administrators env (chat_id message) ;;
                 if is_admin chat_administrators (user_id (from_user message)) then
                   message_reply_text (chat_id message) (message_id message) text_admin_invite
                 else new_mem_members env message (new_chat_members message))).
  { destruct (existsb _ _); [apply unchanged_ret |].
    frame_step; [frame |]. destruct a; [apply unchanged_ret |].
    frame_step; [apply get_chat_administrators_refresh_state |].
    destruct (is_admin _ _); [frame |].
    apply new_mem_members_refresh_state. }
  apply U.
Qed.

Lemma new_mem_gates_refresh_state env message :
  unchanged refresh_state (new_mem_gates env message).
Proof.
  unfold new_mem_gates.
  destruct (existsb _ _); [apply unchanged_ret |].
  frame_step; [frame |]. destruct a; [apply unchanged_ret |].
  frame_step; [apply get_chat_administrators_refresh_state |].
  destruct (is_admin _ _); [frame |].
  apply new_mem_members_refresh_state.
Qed.

Lemma refresh_history_same faults w w' :
  refresh_state w' = refresh_state w ->
  refresh_history faults w -> refresh_history faults w'.
Proof.
  unfold refresh_state, refresh_history. intros [= Hf Hq]. now rewrite Hf, Hq.
Qed.

Lemma refresh_quiz_with_flag_set service w :
  is_refresh_quiz w = true -> refresh_quiz_with service w = (Ok tt, w).
Proof.
  intros H. cbv beta iota zeta delta [refresh_quiz_with bind gets].
  rewrite H. reflexivity.
Qed.

(** One call of [refresh_quiz] with the flag unset: the service is
    invoked, and the flag is set when, and only when, it returned. *)
Lemma refresh_quiz_with_flag_unset faults w :
  is_refresh_quiz w = false ->
  refresh_quiz_with (quiz_service_refresh_quiz_faulty faults) w
  = match faults (quiz_refreshes w) with
    | Some e => (Raise e, set_quiz_refreshes S w)
    | None => (Ok tt, set_is_refresh_quiz true (set_quiz_refreshes S w))
    end.
Proof.
  intros H.
  cbv beta iota zeta delta [refresh_quiz_with quiz_service_refresh_quiz_faulty bind gets
    modify ret raise].
  rewrite H. cbn [negb]. destruct (faults (quiz_refreshes w)); reflexivity.
Qed.

Lemma refresh_quiz_with_history faults w :
  refresh_history faults w ->
  refresh_history faults (snd (refresh_quiz_with (quiz_service_refresh_quiz_faulty faults) w)).
Proof.
  intros H. destruct (is_refresh_quiz w) eqn:E.
  - now rewrite (refresh_quiz_with_flag_set _ w E).
  - rewrite (refresh_quiz_with_flag_unset faults w E).
    unfold refresh_history in *. rewrite E in H.
    destruct (faults (quiz_refreshes w)) as [e |] eqn:F; cbn [snd]; simpl.
    + rewrite E. intros i Hi.
      destruct (decide (i = quiz_refreshes w)) as [-> | Hne]; [congruence |].
      apply H. lia.
    + exists (quiz_refreshes w). split; [reflexivity |]. split; [exact F | exact H].
Qed.

Lemma handle_with_history faults env e w :
  refresh_history faults w ->
  refresh_history faults
    (snd (handle_with (quiz_service_refresh_quiz_faulty faults) env e w)).
Proof.
  intros H. destruct e as [message | cq | cq]; cbn [handle_with].
  - unfold new_mem_with. unfold bind at 1.
    pose proof (refresh_quiz_with_history faults w H) as H1.
    destruct (refresh_quiz_with _ w) as [[[] | e] w1]; cbn [snd] in *; [| exact H1].
    apply (refresh_history_same faults w1); [| exact H1].
    apply new_mem_gates_refresh_state.
  - apply (refresh_history_same faults w); [apply admin_refresh_state | exact H].
  - apply (refresh_history_same faults w); [apply query_refresh_state | exact H].
Qed.

Lemma run_with_history faults env events w :
  refresh_history faults w ->
  refresh_history faults (run_with (quiz_service_refresh_quiz_faulty faults) env events w).
Proof.
  revert w. induction events as [| e rest IH]; intros w H; [exact H |].
  cbn [run_with]. apply IH, handle_with_history, H.
Qed.

Lemma run_with_app service env events events' w :
  run_with service env (events ++ events') w
  = run_with service env events' (run_with service env events w).
Proof. revert w. induction events as [| e rest IH]; intros w; [reflexivity | apply IH]. Qed.

(** With a refresh that never raises, the count follows the flag. *)
Lemma refresh_history_no_faults faults w :
  (forall n, faults n = None) ->
  refresh_history faults w ->
  quiz_refreshes w = if is_refresh_quiz w then 1%nat else 0%nat.
Proof.
  intros Hn H. unfold refresh_history in H. destruct (is_refresh_quiz w).
  - destruct H as (n & Hq & _ & Hall). destruct n as [| n]; [exact Hq |].
    now destruct (Hall 0%nat ltac:(lia) (Hn 0%nat)).
  - destruct (quiz_refreshes w) as [| q]; [reflexivity |].
    now destruct (H 0%nat ltac:(lia) (Hn 0%nat)).
Qed.

(** C9, as the code has it.  [refresh_quiz] sets its flag after the
    awaited refresh has returned, so the refresh is invoked by every call
    until one invocation returns: whatever the quiz service does and
    whatever events are handled, every invocation before the last one
    raised, and the flag is set exactly when the last one returned.  From
    then on a call finds the flag set and does nothing, so at most one
    invocation ever returns.  With a refresh that never raises the
    refresh is invoked at most once, and exactly once as soon as a
    new-member event has been handled; [refresh_quiz] and [new_mem] are
    this case. *)
Theorem refresh_quiz_until_it_returns (faults : nat -> option Py.exn) (env : Env) :
  let service := quiz_service_refresh_quiz_faulty faults in
  (forall events, refresh_history faults (run_with service env events init_world))
  /\ (forall any_service w,
        is_refresh_quiz w = true -> refresh_quiz_with any_service w = (Ok tt, w))
  /\ ((forall n, faults n = None) ->
      forall events,
        (quiz_refreshes (run_with service env events init_world) <= 1)%nat
        /\ forall message,
             quiz_refreshes
               (run_with service env (events ++ [NewChatMembers message]) init_world)
             = 1%nat)
  /\ (forall message w,
        refresh_quiz_with (quiz_service_refresh_quiz_faulty (fun _ => None)) w
        = refresh_quiz w
        /\ new_mem_with (quiz_service_refresh_quiz_faulty (fun _ => None)) env message w
           = new_mem env message w).
Proof.
  intros service.
  assert (I : forall events, refresh_history faults (run_with service env events init_world)).
  { intros events. apply run_with_history. intros i Hi. simpl in Hi. lia. }
  split; [exact I |]. split; [intros s w; apply refresh_quiz_with_flag_set |].
  split; [| intros message w; split; reflexivity].
  intros Hn events. split.
  - rewrite (refresh_history_no_faults faults _ Hn (I events)).
    destruct (is_refresh_quiz _); lia.
  - intros message.
    rewrite (refresh_history_no_faults faults _ Hn (I _)).
    rewrite run_with_app. cbn [run_with handle_with].
    set (w := run_with service env events init_world).
    assert (F : is_refresh_quiz (snd (new_mem_with service env message w)) = true).
    { unfold new_mem_with. unfold bind at 1.
      assert (R : exists w1, refresh_quiz_with service w = (Ok tt, w1)
                             /\ is_refresh_quiz w1 = true).
      { destruct (is_refresh_quiz w) eqn:E.
        - exists w. split; [now apply refresh_quiz_with_flag_set | exact E].
        - unfold service. rewrite (refresh_quiz_with_flag_unset faults w E), Hn.
          eexists. split; reflexivity. }
      destruct R as (w1 & -> & F1).
      pose proof (new_mem_gates_refresh_state env message w1) as U.
      unfold refresh_state in U. injection U as U _. now rewrite U. }
    now rewrite F.
Qed.

Lemma refresh_quiz_until_it_returns_witness :
  (quiz_refreshes
     (run_with (quiz_service_refresh_quiz_faulty (fun _ => None)) Demo.env
        [NewChatMembers Demo.alice_joins; NewChatMembers Demo.owner_adds_alice]
        init_world) <= 1)%nat.
Proof.
  destruct (refresh_quiz_until_it_returns (fun _ => None) Demo.env) as (_ & _ & H & _).
  apply (H (fun _ => eq_refl)).
Defined.

(** C9, read literally, fails: the first refresh raises, so the second
    new-member event invokes it again. *)
Lemma refresh_invoked_again_after_failure :
  ~ refresh_invoked_at_most_once Adverse.first_refresh_fails Demo.env
      [NewChatMembers Demo.alice_joins; NewChatMembers Demo.alice_joins].
Proof.
  unfold refresh_invoked_at_most_once. intros H. vm_compute in H. lia.
Qed.

(** ** The administrator cache *)

Lemma stale_iff (cache_time t : Q) :
  Qle_bool (cache_time + 360) t = true <-> (360 <= t - cache_time)%Q.
Proof. rewrite Qle_bool_iff. split; intros H; lra. Qed.

Lemma get_chat_administrators_returns env chat w :
  exists admins, fst (get_chat_administrators env chat w) = Ok admins.
Proof.
  cbv beta iota zeta delta [get_chat_administrators bind gets time_time
    bot_get_chat_administrators modify ret].
  destruct (chat_administrators_cache w !! pretty chat) as [[cache_time admins] |];
    cbv beta iota.
  - destruct (Qle_bool _ _); cbn [fst]; eauto.
  - cbn [fst]. eauto.
Qed.

(** C2. [get_chat_administrators(chat_id)] with [t] the clock reading it
    takes: an entry whose age [t - cache_time] is at least 360 seconds is
    returned as it is and the cache is left alone; with a younger entry
    or with none, the list is fetched from the bot client, stored under
    the chat's key together with the time read after the fetch, and
    returned. *)
Theorem get_chat_administrators_cache_policy (env : Env) (chat : Z) (w : World) :
  let key := pretty chat in
  let t := now env (clock_reads w) in
  let fetched := api_get_chat_administrators env chat in
  (forall cache_time admins,
      chat_administrators_cache w !! key = Some (cache_time, admins) ->
      (360 <= t - cache_time)%Q ->
      get_chat_administrators env chat w = (Ok admins, set_clock_reads S w))
  /\ (forall cache_time admins,
      chat_administrators_cache w !! key = Some (cache_time, admins) ->
      (t - cache_time < 360)%Q ->
      get_chat_administrators env chat w
      = (Ok fetched,
         set_chat_administrators_cache
           (insert key (now env (S (clock_reads w)), fetched))
           (set_clock_reads S (set_clock_reads S w))))
  /\ (chat_administrators_cache w !! key = None ->
      get_chat_administrators env chat w
      = (Ok fetched,
         set_chat_administrators_cache (insert key (t, fetched)) (set_clock_reads S w))).
Proof.
  intros key t fetched.
  cbv beta iota zeta delta [get_chat_administrators bind gets time_time
    bot_get_chat_administrators modify ret].
  fold key. fold t. fold fetched.
  split; [| split].
  - intros cache_time admins Hc Hage. rewrite Hc. cbv beta iota.
    apply stale_iff in Hage. unfold t in Hage. rewrite Hage. reflexivity.
  - intros cache_time admins Hc Hage. rewrite Hc. cbv beta iota.
    destruct (Qle_bool (cache_time + 360) (now env (clock_reads w))) eqn:E; [| reflexivity].
    apply stale_iff in E. unfold t in Hage. lra.
  - intros Hc. rewrite Hc. reflexivity.
Qed.

Lemma get_chat_administrators_cache_policy_witness :
  let w := set_chat_administrators_cache
             (insert (pretty Demo.group) ((1281 # 2)%Q, [{| member_user := Demo.bob |}]))
             init_world in
  get_chat_administrators Demo.env Demo.group w
  = (Ok [{| member_user := Demo.bob |}], set_clock_reads S w).
Proof.
  intros w.
  destruct (get_chat_administrators_cache_policy Demo.env Demo.group w) as (H & _ & _).
  apply (H (1281 # 2)%Q).
  - reflexivity.
  - vm_compute. discriminate.
Defined.

Example get_chat_administrators_fresh_entry_refetched :
  let w := set_chat_administrators_cache
             (insert (pretty Demo.group) ((2001 # 2)%Q, [{| member_user := Demo.bob |}]))
             init_world in
  fst (get_chat_administrators Demo.env Demo.group w) = Ok [{| member_user := Demo.owner |}].
Proof. vm_compute. reflexivity. Qed.

(** ** What the collaborators do to the world *)

Lemma pair_eta {A B} (p : A * B) a b : fst p = a -> snd p = b -> p = (a, b).
Proof. destruct p; simpl; congruence. Qed.

Lemma remove_job_if_scheduled_run id w :
  remove_job_if_scheduled id w = (Ok tt, set_scheduler (delete id) w).
Proof.
  cbv beta iota zeta delta [remove_job_if_scheduled bind gets modify ret].
  destruct (scheduler w !! id) eqn:E; [reflexivity |].
  destruct w; unfold set_scheduler; simpl in *.
  now rewrite (delete_id _ _ E).
Qed.

Lemma job_queue_run_once_replacing j id w :
  job_queue_run_once j id true w = (Ok tt, set_scheduler (insert id j) w).
Proof.
  cbv beta iota zeta delta [job_queue_run_once bind gets modify ret].
  destruct (scheduler w !! id); reflexivity.
Qed.

Lemma restore_member_ok env chat user w :
  api_restrict_chat_member env chat user FullChatPermissions = None ->
  restore_member env chat user w
  = (Ok tt, set_permissions (insert (chat, user) FullChatPermissions) w).
Proof.
  intros H.
  cbv beta iota zeta delta [restore_member try_except_BadRequest bot_restrict_chat_member].
  now rewrite H.
Qed.

Lemma restore_member_failed env chat user w message :
  api_restrict_chat_member env chat user FullChatPermissions = Some message ->
  restore_member env chat user w = (Ok tt, w).
Proof.
  intros H.
  cbv beta iota zeta delta [restore_member try_except_BadRequest bot_restrict_chat_member].
  now rewrite H.
Qed.

Lemma time_time_run env w :
  time_time env w = (Ok (now env (clock_reads w)), set_clock_reads S w).
Proof. reflexivity. Qed.

Lemma query_callback_pure env data : unchanged (fun w => w) (query_callback env data).
Proof. unfold query_callback. frame. Qed.

Lemma admin_callback_pure data : unchanged (fun w => w) (admin_callback data).
Proof. unfold admin_callback. frame. Qed.

Lemma get_chat_administrators_chat_state env chat w :
  chat_state (snd (get_chat_administrators env chat w)) = chat_state w
  /\ callback_answers (snd (get_chat_administrators env chat w)) = callback_answers w.
Proof.
  assert (U1 : unchanged chat_state (get_chat_administrators env chat))
    by (unfold get_chat_administrators; frame).
  assert (U2 : unchanged callback_answers (get_chat_administrators env chat))
    by (unfold get_chat_administrators; frame).
  split; [apply U1 | apply U2].
Qed.

(** The kinds of job never share a key for one (chat, user) pair. *)
Lemma job_key_kind_inj chat user kind kind' :
  job_key chat user kind = job_key chat user kind' -> kind = kind'.
Proof.
  unfold job_key. intros H.
  repeat (apply String.app_inj in H). exact H.
Qed.

(** ** Rejected presses *)




(** ** Quiz answers by the addressed user *)

Lemma message_edit_text_ok env chat msg text markup w :
  api_edit_text env chat msg text markup = None ->
  message_edit_text env chat msg text markup w
  = (Ok tt, set_edits (insert (chat, msg) (text, markup)) w).
Proof. intros H. unfold message_edit_text. now rewrite H. Qed.

Lemma bot_ban_chat_member_ok env chat user until_date w :
  api_ban_chat_member env chat user until_date = None ->
  bot_ban_chat_member env chat user until_date w
  = (Ok tt, set_bans (insert (chat, user) until_date) w).
Proof. intros H. unfold bot_ban_chat_member. now rewrite H. Qed.

(** The whole effect of a correct answer when the bot's calls succeed. *)
Lemma query_correct_run env cq w question answer :
  let user := cq_from_user cq in
  let chat := cq_chat_id cq in
  fst (query_callback env (cq_data cq) w) = Ok (user_id user, true, question, answer) ->
  api_restrict_chat_member env chat (user_id user) FullChatPermissions = None ->
  api_edit_text env chat (cq_message_id cq) (text_success env user question answer)
    (Some [[button_kick (user_id user)]]) = None ->
  query env cq w
  = (Ok tt,
     set_scheduler (delete (job_key chat (user_id user) "auth_kick"))
       (set_edits (insert (chat, cq_message_id cq)
                     (text_success env user question answer,
                      Some [[button_kick (user_id user)]]))
          (set_scheduler (delete (job_key chat (user_id user) "auth_clean_join_message"))
             (set_permissions (insert (chat, user_id user) FullChatPermissions)
                (set_callback_answers
                   (fun l => app l [{| answer_alert_text := "验证成功"; show_alert := false |}])
                   w))))).
Proof.
  intros user chat Hq Hr He.
  assert (E : query_callback env (cq_data cq) w
              = (Ok (user_id user, true, question, answer), w))
    by (apply pair_eta; [exact Hq | apply query_callback_pure]).
  unfold query. rewrite (bind_Ok _ _ _ _ _ E). cbv zeta. cbn [fst snd].
  fold user chat. rewrite Z.eqb_refl. cbn [negb].
  erewrite bind_Ok; cycle 1.
  { erewrite bind_Ok by reflexivity.
    erewrite bind_Ok by (apply restore_member_ok; exact Hr).
    erewrite bind_Ok by apply remove_job_if_scheduled_run.
    reflexivity. }
  cbn [fst snd].
  erewrite bind_Ok; cycle 1.
  { unfold try_except_BadRequest. rewrite (message_edit_text_ok _ _ _ _ _ _ He). reflexivity. }
  apply remove_job_if_scheduled_run.
Qed.

(** C3, as the code has it.  A correct answer pressed by the addressed
    user, when the bot client accepts the restoring call and the edit:
    every permission of the user is granted, the jobs stored under the
    kick key and under the join-message cleanup key of that (chat, user)
    pair are gone from the scheduler and no other job is touched, and the
    challenge message carries the text of a passed verification with the
    single button "kick".  The handler does not read the clock in this
    branch: the deadline plays no part. *)
Theorem query_correct_answer (env : Env) (cq : CallbackQuery) (w : World)
    (question answer : string) :
  let user := cq_from_user cq in
  let chat := cq_chat_id cq in
  let kick_key := job_key chat (user_id user) "auth_kick" in
  let join_key := job_key chat (user_id user) "auth_clean_join_message" in
  fst (query_callback env (cq_data cq) w) = Ok (user_id user, true, question, answer) ->
  api_restrict_chat_member env chat (user_id user) all_permissions = None ->
  api_edit_text env chat (cq_message_id cq) (expected_success_text env user question answer)
    (Some [[expected_kick_button (user_id user)]]) = None ->
  let w' := snd (query env cq w) in
  fst (query env cq w) = Ok tt
  /\ permissions w' !! (chat, user_id user) = Some all_permissions
  /\ scheduler w' = delete kick_key (delete join_key (scheduler w))
  /\ scheduler w' !! kick_key = None
  /\ scheduler w' !! join_key = None
  /\ edits w' !! (chat, cq_message_id cq)
     = Some (expected_success_text env user question answer, Some [[expected_kick_button (user_id user)]])
  /\ bans w' = bans w.
Proof.
  intros user chat kick_key join_key Hq Hr He w'.
  pose proof (query_correct_run env cq w question answer Hq Hr He) as R.
  fold user chat kick_key join_key in R.
  subst w'. rewrite R. cbn [fst snd].
  assert (Hne : kick_key <> join_key).
  { intros H. apply job_key_kind_inj in H. discriminate. }
  repeat split; simpl.
  - apply lookup_insert_eq.
  - apply lookup_delete_eq.
  - rewrite lookup_delete_ne by exact Hne. apply lookup_delete_eq.
  - apply lookup_insert_eq.
Qed.

Lemma query_correct_answer_witness :
  let w' := snd (query Demo.env (Demo.press Demo.alice "auth_challenge|7|3|31")
                   Demo.challenged_world) in
  fst (query Demo.env (Demo.press Demo.alice "auth_challenge|7|3|31") Demo.challenged_world)
  = Ok tt
  /\ permissions w' !! (Demo.group, 7) = Some all_permissions
  /\ scheduler w'
     = delete (job_key Demo.group 7 "auth_kick")
         (delete (job_key Demo.group 7 "auth_clean_join_message") Demo.pending_jobs)
  /\ scheduler w' !! job_key Demo.group 7 "auth_kick" = None
  /\ scheduler w' !! job_key Demo.group 7 "auth_clean_join_message" = None
  /\ edits w' !! (Demo.group, 501)
     = Some (expected_success_text Demo.env Demo.alice "Where is the Favonius Cathedral?" "Mondstadt",
             Some [[expected_kick_button 7]])
  /\ bans w' = bans Demo.challenged_world.
Proof.
  apply (query_correct_answer Demo.env (Demo.press Demo.alice "auth_challenge|7|3|31")
           Demo.challenged_world "Where is the Favonius Cathedral?" "Mondstadt");
    reflexivity.
Defined.

(** C3, read literally, fails: when the bot client refuses the restoring
    call, [restore_member] swallows the error; the message shows the
    passed verification while Alice is as muted as before. *)
Lemma correct_answer_leaves_muted :
  ~ correct_answer_restores Adverse.env_refusing_restrict
      (Demo.press Demo.alice "auth_challenge|7|3|31") Adverse.muted_world.
Proof.
  intros H.
  destruct (H "Where is the Favonius Cathedral?" "Mondstadt" eq_refl) as (Hp & _).
  vm_compute in Hp. discriminate.
Qed.

(** The whole effect of a wrong answer when the bot's calls succeed. *)
Lemma query_wrong_run env cq w question answer :
  let user := cq_from_user cq in
  let chat := cq_chat_id cq in
  let until_date := Py.int_of_float (now env (clock_reads w)) + 120 in
  fst (query_callback env (cq_data cq) w) = Ok (user_id user, false, question, answer) ->
  api_ban_chat_member env chat (user_id user) (Some until_date) = None ->
  api_edit_text env chat (cq_message_id cq) (text_failure env user question answer)
    (Some [[button_kick (user_id user); button_unban (user_id user)]]) = None ->
  query env cq w
  = (Ok tt,
     set_scheduler (delete (job_key chat (user_id user) "auth_kick"))
       (set_edits (insert (chat, cq_message_id cq)
                     (text_failure env user question answer,
                      Some [[button_kick (user_id user); button_unban (user_id user)]]))
          (set_bans (insert (chat, user_id user) (Some until_date))
             (set_clock_reads S
                (set_callback_answers
                   (fun l => app l [{| answer_alert_text := text_retry_later;
                                       show_alert := true |}])
                   w))))).
Proof.
  intros user chat until_date Hq Hb He.
  assert (E : query_callback env (cq_data cq) w
              = (Ok (user_id user, false, question, answer), w))
    by (apply pair_eta; [exact Hq | apply query_callback_pure]).
  unfold query. rewrite (bind_Ok _ _ _ _ _ E). cbv zeta. cbn [fst snd].
  fold user chat. rewrite Z.eqb_refl. cbn [negb].
  erewrite bind_Ok; cycle 1.
  { erewrite bind_Ok by reflexivity.
    erewrite bind_Ok by apply time_time_run.
    erewrite bind_Ok by (apply bot_ban_chat_member_ok; exact Hb).
    reflexivity. }
  cbn [fst snd].
  erewrite bind_Ok; cycle 1.
  { unfold try_except_BadRequest. rewrite (message_edit_text_ok _ _ _ _ _ _ He). reflexivity. }
  apply remove_job_if_scheduled_run.
Qed.

(** C4, as the code has it.  A wrong answer pressed by the addressed
    user, when the bot client accepts the ban and the edit: the user is
    banned until the whole second of the answer ([int(time.time())]) plus
    120, the message carries the text of a failed verification with the
    buttons "kick" and "unban", and the job stored under the kick key of
    that (chat, user) pair is gone from the scheduler while every other
    job stays. *)
Theorem query_wrong_answer (env : Env) (cq : CallbackQuery) (w : World)
    (question answer : string) :
  let user := cq_from_user cq in
  let chat := cq_chat_id cq in
  let answer_time := Py.int_of_float (now env (clock_reads w)) in
  let kick_key := job_key chat (user_id user) "auth_kick" in
  fst (query_callback env (cq_data cq) w) = Ok (user_id user, false, question, answer) ->
  api_ban_chat_member env chat (user_id user) (Some (answer_time + 120)) = None ->
  api_edit_text env chat (cq_message_id cq) (expected_failure_text env user question answer)
    (Some [[expected_kick_button (user_id user); expected_unban_button (user_id user)]]) = None ->
  let w' := snd (query env cq w) in
  fst (query env cq w) = Ok tt
  /\ bans w' !! (chat, user_id user) = Some (Some (answer_time + 120))
  /\ edits w' !! (chat, cq_message_id cq)
     = Some (expected_failure_text env user question answer,
             Some [[expected_kick_button (user_id user); expected_unban_button (user_id user)]])
  /\ scheduler w' = delete kick_key (scheduler w)
  /\ scheduler w' !! kick_key = None
  /\ permissions w' = permissions w.
Proof.
  intros user chat answer_time kick_key Hq Hb He w'.
  pose proof (query_wrong_run env cq w question answer Hq Hb He) as R.
  fold user chat answer_time kick_key in R.
  subst w'. rewrite R. cbn [fst snd].
  repeat split; simpl.
  - apply lookup_insert_eq.
  - apply lookup_insert_eq.
  - apply lookup_delete_eq.
Qed.

Lemma query_wrong_answer_witness :
  let w' := snd (query Demo.env (Demo.press Demo.alice "auth_challenge|7|3|32")
                   Demo.challenged_world) in
  fst (query Demo.env (Demo.press Demo.alice "auth_challenge|7|3|32") Demo.challenged_world)
  = Ok tt
  /\ bans w' !! (Demo.group, 7) = Some (Some (1000 + 120))
  /\ edits w' !! (Demo.group, 501)
     = Some (expected_failure_text Demo.env Demo.alice "Where is the Favonius Cathedral?" "Liyue",
             Some [[expected_kick_button 7; expected_unban_button 7]])
  /\ scheduler w' = delete (job_key Demo.group 7 "auth_kick") Demo.pending_jobs
  /\ scheduler w' !! job_key Demo.group 7 "auth_kick" = None
  /\ permissions w' = permissions Demo.challenged_world.
Proof.
  apply (query_wrong_answer Demo.env (Demo.press Demo.alice "auth_challenge|7|3|32")
           Demo.challenged_world "Where is the Favonius Cathedral?" "Liyue");
    reflexivity.
Defined.

(** C4, read literally, fails: when the bot client refuses the ban, the
    error leaves the handler; Alice is not banned, the message is not
    edited and the kick job is still scheduled. *)
Lemma wrong_answer_not_banned :
  ~ wrong_answer_bans Adverse.env_refusing_ban
      (Demo.press Demo.alice "auth_challenge|7|3|32") Demo.challenged_world.
Proof.
  intros H.
  destruct (H "Where is the Favonius Cathedral?" "Liyue" eq_refl) as (Hb & _).
  vm_compute in Hb. discriminate.
Qed.

(** The job that cleans the join message is still there after a wrong
    answer. *)
Example wrong_answer_keeps_join_cleanup :
  is_Some (scheduler (snd (query Demo.env (Demo.press Demo.alice "auth_challenge|7|3|32")
                             Demo.challenged_world))
           !! job_key Demo.group 7 "auth_clean_join_message").
Proof. vm_compute. eauto. Qed.

(** ** Admin decisions *)

Lemma admin_callback_any_world data w w0 :
  fst (admin_callback data w) = fst (admin_callback data w0).
Proof.
  cbv beta iota zeta delta [admin_callback bind lift ret raise].
  destruct (Py.index (Py.split "|" data) 1); [reflexivity |].
  destruct (Py.index (Py.split "|" data) 2) as [| field]; [reflexivity |].
  destruct (Py.int field); reflexivity.
Qed.

Lemma user_info_run env chat target (user : User) w :
  exists user_info,
    try_except_BadRequest
      (member_info <- bot_get_chat_member env chat target ;;
       ret (mention_markdown_v2 env (member_user member_info)))
      (fun _ => ret (pretty target)) w
    = (Ok user_info, w).
Proof.
  cbv beta iota zeta delta [try_except_BadRequest bind bot_get_chat_member ret raise].
  destruct (api_get_chat_member env chat target); eauto.
Qed.

(** C10, as the code has it.  A press by a user who is in the
    administrator list the handler obtains, with a payload whose action is
    none of "pass", "kick" and "unban": the bot sends the error notice to
    the chat, and the job stored under the kick key of the addressed user
    is removed all the same; nothing else of the chat changes. *)
Theorem admin_unknown_action (env : Env) (cq : CallbackQuery) (w : World)
    (admins : list ChatMember) (result : string) (target : Z) :
  let chat := cq_chat_id cq in
  let kick_key := job_key chat target "auth_kick" in
  fst (get_chat_administrators env chat w) = Ok admins ->
  is_admin admins (user_id (cq_from_user cq)) = true ->
  fst (admin_callback (cq_data cq) w) = Ok (result, target) ->
  result <> "pass" -> result <> "kick" -> result <> "unban" ->
  let w' := snd (admin env cq w) in
  fst (admin env cq w) = Ok tt
  /\ sent w'
     = (sent w ++ [expected_error_notice chat])%list
  /\ scheduler w' = delete kick_key (scheduler w)
  /\ (forall job, scheduler w !! kick_key = Some job -> scheduler w' <> scheduler w)
  /\ permissions w' = permissions w
  /\ bans w' = bans w
  /\ edits w' = edits w
  /\ callback_answers w' = callback_answers w.
Proof.
  intros chat kick_key Hl Ha Hp H1 H2 H3 w'.
  destruct (get_chat_administrators_chat_state env chat w) as [Hs Hc].
  set (w1 := snd (get_chat_administrators env chat w)) in *.
  assert (E : get_chat_administrators env chat w = (Ok admins, w1))
    by (apply pair_eta; [exact Hl | reflexivity]).
  assert (P : admin_callback (cq_data cq) w1 = (Ok (result, target), w1)).
  { apply pair_eta; [| apply admin_callback_pure].
    rewrite (admin_callback_any_world _ w1 w). exact Hp. }
  destruct (user_info_run env chat target (cq_from_user cq) w1) as [user_info U].
  assert (R : admin env cq w
              = (Ok tt, set_scheduler (delete kick_key)
                          (set_sent (fun l => app l
                             [{| out_chat_id := chat; out_reply_to := None;
                                 out_text := text_unknown_command; out_markup := None |}])
                             w1))).
  { unfold admin. rewrite (bind_Ok _ _ _ _ _ E). cbv zeta. fold chat.
    rewrite Ha. cbn [negb].
    rewrite (bind_Ok _ _ _ _ _ P). cbn [fst snd].
    rewrite (bind_Ok _ _ _ _ _ U).
    apply String.eqb_neq in H1, H2, H3. rewrite H1, H2, H3.
    erewrite bind_Ok by reflexivity.
    apply remove_job_if_scheduled_run. }
  subst w'. rewrite R. cbn [fst snd]. unfold chat_state in Hs.
  injection Hs as Hperm Hbans Hsched Hedits Hsent Hdata.
  repeat split; simpl.
  - now rewrite Hsent.
  - now rewrite Hsched.
  - intros job Hjob Heq. rewrite Hsched in Heq.
    assert (N : delete kick_key (scheduler w) !! kick_key = None) by apply lookup_delete_eq.
    rewrite Heq, Hjob in N. discriminate.
  - exact Hperm.
  - exact Hbans.
  - exact Hedits.
  - exact Hc.
Qed.

Lemma admin_unknown_action_witness :
  let cq := Demo.press Demo.owner "auth_admin|frobnicate|7" in
  let w' := snd (admin Demo.env cq Demo.challenged_world) in
  fst (admin Demo.env cq Demo.challenged_world) = Ok tt
  /\ sent w'
     = [expected_error_notice Demo.group]
  /\ scheduler w' = delete (job_key Demo.group 7 "auth_kick") Demo.pending_jobs
  /\ (forall job, Demo.pending_jobs !! job_key Demo.group 7 "auth_kick" = Some job ->
                  scheduler w' <> Demo.pending_jobs)
  /\ permissions w' = ∅
  /\ bans w' = ∅
  /\ edits w' = ∅
  /\ callback_answers w' = [].
Proof.
  apply (admin_unknown_action Demo.env (Demo.press Demo.owner "auth_admin|frobnicate|7")
           Demo.challenged_world [{| member_user := Demo.owner |}] "frobnicate" 7);
    try reflexivity; vm_compute; discriminate.
Defined.

(** C10, read literally, fails: the owner is an administrator, but the
    cache entry, more than 360 seconds old, names Bob only; the owner's
    press is rejected, no notice is sent and the kick job stays. *)
Lemma real_admin_gets_no_notice :
  ~ unknown_action_noticed Demo.env (Demo.press Demo.owner "auth_admin|frobnicate|7")
      Adverse.world.
Proof.
  intros H.
  assert (P1 : is_admin (api_get_chat_administrators Demo.env Demo.group) 1 = true)
    by (vm_compute; reflexivity).
  assert (P2 : fst (admin_callback "auth_admin|frobnicate|7" Adverse.world)
               = Ok ("frobnicate", 7)) by (vm_compute; reflexivity).
  assert (N1 : "frobnicate" <> "pass") by discriminate.
  assert (N2 : "frobnicate" <> "kick") by discriminate.
  assert (N3 : "frobnicate" <> "unban") by discriminate.
  destruct (H "frobnicate" 7 P1 P2 N1 N2 N3) as [Hs _].
  vm_compute in Hs. discriminate.
Qed.

(** ** New members *)

Lemma new_mem_eq env message :
  new_mem env message = bind refresh_quiz (fun _ => new_mem_gates env message).
Proof. reflexivity. Qed.

Lemma refresh_quiz_run w :
  exists w2, refresh_quiz w = (Ok tt, w2) /\ outside_refresh w2 = outside_refresh w.
Proof.
  exists (snd (refresh_quiz w)). split.
  - apply pair_eta; [apply refresh_quiz_returns | reflexivity].
  - assert (U : unchanged outside_refresh refresh_quiz) by (unfold refresh_quiz; frame).
    apply U.
Qed.

(** [get_chat_administrators] reads the cache and the clock only. *)
Lemma get_chat_administrators_reads env chat w w2 :
  chat_administrators_cache w2 = chat_administrators_cache w ->
  clock_reads w2 = clock_reads w ->
  fst (get_chat_administrators env chat w2) = fst (get_chat_administrators env chat w).
Proof.
  intros Hc Hk.
  cbv beta iota zeta delta [get_chat_administrators bind gets time_time
    bot_get_chat_administrators modify ret].
  rewrite Hc.
  destruct (chat_administrators_cache w !! pretty chat) as [[cache_time admins] |];
    cbv beta iota; [| reflexivity].
  rewrite Hk. destruct (Qle_bool _ _); reflexivity.
Qed.

Lemma get_not_enough_rights_set chat w :
  get_not_enough_rights chat (set_not_enough_rights chat w) = true.
Proof.
  unfold get_not_enough_rights, set_not_enough_rights. simpl.
  rewrite lookup_insert_eq. simpl. now rewrite lookup_insert_eq.
Qed.

(** C5, as the code has it.  When the sender of the join message, the
    user who joined or who added the new members, is in the administrator
    list the handler obtains, nobody is challenged: no restriction, no
    job, no ban, no edit, and the only message that can be sent is the
    auto-pass notice.  The notice is sent unless the handler returned
    before the check, which it does when the bot itself is among the new
    members or the chat's [not_enough_rights] flag is set. *)
Theorem admin_inviter_auto_pass (env : Env) (message : JoinMessage) (w : World)
    (admins : list ChatMember) :
  let chat := chat_id message in
  let notice := {| out_chat_id := chat; out_reply_to := Some (message_id message);
                   out_text := text_admin_invite; out_markup := None |} in
  fst (get_chat_administrators env chat w) = Ok admins ->
  is_admin admins (user_id (from_user message)) = true ->
  let w' := snd (new_mem env message w) in
  fst (new_mem env message w) = Ok tt
  /\ permissions w' = permissions w
  /\ scheduler w' = scheduler w
  /\ bans w' = bans w
  /\ edits w' = edits w
  /\ chat_data w' = chat_data w
  /\ (sent w' = sent w \/ sent w' = (sent w ++ [notice])%list)
  /\ (existsb (fun user => user_id user =? bot_id env) (new_chat_members message) = false ->
      get_not_enough_rights chat w = false ->
      sent w' = (sent w ++ [notice])%list).
Proof.
  intros chat notice Hl Ha w'. subst w'.
  destruct (refresh_quiz_run w) as (w2 & R & O).
  unfold outside_refresh, chat_state in O.
  injection O as Hperm Hbans Hsched Hedits Hsent Hdata Hans Hcache Hclock.
  rewrite new_mem_eq, (bind_Ok _ _ _ _ _ R). unfold new_mem_gates.
  destruct (existsb _ _) eqn:Eb.
  { cbn [ret fst snd]. repeat split; try assumption; [now left | discriminate]. }
  erewrite bind_Ok by reflexivity.
  assert (Hflag : get_not_enough_rights (chat_id message) w2 = get_not_enough_rights chat w)
    by (unfold get_not_enough_rights; now rewrite Hdata).
  rewrite Hflag.
  destruct (get_not_enough_rights chat w) eqn:Ef.
  { cbn [ret fst snd]. repeat split; try assumption; [now left | discriminate]. }
  destruct (get_chat_administrators_chat_state env chat w2) as [Hs _].
  assert (E : get_chat_administrators env chat w2
              = (Ok admins, snd (get_chat_administrators env chat w2))).
  { apply pair_eta; [| reflexivity].
    rewrite (get_chat_administrators_reads env chat w w2 Hcache Hclock). exact Hl. }
  fold chat. rewrite (bind_Ok _ _ _ _ _ E), Ha.
  unfold chat_state in Hs.
  injection Hs as Hperm' Hbans' Hsched' Hedits' Hsent' Hdata'.
  unfold message_reply_text, modify. cbn [fst snd]. simpl.
  rewrite Hperm', Hbans', Hsched', Hedits', Hsent', Hdata'.
  repeat split; try assumption.
  - right. now rewrite Hsent.
  - intros _ _. now rewrite Hsent.
Qed.

Lemma admin_inviter_auto_pass_witness :
  let w' := snd (new_mem Demo.env Demo.owner_adds_alice init_world) in
  fst (new_mem Demo.env Demo.owner_adds_alice init_world) = Ok tt
  /\ permissions w' = ∅
  /\ scheduler w' = ∅
  /\ bans w' = ∅
  /\ edits w' = ∅
  /\ chat_data w' = ∅
  /\ (sent w' = []
      \/ sent w' = [{| out_chat_id := Demo.group; out_reply_to := Some 520;
                       out_text := text_admin_invite; out_markup := None |}])
  /\ (existsb (fun user => user_id user =? 99) [Demo.alice] = false ->
      get_not_enough_rights Demo.group init_world = false ->
      sent w' = [{| out_chat_id := Demo.group; out_reply_to := Some 520;
                    out_text := text_admin_invite; out_markup := None |}]).
Proof.
  apply (admin_inviter_auto_pass Demo.env Demo.owner_adds_alice init_world
           [{| member_user := Demo.owner |}]); reflexivity.
Defined.

(** C5, read literally, fails: Bob, who is no administrator, adds the
    owner of the chat; the owner is restricted and challenged. *)
Lemma joining_admin_is_challenged :
  ~ joining_admin_auto_passed Demo.env Demo.bob_adds_owner init_world.
Proof.
  intros H.
  destruct (H Demo.owner (or_introl eq_refl) eq_refl) as (Hp & _).
  vm_compute in Hp. discriminate.
Qed.

Lemma new_mem_members_skip_bots env message bots users w :
  Forall (fun user => is_bot user = true) bots ->
  new_mem_members env message (bots ++ users) w = new_mem_members env message users w.
Proof.
  induction 1 as [| user bots Hb _ IH]; [reflexivity |].
  cbn [app new_mem_members]. now rewrite Hb.
Qed.

Lemma question_list_nonempty (l : list Z) : l <> [] -> (Z.of_nat (length l) =? 0) = false.
Proof. destruct l; [congruence |]. intros _. apply Z.eqb_neq. simpl. lia. Qed.

(** The loop of [new_mem] at a member the bot may not restrict. *)
Lemma new_mem_members_not_enough_rights env message user rest w err :
  is_bot user = false ->
  quiz_get_question_id_list env <> [] ->
  api_restrict_chat_member env (chat_id message) (user_id user) MutedChatPermissions
  = Some err ->
  Py.contains marker_not_enough_rights err = true ->
  new_mem_members env message (user :: rest) w
  = (Ok tt, set_not_enough_rights (chat_id message) w).
Proof.
  intros Hb Hq Hr Hc.
  cbn [new_mem_members]. rewrite Hb. cbv zeta.
  rewrite (question_list_nonempty _ Hq).
  erewrite bind_Ok; cycle 1.
  { cbv beta iota zeta delta [try_except_BadRequest bind bot_restrict_chat_member raise].
    rewrite Hr. rewrite Hc. reflexivity. }
  reflexivity.
Qed.

(** The loop of [new_mem] at a member that gets challenged. *)
Lemma new_mem_members_challenge env message user rest w chosen question question_message :
  let chat := chat_id message in
  let id := job_key chat (user_id user) "auth_kick" in
  is_bot user = false ->
  quiz_get_question_id_list env <> [] ->
  api_restrict_chat_member env chat (user_id user) MutedChatPermissions = None ->
  Py.index (quiz_get_question_id_list env)
    (mt_random env 0 (Z.of_nat (length (quiz_get_question_id_list env)))) = inr chosen ->
  quiz_get_question env chosen = inr question ->
  api_reply_markdown_v2 env chat (message_id message) (text_challenge env question)
    (challenge_buttons env user question) = inr question_message ->
  new_mem_members env message (user :: rest) w
  = new_mem_members env message rest
      (set_scheduler
         (insert id
            {| job_callback := clean_message_job; job_when := time_out;
               job_data := Some question_message;
               job_name := job_key chat (user_id user) "auth_clean_question_message";
               job_chat_id := chat; job_user_id := user_id user |})
         (set_scheduler
            (insert id
               {| job_callback := clean_message_job; job_when := time_out;
                  job_data := Some (message_id message);
                  job_name := job_key chat (user_id user) "auth_clean_join_message";
                  job_chat_id := chat; job_user_id := user_id user |})
            (set_scheduler
               (insert id
                  {| job_callback := kick_member_job; job_when := time_out;
                     job_data := None;
                     job_name := job_key chat (user_id user) "auth_kick";
                     job_chat_id := chat; job_user_id := user_id user |})
               (set_sent
                  (fun l => app l
                     [{| out_chat_id := chat; out_reply_to := Some (message_id message);
                         out_text := text_challenge env question;
                         out_markup := Some (challenge_buttons env user question) |}])
                  (set_permissions (insert (chat, user_id user) MutedChatPermissions) w))))).
Proof.
  intros chat id Hb Hq Hr Hi Hg Hs.
  cbn [new_mem_members]. rewrite Hb. cbv zeta. fold chat.
  rewrite (question_list_nonempty _ Hq).
  erewrite bind_Ok; cycle 1.
  { cbv beta iota zeta delta [try_except_BadRequest bind bot_restrict_chat_member modify ret].
    rewrite Hr. reflexivity. }
  cbn [negb]. rewrite Hi. erewrite bind_Ok by reflexivity.
  rewrite Hg. erewrite bind_Ok by reflexivity.
  erewrite bind_Ok; cycle 1.
  { cbv beta iota zeta delta [try_except_BadRequest bind message_reply_markdown_v2 modify ret].
    rewrite Hs. reflexivity. }
  erewrite bind_Ok by apply job_queue_run_once_replacing.
  erewrite bind_Ok by apply job_queue_run_once_replacing.
  erewrite bind_Ok by apply job_queue_run_once_replacing.
  reflexivity.
Qed.

(** C1 on the code.  A challenge calls [run_once] three times, each time
    with the store id [f"{chat.id}|{user.id}|auth_kick"] and
    [replace_existing]: afterwards that one id holds the job that cleans
    the challenge message, and the ids of the two cleanup kinds hold what
    they held before.  The kick job and the join-message cleanup job are
    not in the scheduler. *)
Theorem challenge_jobs_share_one_id (env : Env) (message : JoinMessage) (user : User)
    (w : World) (chosen : Z) (question : Question) (question_message : Z) :
  let chat := chat_id message in
  let kick_key := job_key chat (user_id user) "auth_kick" in
  let join_key := job_key chat (user_id user) "auth_clean_join_message" in
  let question_key := job_key chat (user_id user) "auth_clean_question_message" in
  is_bot user = false ->
  quiz_get_question_id_list env <> [] ->
  api_restrict_chat_member env chat (user_id user) MutedChatPermissions = None ->
  Py.index (quiz_get_question_id_list env)
    (mt_random env 0 (Z.of_nat (length (quiz_get_question_id_list env)))) = inr chosen ->
  quiz_get_question env chosen = inr question ->
  api_reply_markdown_v2 env chat (message_id message) (text_challenge env question)
    (challenge_buttons env user question) = inr question_message ->
  let w' := snd (new_mem_members env message [user] w) in
  fst (new_mem_members env message [user] w) = Ok tt
  /\ scheduler w'
     = <[kick_key :=
           {| job_callback := clean_message_job; job_when := time_out;
              job_data := Some question_message;
              job_name := question_key;
              job_chat_id := chat; job_user_id := user_id user |}]> (scheduler w)
  /\ scheduler w' !! join_key = scheduler w !! join_key
  /\ scheduler w' !! question_key = scheduler w !! question_key.
Proof.
  intros chat kick_key join_key question_key Hb Hq Hr Hi Hg Hs w'.
  pose proof (new_mem_members_challenge env message user [] w chosen question
                question_message Hb Hq Hr Hi Hg Hs) as R.
  subst w'. rewrite R. cbn [new_mem_members ret fst snd]. simpl.
  fold chat kick_key question_key.
  assert (E : forall j1 j2 j3 (s : gmap string Job),
             <[kick_key := j3]> (<[kick_key := j2]> (<[kick_key := j1]> s))
             = <[kick_key := j3]> s)
    by (intros; now rewrite !insert_insert_eq).
  rewrite E. repeat split.
  - apply lookup_insert_ne. intros H. apply job_key_kind_inj in H. discriminate.
  - apply lookup_insert_ne. intros H. apply job_key_kind_inj in H. discriminate.
Qed.

Lemma challenge_jobs_share_one_id_witness :
  let w' := snd (new_mem_members Demo.env Demo.alice_joins [Demo.alice] init_world) in
  fst (new_mem_members Demo.env Demo.alice_joins [Demo.alice] init_world) = Ok tt
  /\ scheduler w'
     = <[job_key Demo.group 7 "auth_kick" :=
           {| job_callback := clean_message_job; job_when := time_out;
              job_data := Some 501;
              job_name := job_key Demo.group 7 "auth_clean_question_message";
              job_chat_id := Demo.group; job_user_id := 7 |}]> ∅
  /\ scheduler w' !! job_key Demo.group 7 "auth_clean_join_message" = None
  /\ scheduler w' !! job_key Demo.group 7 "auth_clean_question_message" = None.
Proof.
  apply (challenge_jobs_share_one_id Demo.env Demo.alice_joins Demo.alice init_world
           3 Demo.the_question 501); try reflexivity.
  vm_compute. discriminate.
Defined.

(** Alice joins a chat with no job pending: one job is in the scheduler
    afterwards, not three, and it is not the kick job. *)
Example alice_joins_one_job :
  let w' := snd (new_mem Demo.env Demo.alice_joins init_world) in
  size (scheduler w') = 1%nat
  /\ job_callback <$> scheduler w' !! job_key Demo.group 7 "auth_kick"
     = Some clean_message_job.
Proof. vm_compute. split; reflexivity. Qed.

(** C7.  (1) When the loop of [new_mem] reaches a member whose
    restriction fails with a [BadRequest] containing "Not enough rights",
    the handler sets [chat_data["not_enough_rights"]] and returns: that
    member is not restricted, gets no message and no job, and the members
    after it are not visited.  (2) For an event whose first member that
    is not a bot fails in this way, the whole handler does nothing to the
    chat but set the flag.  (3) While the flag is set, [new_mem] for that
    chat returns normally without any restriction, ban, message, edit or
    job. *)
Theorem not_enough_rights_is_sticky (env : Env) :
  (forall message user rest w err,
      is_bot user = false ->
      quiz_get_question_id_list env <> [] ->
      api_restrict_chat_member env (chat_id message) (user_id user) MutedChatPermissions
      = Some err ->
      Py.contains marker_not_enough_rights err = true ->
      new_mem_members env message (user :: rest) w
      = (Ok tt, set_not_enough_rights (chat_id message) w))
  /\ (forall message bots user rest w admins err,
      new_chat_members message = (bots ++ user :: rest)%list ->
      Forall (fun u => is_bot u = true) bots ->
      is_bot user = false ->
      existsb (fun u => user_id u =? bot_id env) (new_chat_members message) = false ->
      get_not_enough_rights (chat_id message) w = false ->
      fst (get_chat_administrators env (chat_id message) w) = Ok admins ->
      is_admin admins (user_id (from_user message)) = false ->
      quiz_get_question_id_list env <> [] ->
      api_restrict_chat_member env (chat_id message) (user_id user) MutedChatPermissions
      = Some err ->
      Py.contains marker_not_enough_rights err = true ->
      let w' := snd (new_mem env message w) in
      fst (new_mem env message w) = Ok tt
      /\ get_not_enough_rights (chat_id message) w' = true
      /\ permissions w' = permissions w
      /\ bans w' = bans w
      /\ scheduler w' = scheduler w
      /\ edits w' = edits w
      /\ sent w' = sent w)
  /\ (forall message w,
      get_not_enough_rights (chat_id message) w = true ->
      let w' := snd (new_mem env message w) in
      fst (new_mem env message w) = Ok tt
      /\ same_chat_state w w'
      /\ callback_answers w' = callback_answers w).
Proof.
  split; [| split].
  - intros message user rest w err Hb Hq Hr Hc.
    exact (new_mem_members_not_enough_rights env message user rest w err Hb Hq Hr Hc).
  - intros message bots user rest w admins err Hm Hbots Hb He Hf Hl Ha Hq Hr Hc w'.
    subst w'.
    destruct (refresh_quiz_run w) as (w2 & R & O).
    unfold outside_refresh, chat_state in O.
    injection O as Hperm Hbans Hsched Hedits Hsent Hdata Hans Hcache Hclock.
    rewrite new_mem_eq, (bind_Ok _ _ _ _ _ R). unfold new_mem_gates.
    rewrite He. erewrite bind_Ok by reflexivity.
    assert (Hflag : get_not_enough_rights (chat_id message) w2 = false)
      by (unfold get_not_enough_rights in *; now rewrite Hdata).
    rewrite Hflag.
    destruct (get_chat_administrators_chat_state env (chat_id message) w2) as [Hs _].
    assert (E : get_chat_administrators env (chat_id message) w2
                = (Ok admins, snd (get_chat_administrators env (chat_id message) w2))).
    { apply pair_eta; [| reflexivity].
      rewrite (get_chat_administrators_reads env _ w w2 Hcache Hclock). exact Hl. }
    rewrite (bind_Ok _ _ _ _ _ E), Ha, Hm.
    rewrite (new_mem_members_skip_bots _ _ _ _ _ Hbots).
    rewrite (new_mem_members_not_enough_rights _ _ _ _ _ _ Hb Hq Hr Hc).
    unfold chat_state in Hs.
    injection Hs as Hperm' Hbans' Hsched' Hedits' Hsent' Hdata'.
    cbn [fst snd]. split; [reflexivity |].
    split; [apply get_not_enough_rights_set |].
    simpl. rewrite Hperm', Hbans', Hsched', Hedits', Hsent'. now repeat split.
  - intros message w Hf w'. subst w'.
    destruct (refresh_quiz_run w) as (w2 & R & O).
    assert (Hstate : chat_state w2 = chat_state w)
      by (unfold outside_refresh in O; congruence).
    assert (Hans : callback_answers w2 = callback_answers w)
      by (unfold outside_refresh in O; congruence).
    rewrite new_mem_eq, (bind_Ok _ _ _ _ _ R). unfold new_mem_gates.
    destruct (existsb _ _).
    { cbn [ret fst snd]. split; [reflexivity | split; [exact Hstate | exact Hans]]. }
    erewrite bind_Ok by reflexivity.
    assert (Hflag : get_not_enough_rights (chat_id message) w2 = true).
    { pose proof Hstate as Hstate'. unfold chat_state in Hstate'.
      injection Hstate' as _ _ _ _ _ Hdata.
      unfold get_not_enough_rights in *. now rewrite Hdata. }
    rewrite Hflag. cbn [ret fst snd].
    split; [reflexivity | split; [exact Hstate | exact Hans]].
Qed.

Lemma not_enough_rights_is_sticky_witness :
  (let w' := snd (new_mem Demo.env_without_rights Demo.alice_joins init_world) in
   fst (new_mem Demo.env_without_rights Demo.alice_joins init_world) = Ok tt
   /\ get_not_enough_rights Demo.group w' = true
   /\ permissions w' = ∅ /\ bans w' = ∅ /\ scheduler w' = ∅ /\ edits w' = ∅ /\ sent w' = [])
  /\ (let w := snd (new_mem Demo.env_without_rights Demo.alice_joins init_world) in
      let w' := snd (new_mem Demo.env Demo.alice_joins w) in
      fst (new_mem Demo.env Demo.alice_joins w) = Ok tt
      /\ same_chat_state w w'
      /\ callback_answers w' = callback_answers w).
Proof.
  split.
  - destruct (not_enough_rights_is_sticky Demo.env_without_rights) as (_ & H & _).
    apply (H Demo.alice_joins [] Demo.alice [] init_world [{| member_user := Demo.owner |}]
             "Not enough rights to restrict/unrestrict chat member");
      try reflexivity; try (vm_compute; discriminate).
    constructor.
  - destruct (not_enough_rights_is_sticky Demo.env) as (_ & _ & H).
    apply H. reflexivity.
Defined.

(** ** The preview cache *)

Section PreviewCache.

Import TemplatePreviewCache.

Variable V : Type.
Variable pickle_dumps : V -> Py.exn + list Byte.byte.
Variable pickle_loads : list Byte.byte -> Py.exn + V.
Variable gzip_compress : list Byte.byte -> list Byte.byte.
Variable gzip_decompress : list Byte.byte -> Py.exn + list Byte.byte.

(** What the cache relies on from [gzip] and [pickle]: decompression
    undoes compression, compressed data is never empty (it starts with a
    header), and loading undoes dumping. *)
Hypothesis decompress_compress : forall b, gzip_decompress (gzip_compress b) = inr b.
Hypothesis compress_nonempty : forall b, gzip_compress b <> [].
Hypothesis loads_dumps : forall v b, pickle_dumps v = inr b -> pickle_loads b = inr v.

Lemma get_data_stored key v raw expiry (st : Store) :
  pickle_dumps v = inr raw ->
  st !! cache_key key = Some (gzip_compress raw, expiry) ->
  get_data V pickle_loads gzip_decompress key st = Ok (Some v).
Proof.
  intros Hd Hs. unfold get_data, client_get. rewrite Hs. simpl.
  pose proof (compress_nonempty raw) as Hn.
  pose proof (decompress_compress raw) as Hdc.
  destruct (gzip_compress raw) as [| b bytes]; [congruence |].
  simpl. rewrite Hdc. now rewrite (loads_dumps v raw Hd).
Qed.

Lemma get_data_absent key (st : Store) :
  st !! cache_key key = None ->
  get_data V pickle_loads gzip_decompress key st = Ok None.
Proof. intros Hs. unfold get_data, client_get. now rewrite Hs. Qed.

(** The entry under the key right after [set_data]. *)
Lemma set_data_entry key v raw ttl (st : Store) :
  pickle_dumps v = inr raw ->
  set_data V pickle_dumps gzip_compress key v ttl st
  = (Ok tt,
     if ttl =? -1 then <[cache_key key := (gzip_compress raw, None)]> st
     else if ttl <=? 0 then delete (cache_key key) st
     else <[cache_key key := (gzip_compress raw, Some ttl)]> st).
Proof.
  intros Hd. unfold set_data. rewrite Hd. cbv zeta.
  destruct (ttl =? -1); cbn [negb]; [reflexivity |].
  unfold client_expire, client_set. rewrite lookup_insert_eq.
  destruct (ttl <=? 0).
  - now rewrite delete_insert_eq.
  - now rewrite insert_insert_eq.
Qed.

End PreviewCache.

(** C8. With [gzip] and [pickle] as inverses of their counterparts:
    after [set_data(key, v, ttl)] of a value that can be pickled,
    [get_data(key)] returns [v] for as long as the store keeps the key,
    that is forever when [ttl] is -1 and for less than [ttl] seconds
    otherwise; once the key's time is up, and whenever the store holds
    nothing under the namespaced key, [get_data] returns [None] and
    raises nothing. *)
Theorem preview_cache_round_trip (V : Type)
    (pickle_dumps : V -> Py.exn + list Byte.byte)
    (pickle_loads : list Byte.byte -> Py.exn + V)
    (gzip_compress : list Byte.byte -> list Byte.byte)
    (gzip_decompress : list Byte.byte -> Py.exn + list Byte.byte) :
  (forall b, gzip_decompress (gzip_compress b) = inr b) ->
  (forall b, gzip_compress b <> []) ->
  (forall v b, pickle_dumps v = inr b -> pickle_loads b = inr v) ->
  forall (key : string) (v : V) (ttl : Z) (st : gmap string (list Byte.byte * option Z)),
    (exists raw, pickle_dumps v = inr raw) ->
    let get := TemplatePreviewCache.get_data V pickle_loads gzip_decompress in
    let st' := snd (TemplatePreviewCache.set_data V pickle_dumps gzip_compress key v ttl st) in
    fst (TemplatePreviewCache.set_data V pickle_dumps gzip_compress key v ttl st) = Ok tt
    /\ (forall d, 0 <= d -> ttl = -1 \/ d < ttl ->
                  get key (TemplatePreviewCache.elapse d st') = Ok (Some v))
    /\ (forall d, ttl <> -1 -> ttl <= d ->
                  get key (TemplatePreviewCache.elapse d st') = Ok None)
    /\ (forall st0 : gmap string (list Byte.byte * option Z),
          st0 !! TemplatePreviewCache.cache_key key = None -> get key st0 = Ok None).
Proof.
  intros Hdc Hne Hld key v ttl st [raw Hraw] get st'.
  subst st'. rewrite (set_data_entry V pickle_dumps gzip_compress key v raw ttl st Hraw).
  cbn [fst snd]. split; [reflexivity |]. split; [| split].
  - intros d Hd Httl.
    destruct (ttl =? -1) eqn:E1.
    + apply (get_data_stored V pickle_dumps pickle_loads gzip_compress gzip_decompress
               Hdc Hne Hld key v raw None); [exact Hraw |].
      unfold TemplatePreviewCache.elapse. rewrite lookup_omap, lookup_insert_eq. reflexivity.
    + apply Z.eqb_neq in E1.
      assert (E2 : (ttl <=? 0) = false) by (apply Z.leb_gt; lia).
      rewrite E2.
      apply (get_data_stored V pickle_dumps pickle_loads gzip_compress gzip_decompress
               Hdc Hne Hld key v raw (Some (ttl - d))); [exact Hraw |].
      unfold TemplatePreviewCache.elapse. rewrite lookup_omap, lookup_insert_eq. simpl.
      assert (E3 : (ttl <=? d) = false) by (apply Z.leb_gt; lia).
      now rewrite E3.
  - intros d Hn Hd.
    apply Z.eqb_neq in Hn. rewrite Hn.
    apply (get_data_absent V pickle_loads gzip_decompress).
    unfold TemplatePreviewCache.elapse. rewrite lookup_omap.
    destruct (ttl <=? 0) eqn:E2.
    + now rewrite lookup_delete_eq.
    + rewrite lookup_insert_eq. simpl.
      assert (E3 : (ttl <=? d) = true) by (apply Z.leb_le; lia).
      now rewrite E3.
  - intros st0 H0. now apply (get_data_absent V pickle_loads gzip_decompress).
Qed.

Lemma preview_cache_round_trip_witness :
  let get := TemplatePreviewCache.get_data (list Byte.byte) Demo.loads Demo.decompress in
  let st' := snd (TemplatePreviewCache.set_data (list Byte.byte) Demo.dumps Demo.compress
                    "card" [Byte.x61; Byte.x62] TemplatePreviewCache.default_ttl ∅) in
  fst (TemplatePreviewCache.set_data (list Byte.byte) Demo.dumps Demo.compress
         "card" [Byte.x61; Byte.x62] TemplatePreviewCache.default_ttl ∅) = Ok tt
  /\ (forall d, 0 <= d -> TemplatePreviewCache.default_ttl = -1
                          \/ d < TemplatePreviewCache.default_ttl ->
                get "card" (TemplatePreviewCache.elapse d st') = Ok (Some [Byte.x61; Byte.x62]))
  /\ (forall d, TemplatePreviewCache.default_ttl <> -1 ->
                TemplatePreviewCache.default_ttl <= d ->
                get "card" (TemplatePreviewCache.elapse d st') = Ok None)
  /\ (forall st0 : gmap string (list Byte.byte * option Z),
        st0 !! TemplatePreviewCache.cache_key "card" = None -> get "card" st0 = Ok None).
Proof.
  apply (preview_cache_round_trip (list Byte.byte) Demo.dumps Demo.loads
           Demo.compress Demo.decompress).
  - intros b. reflexivity.
  - intros b. discriminate.
  - intros v b H. injection H as ->. reflexivity.
  - exists [Byte.x61; Byte.x62]. reflexivity.
Defined.

Example preview_cache_get_after_set :
  TemplatePreviewCache.get_data (list Byte.byte) Demo.loads Demo.decompress "card"
    (snd (TemplatePreviewCache.set_data (list Byte.byte) Demo.dumps Demo.compress
            "card" [Byte.x61; Byte.x62] 60 ∅))
  = Ok (Some [Byte.x61; Byte.x62]).
Proof. vm_compute. reflexivity. Qed.

(** A time to live of zero deletes the key at once. *)
Example preview_cache_ttl_zero :
  TemplatePreviewCache.get_data (list Byte.byte) Demo.loads Demo.decompress "card"
    (snd (TemplatePreviewCache.set_data (list Byte.byte) Demo.dumps Demo.compress
            "card" [Byte.x61; Byte.x62] 0 ∅))
  = Ok None.
Proof. vm_compute. reflexivity. Qed.

(** ** Whole runs on the concrete chat *)

(** Alice joins and answers correctly: she has her rights back and the
    scheduler is empty.  The job the handler finds under the kick key is
    the one [new_mem] stored last, the cleanup of the challenge message. *)
Example alice_joins_and_passes :
  let w := run Demo.env
             [NewChatMembers Demo.alice_joins;
              AuthChallenge (Demo.press Demo.alice "auth_challenge|7|3|31")]
             init_world in
  permissions w !! (Demo.group, 7) = Some FullChatPermissions
  /\ scheduler w = ∅
  /\ quiz_refreshes w = 1%nat.
Proof. vm_compute. repeat split; reflexivity. Qed.

(** Alice joins and answers wrongly: she is banned for 120 seconds from
    the whole second of her answer. *)
Example alice_joins_and_fails :
  let w := run Demo.env
             [NewChatMembers Demo.alice_joins;
              AuthChallenge (Demo.press Demo.alice "auth_challenge|7|3|32")]
             init_world in
  bans w !! (Demo.group, 7) = Some (Some 1121)
  /\ permissions w !! (Demo.group, 7) = Some MutedChatPermissions.
Proof. vm_compute. split; reflexivity. Qed.

(** A kick job that fires bans the user for [kick_time] seconds; a
    [BadRequest] of the bot client is swallowed. *)
Example kick_member_job_fires :
  bans (snd (run_kick_member_job Demo.env
               {| job_callback := kick_member_job; job_when := 120; job_data := None;
                  job_name := job_key Demo.group 7 "auth_kick";
                  job_chat_id := Demo.group; job_user_id := 7 |} init_world))
  !! (Demo.group, 7) = Some (Some 1120).
Proof. vm_compute. reflexivity. Qed.

(** * Further properties of the code *)

(** ** Numbers in text: [f"{n}"], [split] and [int] *)

Lemma string_app_cons c (a b : string) : String c a +:+ b = String c (a +:+ b).
Proof. reflexivity. Qed.

Lemma string_app_nil_l (b : string) : EmptyString +:+ b = b.
Proof. reflexivity. Qed.

Lemma string_app_nil_r (s : string) : s +:+ EmptyString = s.
Proof.
  induction s as [| c s IH]; [reflexivity |].
  now rewrite string_app_cons, IH.
Qed.

Lemma string_app_assoc (a b c : string) : (a +:+ b) +:+ c = a +:+ (b +:+ c).
Proof.
  induction a as [| x a IH]; [reflexivity |].
  now rewrite !string_app_cons, IH.
Qed.

Lemma string_forall_app p a b :
  string_forall p (a +:+ b) = string_forall p a && string_forall p b.
Proof.
  induction a as [| c a IH]; [reflexivity |].
  rewrite string_app_cons. cbn [string_forall]. rewrite IH. now rewrite andb_assoc.
Qed.

Lemma string_forall_impl (p q : ascii -> bool) s :
  (forall c, p c = true -> q c = true) ->
  string_forall p s = true -> string_forall q s = true.
Proof.
  intros H. induction s as [| c s IH]; [reflexivity |].
  cbn [string_forall]. intros [Hc Hs]%andb_prop. rewrite (H c Hc). now apply IH.
Qed.

Lemma rev_app_rev_app s t u :
  String.rev_app (String.rev_app s t) u = String.rev_app t (s +:+ u).
Proof.
  revert t u. induction s as [| c s IH]; intros t u; [reflexivity |].
  cbn [String.rev_app]. rewrite IH. cbn [String.rev_app]. now rewrite string_app_cons.
Qed.

Lemma string_rev_involutive s : String.rev (String.rev s) = s.
Proof.
  unfold String.rev. rewrite rev_app_rev_app. cbn [String.rev_app].
  apply string_app_nil_r.
Qed.

Lemma string_forall_rev_app p s t :
  string_forall p s = true -> string_forall p t = true ->
  string_forall p (String.rev_app s t) = true.
Proof.
  revert t. induction s as [| c s IH]; intros t Hs Ht; [exact Ht |].
  cbn [string_forall String.rev_app] in *. apply andb_prop in Hs as [Hc Hs].
  apply IH; [exact Hs |]. cbn [string_forall]. now rewrite Hc, Ht.
Qed.

Lemma lstrip_no_ws s :
  string_forall (fun c => negb (Py.is_ws c)) s = true -> Py.lstrip s = s.
Proof.
  destruct s as [| c s]; [reflexivity |].
  cbn [string_forall Py.lstrip]. intros [Hc _]%andb_prop.
  apply negb_true_iff in Hc. now rewrite Hc.
Qed.

Lemma strip_no_ws s :
  string_forall (fun c => negb (Py.is_ws c)) s = true -> Py.strip s = s.
Proof.
  intros H. unfold Py.strip. rewrite (lstrip_no_ws s H).
  rewrite lstrip_no_ws; [apply string_rev_involutive |].
  apply string_forall_rev_app; [exact H | reflexivity].
Qed.

Lemma numeric_no_ws c : numeric c = true -> negb (Py.is_ws c) = true.
Proof. destruct c as [[] [] [] [] [] [] [] []]; vm_compute; congruence. Qed.

Lemma numeric_not_bar c : numeric c = true -> not_bar c = true.
Proof. destruct c as [[] [] [] [] [] [] [] []]; vm_compute; congruence. Qed.

Lemma pretty_N_char_digit d :
  (d < 10)%N -> Py.digit (pretty_N_char d) = Some (Z.of_N d).
Proof.
  intros H.
  assert (C : (d = 0 \/ d = 1 \/ d = 2 \/ d = 3 \/ d = 4 \/ d = 5 \/ d = 6
               \/ d = 7 \/ d = 8 \/ d = 9)%N) by lia.
  repeat (destruct C as [-> | C]; [reflexivity |]). now subst.
Qed.

Lemma pretty_N_char_numeric d : numeric (pretty_N_char d) = true.
Proof. unfold pretty_N_char. repeat case_match; reflexivity. Qed.

Lemma pretty_N_go_numeric x s :
  string_forall numeric s = true -> string_forall numeric (pretty_N_go x s) = true.
Proof.
  revert s. induction (N.lt_wf_0 x) as [x _ IH]. intros s Hs.
  destruct (N.eq_dec x 0%N) as [-> | Hx]; [now rewrite pretty_N_go_0 |].
  rewrite pretty_N_go_step by lia.
  apply IH; [apply N.div_lt; lia |].
  cbn [string_forall]. now rewrite pretty_N_char_numeric, Hs.
Qed.

Lemma pretty_positive_numeric (p : positive) : string_forall numeric (pretty p) = true.
Proof.
  unfold pretty, pretty_positive, pretty, pretty_N.
  case_decide; [reflexivity |]. now apply pretty_N_go_numeric.
Qed.

Lemma pretty_Z_numeric (z : Z) : string_forall numeric (pretty z) = true.
Proof.
  destruct z as [| p | p]; [reflexivity | apply pretty_positive_numeric |].
  change (pretty (Zneg p)) with ("-" +:+ pretty p).
  rewrite string_forall_app, pretty_positive_numeric. reflexivity.
Qed.

(** Reading the digits that [pretty_N_go] put in front of [s]. *)
Lemma digits_pretty_N_go x :
  exists k, forall acc prev s,
    Py.digits acc prev (pretty_N_go x s)
    = Py.digits (acc * k + Z.of_N x) (prev || (0 <? x)%N) s.
Proof.
  induction (N.lt_wf_0 x) as [x _ IH].
  destruct (N.eq_dec x 0%N) as [-> | Hx].
  - exists 1. intros acc prev s. rewrite pretty_N_go_0.
    replace (acc * 1 + Z.of_N 0) with acc by lia. now rewrite orb_false_r.
  - destruct (IH (x `div` 10)%N) as [k Hk]; [apply N.div_lt; lia |].
    exists (10 * k). intros acc prev s.
    rewrite pretty_N_go_step by lia. rewrite Hk.
    cbn [Py.digits]. rewrite pretty_N_char_digit by (apply N.mod_lt; lia).
    assert (Hpos : (0 <? x)%N = true) by (apply N.ltb_lt; lia).
    rewrite Hpos, orb_true_r. f_equal.
    rewrite (N.div_mod x 10) at 3 by lia.
    rewrite N2Z.inj_add, N2Z.inj_mul. change (Z.of_N 10) with 10. lia.
Qed.

Lemma digits_pretty_positive (p : positive) :
  Py.digits 0 false (pretty p) = Some (Zpos p).
Proof.
  unfold pretty, pretty_positive, pretty, pretty_N.
  case_decide; [discriminate |].
  destruct (digits_pretty_N_go (Npos p)) as [k Hk]. rewrite Hk.
  cbn. reflexivity.
Qed.

Lemma int_unsigned s :
  Py.strip s = s ->
  (forall rest, s <> String "-" rest) -> (forall rest, s <> String "+" rest) ->
  Py.int s = match Py.digits 0 false s with
             | Some z => inr z
             | None => inl Py.ValueError
             end.
Proof.
  intros Hs Hm Hp. unfold Py.int. rewrite Hs.
  destruct s as [| c rest]; [reflexivity |].
  destruct c as [[] [] [] [] [] [] [] []]; try reflexivity.
  - now destruct (Hp rest).
  - now destruct (Hm rest).
Qed.

Lemma int_negative s :
  Py.strip (String "-" s) = String "-" s ->
  Py.int (String "-" s) = match Py.digits 0 false s with
                          | Some z => inr (- z)
                          | None => inl Py.ValueError
                          end.
Proof.
  intros Hs. unfold Py.int. rewrite Hs. cbv zeta.
  destruct (Py.digits 0 false s); reflexivity.
Qed.

(** [int(str(n)) == n]. *)
Lemma int_pretty (z : Z) : Py.int (pretty z) = inr z.
Proof.
  assert (Hs : Py.strip (pretty z) = pretty z).
  { apply strip_no_ws, (string_forall_impl numeric);
      [apply numeric_no_ws | apply pretty_Z_numeric]. }
  destruct z as [| p | p]; [reflexivity | |].
  - change (pretty (Zpos p)) with (pretty p) in *.
    rewrite int_unsigned.
    + now rewrite digits_pretty_positive.
    + exact Hs.
    + intros rest H. pose proof (digits_pretty_positive p) as D.
      rewrite H in D. cbn in D. discriminate.
    + intros rest H. pose proof (digits_pretty_positive p) as D.
      rewrite H in D. cbn in D. discriminate.
  - change (pretty (Zneg p)) with (String "-" (pretty p)) in *.
    rewrite (int_negative _ Hs). now rewrite digits_pretty_positive.
Qed.

Lemma split_no_sep s : string_forall not_bar s = true -> Py.split "|" s = [s].
Proof.
  induction s as [| c s IH]; [reflexivity |].
  cbn [string_forall Py.split]. intros [Hc Hs]%andb_prop.
  unfold not_bar in Hc. apply negb_true_iff in Hc.
  rewrite Hc. now rewrite (IH Hs).
Qed.

Lemma split_field a rest :
  string_forall not_bar a = true ->
  Py.split "|" (a +:+ String "|" rest) = a :: Py.split "|" rest.
Proof.
  induction a as [| c a IH]; [reflexivity |].
  rewrite string_app_cons. cbn [string_forall Py.split]. intros [Hc Ha]%andb_prop. unfold not_bar in Hc. apply negb_true_iff in Hc.
  rewrite Hc. now rewrite (IH Ha).
Qed.

Lemma pretty_not_bar (z : Z) : string_forall not_bar (pretty z) = true.
Proof.
  apply (string_forall_impl numeric); [apply numeric_not_bar | apply pretty_Z_numeric].
Qed.

(** Two texts that agree up to and including their first bar. *)
Lemma bar_field_inj a a' rest rest' :
  string_forall not_bar a = true -> string_forall not_bar a' = true ->
  a +:+ String "|" rest = a' +:+ String "|" rest' -> a = a' /\ rest = rest'.
Proof.
  revert a'. induction a as [| c a IH]; intros [| c' a'] Ha Ha' H;
    rewrite ?string_app_cons, ?string_app_nil_l in H; cbn [string_forall] in *.
  - now injection H.
  - injection H as <- _. apply andb_prop in Ha' as [Hc _]. discriminate.
  - injection H as -> _. apply andb_prop in Ha as [Hc _]. discriminate.
  - injection H as -> H. apply andb_prop in Ha as [_ Ha]. apply andb_prop in Ha' as [_ Ha'].
    destruct (IH a' Ha Ha' H) as [-> ->]. now split.
Qed.

(** ** Callback payloads *)


Lemma split_admin_action_payload (action : string) (user : Z) :
  string_forall not_bar action = true ->
  Py.split "|" ("auth_admin|" +:+ action +:+ "|" +:+ pretty user)
  = ["auth_admin"; action; pretty user].
Proof.
  intros Ha.
  change (Py.split "|" ("auth_admin" +:+ String "|" (action +:+ String "|" (pretty user)))
          = ["auth_admin"; action; pretty user]).
  rewrite split_field by reflexivity.
  rewrite split_field by exact Ha.
  now rewrite split_no_sep by apply pretty_not_bar.
Qed.



(** X2. The payloads of the admin buttons, [f"auth_admin|pass|{user.id}"],
    [f"auth_admin|kick|{user.id}"] and [f"auth_admin|unban|{user.id}"],
    and any [f"auth_admin|{action}|{user.id}"] whose action has no bar,
    are read back by [admin_callback] as the action and the user id. *)
Theorem admin_payload_round_trip (action : string) (user : Z) (w : World) :
  string_forall not_bar action = true ->
  admin_callback ("auth_admin|" +:+ action +:+ "|" +:+ pretty user) w
  = (Ok (action, user), w)
  /\ admin_callback (callback_data (button_pass user)) w = (Ok ("pass", user), w)
  /\ admin_callback (callback_data (button_kick user)) w = (Ok ("kick", user), w)
  /\ admin_callback (callback_data (button_unban user)) w = (Ok ("unban", user), w).
Proof.
  assert (G : forall a, string_forall not_bar a = true ->
              admin_callback ("auth_admin|" +:+ a +:+ "|" +:+ pretty user) w
              = (Ok (a, user), w)).
  { intros a Ha. unfold admin_callback. rewrite (split_admin_action_payload a user Ha).
    cbv zeta.
    change (Py.index ["auth_admin"; a; pretty user] 1) with (@inr Py.exn string a).
    change (Py.index ["auth_admin"; a; pretty user] 2) with (@inr Py.exn string (pretty user)).
    cbv beta iota delta [bind lift ret raise].
    now rewrite int_pretty. }
  intros Ha. split; [exact (G action Ha) |].
  split; [exact (G "pass" eq_refl) |].
  split; [exact (G "kick" eq_refl) | exact (G "unban" eq_refl)].
Qed.

Lemma admin_payload_round_trip_witness :
  admin_callback ("auth_admin|" +:+ "frobnicate" +:+ "|" +:+ pretty (-42)) init_world
  = (Ok ("frobnicate", -42), init_world)
  /\ admin_callback (callback_data (button_pass (-42))) init_world
     = (Ok ("pass", -42), init_world)
  /\ admin_callback (callback_data (button_kick (-42))) init_world
     = (Ok ("kick", -42), init_world)
  /\ admin_callback (callback_data (button_unban (-42))) init_world
     = (Ok ("unban", -42), init_world).
Proof. apply (admin_payload_round_trip "frobnicate" (-42) init_world). reflexivity. Defined.

(** ** Job keys *)

Lemma job_key_components (chat user chat' user' : Z) (kind kind' : string) :
  job_key chat user kind = job_key chat' user' kind' ->
  chat = chat' /\ user = user' /\ kind = kind'.
Proof.
  unfold job_key. intros H.
  change (pretty chat +:+ String "|" (pretty user +:+ String "|" kind)
          = pretty chat' +:+ String "|" (pretty user' +:+ String "|" kind')) in H.
  apply bar_field_inj in H as [Hc H]; try apply pretty_not_bar.
  apply bar_field_inj in H as [Hu Hk]; try apply pretty_not_bar.
  apply (inj pretty) in Hc. apply (inj pretty) in Hu. now repeat split.
Qed.

(** X3. [f"{chat.id}|{user.id}|{kind}"] names one (chat, user, kind) only:
    two keys are equal only when chat, user and kind are. *)
Theorem job_key_inj (chat user chat' user' : Z) (kind kind' : string) :
  job_key chat user kind = job_key chat' user' kind' ->
  chat = chat' /\ user = user' /\ kind = kind'.
Proof. apply job_key_components. Qed.

Lemma job_key_inj_witness :
  Demo.group = Demo.group /\ 7 = 7 /\ "auth_kick" = "auth_kick".
Proof. apply (job_key_inj Demo.group 7 Demo.group 7 "auth_kick" "auth_kick"). reflexivity. Defined.

(** ** Administrators *)

(** X4. [is_admin] is membership of the user id among the administrators'
    user ids: it does not depend on order or repetition, an empty list has
    no administrator, and a list put together from two has the
    administrators of both. *)
Theorem is_admin_membership (l l' : list ChatMember) (user : Z) :
  (is_admin l user = true
   <-> exists admin, In admin l /\ user_id (member_user admin) = user)
  /\ is_admin [] user = false
  /\ is_admin (l ++ l')%list user = is_admin l user || is_admin l' user
  /\ (forall l2, (forall admin, In admin l <-> In admin l2) ->
                 is_admin l user = is_admin l2 user).
Proof.
  assert (I : forall l0, is_admin l0 user = true
              <-> exists admin, In admin l0 /\ user_id (member_user admin) = user).
  { intros l0. unfold is_admin. rewrite existsb_exists.
    split; intros (admin & Hin & H); exists admin; split; try assumption;
      now apply Z.eqb_eq. }
  split; [apply I |]. split; [reflexivity |]. split.
  - unfold is_admin. apply existsb_app.
  - intros l2 Hsame.
    destruct (is_admin l user) eqn:E1, (is_admin l2 user) eqn:E2; try reflexivity.
    + apply I in E1 as (admin & Hin & H).
      assert (T : is_admin l2 user = true) by (apply I; exists admin; split; [now apply Hsame | exact H]).
      congruence.
    + apply I in E2 as (admin & Hin & H).
      assert (T : is_admin l user = true) by (apply I; exists admin; split; [now apply Hsame | exact H]).
      congruence.
Qed.

Lemma is_admin_membership_witness :
  is_admin [{| member_user := Demo.owner |}; {| member_user := Demo.bob |}] 8
  = is_admin [{| member_user := Demo.bob |}; {| member_user := Demo.owner |};
              {| member_user := Demo.bob |}] 8.
Proof.
  destruct (is_admin_membership
              [{| member_user := Demo.owner |}; {| member_user := Demo.bob |}] [] 8)
    as (_ & _ & _ & H).
  apply H. intros admin. cbn [In]. tauto.
Defined.

(** X5. Whenever [get_chat_administrators] returns a list, it is the
    list the cache holds for the chat afterwards; the entries of every
    other chat are left as they were; and nothing of the chat itself
    (permissions, bans, jobs, messages, [chat_data]) changes. *)
Theorem get_chat_administrators_cache_frame (env : Env) (chat : Z) (w : World) :
  let w' := snd (get_chat_administrators env chat w) in
  (forall admins,
      fst (get_chat_administrators env chat w) = Ok admins ->
      snd <$> chat_administrators_cache w' !! pretty chat = Some admins)
  /\ (forall chat', chat' <> chat ->
        chat_administrators_cache w' !! pretty chat'
        = chat_administrators_cache w !! pretty chat')
  /\ same_chat_state w w'.
Proof.
  intros w'. subst w'. split; [| split].
  - cbv beta iota zeta delta [get_chat_administrators bind gets time_time
      bot_get_chat_administrators modify ret].
    destruct (chat_administrators_cache w !! pretty chat) as [[cache_time cached] |] eqn:E;
      cbv beta iota.
    + destruct (Qle_bool _ _); cbn [fst snd]; intros admins [= <-]; simpl.
      * now rewrite E.
      * now rewrite lookup_insert_eq.
    + cbn [fst snd]. intros admins [= <-]. simpl. now rewrite lookup_insert_eq.
  - intros chat' Hne.
    assert (Hk : pretty chat <> pretty chat') by (intros H; apply (inj pretty) in H; congruence).
    cbv beta iota zeta delta [get_chat_administrators bind gets time_time
      bot_get_chat_administrators modify ret].
    destruct (chat_administrators_cache w !! pretty chat) as [[cache_time admins] |];
      cbv beta iota.
    + destruct (Qle_bool _ _); cbn [fst snd]; simpl; [reflexivity |].
      now rewrite lookup_insert_ne.
    + simpl. now rewrite lookup_insert_ne.
  - apply get_chat_administrators_chat_state.
Qed.

Lemma get_chat_administrators_cache_frame_witness :
  let w := set_chat_administrators_cache
             (insert (pretty 55) ((0 # 1)%Q, [{| member_user := Demo.bob |}])) init_world in
  chat_administrators_cache (snd (get_chat_administrators Demo.env Demo.group w)) !! pretty 55
  = Some ((0 # 1)%Q, [{| member_user := Demo.bob |}]).
Proof.
  intros w.
  destruct (get_chat_administrators_cache_frame Demo.env Demo.group w) as (_ & H & _).
  rewrite (H 55); [reflexivity | vm_compute; discriminate].
Defined.

(** ** The two jobs *)

(** X6. The kick job.  When [ban_chat_member] goes through, the job
    returns and the user is banned until the whole second of the firing
    plus [kick_time] (120) seconds.  When the bot client answers with a
    [BadRequest], the job swallows it: it returns normally and nobody is
    banned.  On both paths permissions, jobs and messages stay as they
    are. *)
Theorem kick_member_job_ban (env : Env) (job : Job) (w : World) :
  let until_date := Py.int_of_float (now env (clock_reads w)) + 120 in
  let w' := snd (run_kick_member_job env job w) in
  (api_ban_chat_member env (job_chat_id job) (job_user_id job) (Some until_date) = None ->
   fst (run_kick_member_job env job w) = Ok tt
   /\ bans w' = <[(job_chat_id job, job_user_id job) := Some until_date]> (bans w))
  /\ (forall error,
        api_ban_chat_member env (job_chat_id job) (job_user_id job) (Some until_date)
        = Some error ->
        fst (run_kick_member_job env job w) = Ok tt
        /\ bans w' = bans w)
  /\ permissions w' = permissions w
  /\ scheduler w' = scheduler w
  /\ edits w' = edits w
  /\ sent w' = sent w.
Proof.
  intros until_date w'. subst w'.
  cbv beta iota zeta delta [run_kick_member_job try_except_BadRequest bind gets time_time
    bot_ban_chat_member modify ret raise].
  fold until_date. change kick_time with 120. fold until_date.
  destruct (api_ban_chat_member env (job_chat_id job) (job_user_id job) (Some until_date))
    as [error |]; cbv beta iota; cbn [fst snd]; simpl.
  - split; [discriminate |]. split; [intros error' _; now split |]. now repeat split.
  - split; [intros _; now split |]. split; [discriminate |]. now repeat split.
Qed.

Lemma kick_member_job_ban_witness :
  bans (snd (run_kick_member_job Demo.env
               {| job_callback := kick_member_job; job_when := 120; job_data := None;
                  job_name := job_key Demo.group 7 "auth_kick";
                  job_chat_id := Demo.group; job_user_id := 7 |} init_world))
  = <[(Demo.group, 7) := Some (1000 + 120)]> ∅.
Proof.
  destruct (kick_member_job_ban Demo.env
              {| job_callback := kick_member_job; job_when := 120; job_data := None;
                 job_name := job_key Demo.group 7 "auth_kick";
                 job_chat_id := Demo.group; job_user_id := 7 |} init_world) as (H & _).
  apply H. reflexivity.
Defined.

(** ** Admin decisions, branch by branch *)

Lemma user_info_of_run env chat target w :
  try_except_BadRequest
    (member_info <- bot_get_chat_member env chat target ;;
     ret (mention_markdown_v2 env (member_user member_info)))
    (fun _ => ret (pretty target)) w
  = (Ok (user_info_of env chat target), w).
Proof.
  cbv beta iota zeta delta [try_except_BadRequest bind bot_get_chat_member ret raise
    user_info_of].
  destruct (api_get_chat_member env chat target); reflexivity.
Qed.

(** An administrator's press, up to the dispatch on the action. *)
Lemma admin_enter env cq w admins result target :
  let chat := cq_chat_id cq in
  let user := cq_from_user cq in
  let message := cq_message_id cq in
  let user_info := user_info_of env chat target in
  fst (get_chat_administrators env chat w) = Ok admins ->
  is_admin admins (user_id user) = true ->
  fst (admin_callback (cq_data cq) w) = Ok (result, target) ->
  admin env cq w
  = bind
      (if String.eqb result "pass" then
         callback_query_answer "放行" false ;;;
         restore_member env chat target ;;;
         remove_job_if_scheduled (job_key chat target "auth_clean_join_message") ;;;
         message_edit_text env chat message
           (user_info +:+ " 被 " +:+ mention_markdown_v2 env user +:+ " 放行") None
       else if String.eqb result "kick" then
         callback_query_answer "驱离" false ;;;
         bot_ban_chat_member env chat target None ;;;
         message_edit_text env chat message
           (user_info +:+ " 被 " +:+ mention_markdown_v2 env user +:+ " 驱离") None
       else if String.eqb result "unban" then
         callback_query_answer "解除驱离" false ;;;
         restore_member env chat target ;;;
         remove_job_if_scheduled (job_key chat target "auth_clean_join_message") ;;;
         message_edit_text env chat message
           (user_info +:+ " 被 " +:+ mention_markdown_v2 env user +:+ " 解除驱离") None
       else
         bot_send_message chat text_unknown_command)
      (fun _ => remove_job_if_scheduled (job_key chat target "auth_kick"))
      (snd (get_chat_administrators env chat w)).
Proof.
  intros chat user message user_info Hl Ha Hp.
  set (w1 := snd (get_chat_administrators env chat w)).
  assert (E : get_chat_administrators env chat w = (Ok admins, w1))
    by (apply pair_eta; [exact Hl | reflexivity]).
  assert (P : admin_callback (cq_data cq) w1 = (Ok (result, target), w1)).
  { apply pair_eta; [| apply admin_callback_pure].
    rewrite (admin_callback_any_world _ w1 w). exact Hp. }
  unfold admin. rewrite (bind_Ok _ _ _ _ _ E). cbv zeta. fold chat user message.
  rewrite Ha. cbn [negb].
  rewrite (bind_Ok _ _ _ _ _ P). cbn [fst snd].
  rewrite (bind_Ok _ _ _ _ _ (user_info_of_run env chat target w1)).
  reflexivity.
Qed.

(** X8. An administrator presses "pass" or "unban" and the bot's calls
    succeed: the addressed user gets the full permission set, the jobs
    under the join-cleanup key and under the kick key of that user are
    gone and no other job is touched, no ban is issued or lifted, the
    press is answered without an alert, and the message is replaced by the text
    that names the user, the administrator and the decision, without
    buttons. *)
Theorem admin_pass_or_unban (env : Env) (cq : CallbackQuery) (w : World)
    (admins : list ChatMember) (result : string) (target : Z) :
  let chat := cq_chat_id cq in
  let user := cq_from_user cq in
  let decision := if String.eqb result "pass" then " 放行" else " 解除驱离" in
  let text := text_admin_decision env chat target user decision in
  let kick_key := job_key chat target "auth_kick" in
  let join_key := job_key chat target "auth_clean_join_message" in
  fst (get_chat_administrators env chat w) = Ok admins ->
  is_admin admins (user_id user) = true ->
  fst (admin_callback (cq_data cq) w) = Ok (result, target) ->
  result = "pass" \/ result = "unban" ->
  api_restrict_chat_member env chat target FullChatPermissions = None ->
  api_edit_text env chat (cq_message_id cq) text None = None ->
  let w' := snd (admin env cq w) in
  fst (admin env cq w) = Ok tt
  /\ permissions w' = <[(chat, target) := FullChatPermissions]> (permissions w)
  /\ scheduler w' = delete kick_key (delete join_key (scheduler w))
  /\ edits w' = <[(chat, cq_message_id cq) := (text, None)]> (edits w)
  /\ bans w' = bans w
  /\ callback_answers w'
     = (callback_answers w
        ++ [{| answer_alert_text := if String.eqb result "pass" then "放行" else "解除驱离";
               show_alert := false |}])%list.
Proof.
  intros chat user decision text kick_key join_key Hl Ha Hp Hr Hperm Hedit w'.
  subst w'. rewrite (admin_enter env cq w admins result target Hl Ha Hp).
  destruct (get_chat_administrators_chat_state env chat w) as [Hs Hc].
  unfold text, text_admin_decision, decision in Hedit.
  unfold kick_key, join_key, text, text_admin_decision, decision, user, chat in *.
  set (w1 := snd (get_chat_administrators env (cq_chat_id cq) w)) in *.
  unfold chat_state in Hs.
  injection Hs as Hperm1 Hbans1 Hsched1 Hedits1 Hsent1 Hdata1.
  destruct Hr as [-> | ->]; cbn [String.eqb Ascii.eqb Bool.eqb] in *.
  - erewrite bind_Ok; cycle 1.
    { erewrite bind_Ok by reflexivity.
      erewrite bind_Ok by (apply restore_member_ok; exact Hperm).
      erewrite bind_Ok by apply remove_job_if_scheduled_run.
      apply message_edit_text_ok. exact Hedit. }
    rewrite remove_job_if_scheduled_run. cbn [fst snd]. simpl.
    rewrite Hperm1, Hbans1, Hsched1, Hedits1, Hc. now repeat split.
  - erewrite bind_Ok; cycle 1.
    { erewrite bind_Ok by reflexivity.
      erewrite bind_Ok by (apply restore_member_ok; exact Hperm).
      erewrite bind_Ok by apply remove_job_if_scheduled_run.
      apply message_edit_text_ok. exact Hedit. }
    rewrite remove_job_if_scheduled_run. cbn [fst snd]. simpl.
    rewrite Hperm1, Hbans1, Hsched1, Hedits1, Hc. now repeat split.
Qed.

Lemma admin_pass_or_unban_witness :
  let cq := Demo.press Demo.owner "auth_admin|pass|7" in
  let w' := snd (admin Demo.env cq Demo.challenged_world) in
  let text := text_admin_decision Demo.env Demo.group 7 Demo.owner " 放行" in
  fst (admin Demo.env cq Demo.challenged_world) = Ok tt
  /\ permissions w' = <[(Demo.group, 7) := FullChatPermissions]> ∅
  /\ scheduler w'
     = delete (job_key Demo.group 7 "auth_kick")
         (delete (job_key Demo.group 7 "auth_clean_join_message") Demo.pending_jobs)
  /\ edits w' = <[(Demo.group, 501) := (text, None)]> ∅
  /\ bans w' = ∅
  /\ callback_answers w' = [{| answer_alert_text := "放行"; show_alert := false |}].
Proof.
  apply (admin_pass_or_unban Demo.env (Demo.press Demo.owner "auth_admin|pass|7")
           Demo.challenged_world [{| member_user := Demo.owner |}] "pass" 7);
    try reflexivity.
  now left.
Defined.

(** X9. An administrator presses "kick" and the bot's calls succeed: the
    addressed user is banned with no expiry ([until_date] is not given),
    the job under the kick key is gone, the join-cleanup job and every
    other job stay, permissions are not touched, and the message names
    the user, the administrator and the decision, without buttons. *)
Theorem admin_kick (env : Env) (cq : CallbackQuery) (w : World)
    (admins : list ChatMember) (target : Z) :
  let chat := cq_chat_id cq in
  let user := cq_from_user cq in
  let text := text_admin_decision env chat target user " 驱离" in
  let kick_key := job_key chat target "auth_kick" in
  fst (get_chat_administrators env chat w) = Ok admins ->
  is_admin admins (user_id user) = true ->
  fst (admin_callback (cq_data cq) w) = Ok ("kick", target) ->
  api_ban_chat_member env chat target None = None ->
  api_edit_text env chat (cq_message_id cq) text None = None ->
  let w' := snd (admin env cq w) in
  fst (admin env cq w) = Ok tt
  /\ bans w' = <[(chat, target) := None]> (bans w)
  /\ scheduler w' = delete kick_key (scheduler w)
  /\ edits w' = <[(chat, cq_message_id cq) := (text, None)]> (edits w)
  /\ permissions w' = permissions w
  /\ callback_answers w'
     = (callback_answers w ++ [{| answer_alert_text := "驱离"; show_alert := false |}])%list.
Proof.
  intros chat user text kick_key Hl Ha Hp Hban Hedit w'.
  subst w'. rewrite (admin_enter env cq w admins "kick" target Hl Ha Hp).
  destruct (get_chat_administrators_chat_state env chat w) as [Hs Hc].
  unfold text, text_admin_decision in Hedit.
  unfold kick_key, text, text_admin_decision, user, chat in *.
  set (w1 := snd (get_chat_administrators env (cq_chat_id cq) w)) in *.
  unfold chat_state in Hs.
  injection Hs as Hperm1 Hbans1 Hsched1 Hedits1 Hsent1 Hdata1.
  cbn [String.eqb Ascii.eqb Bool.eqb].
  erewrite bind_Ok; cycle 1.
  { erewrite bind_Ok by reflexivity.
    erewrite bind_Ok by (apply bot_ban_chat_member_ok; exact Hban).
    apply message_edit_text_ok. exact Hedit. }
  rewrite remove_job_if_scheduled_run. cbn [fst snd]. simpl.
  rewrite Hperm1, Hbans1, Hsched1, Hedits1, Hc. now repeat split.
Qed.

Lemma admin_kick_witness :
  let cq := Demo.press Demo.owner "auth_admin|kick|7" in
  let w' := snd (admin Demo.env cq Demo.challenged_world) in
  fst (admin Demo.env cq Demo.challenged_world) = Ok tt
  /\ bans w' = <[(Demo.group, 7) := None]> ∅
  /\ scheduler w' = delete (job_key Demo.group 7 "auth_kick") Demo.pending_jobs
  /\ edits w'
     = <[(Demo.group, 501)
         := (text_admin_decision Demo.env Demo.group 7 Demo.owner " 驱离", None)]> ∅
  /\ permissions w' = ∅
  /\ callback_answers w' = [{| answer_alert_text := "驱离"; show_alert := false |}].
Proof.
  apply (admin_kick Demo.env (Demo.press Demo.owner "auth_admin|kick|7")
           Demo.challenged_world [{| member_user := Demo.owner |}] 7);
    reflexivity.
Defined.

Lemma bot_ban_chat_member_failed env chat user until_date w error :
  api_ban_chat_member env chat user until_date = Some error ->
  bot_ban_chat_member env chat user until_date w = (Raise (Py.BadRequest error), w).
Proof. intros H. unfold bot_ban_chat_member. now rewrite H. Qed.

Lemma message_edit_text_failed env chat msg text markup w error :
  api_edit_text env chat msg text markup = Some error ->
  message_edit_text env chat msg text markup w = (Raise (Py.BadRequest error), w).
Proof. intros H. unfold message_edit_text. now rewrite H. Qed.

(** X10. An admin decision that fails half way leaves the kick job in
    the scheduler.  (1) "kick" with [ban_chat_member] raising: the
    handler raises that [BadRequest] after answering the press; nobody is
    banned, the message is not edited and no job is removed.  (2) "pass"
    or "unban" with [edit_text] raising: the user already has the full
    permissions and the job under the join-cleanup key is already
    removed, the handler raises, and the job under the kick key is still
    there. *)
Theorem admin_failure_keeps_kick_job (env : Env) (cq : CallbackQuery) (w : World)
    (admins : list ChatMember) (result : string) (target : Z) (error : string) :
  let chat := cq_chat_id cq in
  let user := cq_from_user cq in
  let kick_key := job_key chat target "auth_kick" in
  let join_key := job_key chat target "auth_clean_join_message" in
  fst (get_chat_administrators env chat w) = Ok admins ->
  is_admin admins (user_id user) = true ->
  fst (admin_callback (cq_data cq) w) = Ok (result, target) ->
  let w' := snd (admin env cq w) in
  (result = "kick" ->
   api_ban_chat_member env chat target None = Some error ->
   fst (admin env cq w) = Raise (Py.BadRequest error)
   /\ bans w' = bans w
   /\ scheduler w' = scheduler w
   /\ edits w' = edits w
   /\ permissions w' = permissions w
   /\ callback_answers w'
      = (callback_answers w ++ [{| answer_alert_text := "驱离"; show_alert := false |}])%list)
  /\ (result = "pass" \/ result = "unban" ->
      api_restrict_chat_member env chat target FullChatPermissions = None ->
      api_edit_text env chat (cq_message_id cq)
        (text_admin_decision env chat target user
           (if String.eqb result "pass" then " 放行" else " 解除驱离")) None = Some error ->
      fst (admin env cq w) = Raise (Py.BadRequest error)
      /\ permissions w' = <[(chat, target) := FullChatPermissions]> (permissions w)
      /\ scheduler w' = delete join_key (scheduler w)
      /\ scheduler w' !! kick_key = scheduler w !! kick_key
      /\ edits w' = edits w).
Proof.
  intros chat user kick_key join_key Hl Ha Hp w'.
  subst w'. rewrite (admin_enter env cq w admins result target Hl Ha Hp).
  destruct (get_chat_administrators_chat_state env chat w) as [Hs Hc].
  unfold kick_key, join_key, text_admin_decision, user, chat in *.
  set (w1 := snd (get_chat_administrators env (cq_chat_id cq) w)) in *.
  unfold chat_state in Hs.
  injection Hs as Hperm1 Hbans1 Hsched1 Hedits1 Hsent1 Hdata1.
  split.
  - intros -> Hban. cbn [String.eqb Ascii.eqb Bool.eqb].
    erewrite bind_Raise; cycle 1.
    { erewrite bind_Ok by reflexivity.
      erewrite bind_Raise by (apply bot_ban_chat_member_failed; exact Hban).
      reflexivity. }
    cbn [fst snd]. simpl. rewrite Hc. now repeat split.
  - intros Hr Hperm Hedit.
    assert (Hne : job_key (cq_chat_id cq) target "auth_clean_join_message"
                  <> job_key (cq_chat_id cq) target "auth_kick")
      by (intros H; apply job_key_kind_inj in H; discriminate).
    destruct Hr as [-> | ->]; cbn [String.eqb Ascii.eqb Bool.eqb] in *.
    + erewrite bind_Raise; cycle 1.
      { erewrite bind_Ok by reflexivity.
        erewrite bind_Ok by (apply restore_member_ok; exact Hperm).
        erewrite bind_Ok by apply remove_job_if_scheduled_run.
        apply message_edit_text_failed. exact Hedit. }
      cbn [fst snd]. simpl. rewrite Hperm1, Hsched1, Hedits1.
      repeat split. now rewrite lookup_delete_ne.
    + erewrite bind_Raise; cycle 1.
      { erewrite bind_Ok by reflexivity.
        erewrite bind_Ok by (apply restore_member_ok; exact Hperm).
        erewrite bind_Ok by apply remove_job_if_scheduled_run.
        apply message_edit_text_failed. exact Hedit. }
      cbn [fst snd]. simpl. rewrite Hperm1, Hsched1, Hedits1.
      repeat split. now rewrite lookup_delete_ne.
Qed.

Lemma admin_failure_keeps_kick_job_witness :
  let env := with_ban (fun _ _ _ => Some "Bad Request: can't remove chat owner") Demo.env in
  let cq := Demo.press Demo.owner "auth_admin|kick|7" in
  let w' := snd (admin env cq Demo.challenged_world) in
  fst (admin env cq Demo.challenged_world)
  = Raise (Py.BadRequest "Bad Request: can't remove chat owner")
  /\ bans w' = ∅
  /\ scheduler w' = Demo.pending_jobs
  /\ edits w' = ∅
  /\ permissions w' = ∅
  /\ callback_answers w' = [{| answer_alert_text := "驱离"; show_alert := false |}].
Proof.
  intros env cq.
  destruct (admin_failure_keeps_kick_job env cq Demo.challenged_world
              [{| member_user := Demo.owner |}] "kick" 7
              "Bad Request: can't remove chat owner" eq_refl eq_refl eq_refl) as [H _].
  apply H; reflexivity.
Defined.

(** ** Payloads that cannot be read *)

Lemma admin_callback_short data w :
  (length (Py.split "|" data) <= 2)%nat ->
  fst (admin_callback data w) = Raise Py.IndexError.
Proof.
  intros H. unfold admin_callback. cbv zeta.
  destruct (Py.split "|" data) as [| a [| b [| c l]]]; try reflexivity.
  cbn in H. lia.
Qed.

(** X11. A payload that cannot be read stops the handler before it
    touches the chat.  [query] raises what [query_callback] raises
    ([IndexError] for a missing field, [ValueError] for a field that is
    no number, whatever the quiz service raises) and leaves the world
    exactly as it was.  [admin], pressed by an administrator, raises what
    [admin_callback] raises without answering the press and without any
    change to permissions, bans, jobs or messages; a payload with fewer
    than three fields is an [IndexError]. *)
Theorem unreadable_payload_changes_nothing (env : Env) (cq : CallbackQuery) (w : World)
    (e : Py.exn) :
  (fst (query_callback env (cq_data cq) w) = Raise e ->
   query env cq w = (Raise e, w))
  /\ (forall admins,
        fst (get_chat_administrators env (cq_chat_id cq) w) = Ok admins ->
        is_admin admins (user_id (cq_from_user cq)) = true ->
        fst (admin_callback (cq_data cq) w) = Raise e ->
        fst (admin env cq w) = Raise e
        /\ same_chat_state w (snd (admin env cq w))
        /\ callback_answers (snd (admin env cq w)) = callback_answers w)
  /\ ((length (Py.split "|" (cq_data cq)) <= 2)%nat ->
      fst (admin_callback (cq_data cq) w) = Raise Py.IndexError).
Proof.
  split; [| split].
  - intros Hq.
    assert (E : query_callback env (cq_data cq) w = (Raise e, w))
      by (apply pair_eta; [exact Hq | apply query_callback_pure]).
    unfold query. now rewrite (bind_Raise _ _ _ _ _ E).
  - intros admins Hl Ha Hp.
    destruct (get_chat_administrators_chat_state env (cq_chat_id cq) w) as [Hs Hc].
    set (w1 := snd (get_chat_administrators env (cq_chat_id cq) w)) in *.
    assert (E : get_chat_administrators env (cq_chat_id cq) w = (Ok admins, w1))
      by (apply pair_eta; [exact Hl | reflexivity]).
    assert (P : admin_callback (cq_data cq) w1 = (Raise e, w1)).
    { apply pair_eta; [| apply admin_callback_pure].
      rewrite (admin_callback_any_world _ w1 w). exact Hp. }
    unfold admin. rewrite (bind_Ok _ _ _ _ _ E). cbv zeta. rewrite Ha. cbn [negb].
    rewrite (bind_Raise _ _ _ _ _ P). cbn [fst snd].
    split; [reflexivity | split; [exact Hs | exact Hc]].
  - apply admin_callback_short.
Qed.

Lemma unreadable_payload_changes_nothing_witness :
  query Demo.env (Demo.press Demo.alice "auth_challenge|seven|3|31") Demo.challenged_world
  = (Raise Py.ValueError, Demo.challenged_world).
Proof.
  destruct (unreadable_payload_changes_nothing Demo.env
              (Demo.press Demo.alice "auth_challenge|seven|3|31") Demo.challenged_world
              Py.ValueError) as [H _].
  apply H. reflexivity.
Defined.

(** ** Quiz answers when a bot call fails *)

(** A correct answer by the addressed user, up to the edit of the
    message. *)
Lemma query_correct_enter env cq w question answer :
  let user := cq_from_user cq in
  let chat := cq_chat_id cq in
  let w0 := set_callback_answers
              (fun l => app l [{| answer_alert_text := "验证成功"; show_alert := false |}]) w in
  let restored :=
    match api_restrict_chat_member env chat (user_id user) FullChatPermissions with
    | None => set_permissions (insert (chat, user_id user) FullChatPermissions) w0
    | Some _ => w0
    end in
  fst (query_callback env (cq_data cq) w) = Ok (user_id user, true, question, answer) ->
  query env cq w
  = bind
      (try_except_BadRequest
         (message_edit_text env chat (cq_message_id cq)
            (text_success env user question answer) (Some [[button_kick (user_id user)]]))
         (fun exc =>
            if Py.contains marker_same_content exc then ret tt
            else raise (Py.BadRequest exc)))
      (fun _ => remove_job_if_scheduled (job_key chat (user_id user) "auth_kick"))
      (set_scheduler (delete (job_key chat (user_id user) "auth_clean_join_message"))
         restored).
Proof.
  intros user chat w0 restored Hq.
  assert (E : query_callback env (cq_data cq) w
              = (Ok (user_id user, true, question, answer), w))
    by (apply pair_eta; [exact Hq | apply query_callback_pure]).
  unfold query. rewrite (bind_Ok _ _ _ _ _ E). cbv zeta. cbn [fst snd].
  fold user chat. rewrite Z.eqb_refl. cbn [negb].
  erewrite bind_Ok; cycle 1.
  { erewrite bind_Ok by reflexivity.
    erewrite bind_Ok; cycle 1.
    { instantiate (1 := restored). instantiate (1 := tt). unfold restored.
      destruct (api_restrict_chat_member env chat (user_id user) FullChatPermissions)
        as [message |] eqn:Er.
      - now apply (restore_member_failed _ _ _ _ message).
      - now apply restore_member_ok. }
    erewrite bind_Ok by apply remove_job_if_scheduled_run.
    reflexivity. }
  reflexivity.
Qed.

(** X12. A correct answer whose restoring [restrict_chat_member] call is
    refused: [restore_member] swallows the [BadRequest], so the handler
    goes on as if nothing had happened.  The message shows the success
    text, the jobs under the kick key and the join-cleanup key are
    removed, and the user's permissions are what they were, that is,
    still restricted. *)
Theorem query_correct_answer_restore_refused (env : Env) (cq : CallbackQuery) (w : World)
    (question answer error : string) :
  let user := cq_from_user cq in
  let chat := cq_chat_id cq in
  let kick_key := job_key chat (user_id user) "auth_kick" in
  let join_key := job_key chat (user_id user) "auth_clean_join_message" in
  fst (query_callback env (cq_data cq) w) = Ok (user_id user, true, question, answer) ->
  api_restrict_chat_member env chat (user_id user) FullChatPermissions = Some error ->
  api_edit_text env chat (cq_message_id cq) (text_success env user question answer)
    (Some [[button_kick (user_id user)]]) = None ->
  let w' := snd (query env cq w) in
  fst (query env cq w) = Ok tt
  /\ permissions w' = permissions w
  /\ scheduler w' = delete kick_key (delete join_key (scheduler w))
  /\ edits w' !! (chat, cq_message_id cq)
     = Some (text_success env user question answer, Some [[button_kick (user_id user)]]).
Proof.
  intros user chat kick_key join_key Hq Hr He w'. subst w'.
  rewrite (query_correct_enter env cq w question answer Hq).
  fold user chat. rewrite Hr.
  erewrite bind_Ok; cycle 1.
  { unfold try_except_BadRequest. rewrite (message_edit_text_ok _ _ _ _ _ _ He). reflexivity. }
  rewrite remove_job_if_scheduled_run. cbn [fst snd]. simpl.
  repeat split. apply lookup_insert_eq.
Qed.

Lemma query_correct_answer_restore_refused_witness :
  let env := with_restrict (fun _ _ _ => Some "Bad Request: user is an administrator") Demo.env in
  let w0 := set_permissions (insert (Demo.group, 7) MutedChatPermissions) Demo.challenged_world in
  let w' := snd (query env (Demo.press Demo.alice "auth_challenge|7|3|31") w0) in
  fst (query env (Demo.press Demo.alice "auth_challenge|7|3|31") w0) = Ok tt
  /\ permissions w' = <[(Demo.group, 7) := MutedChatPermissions]> ∅
  /\ scheduler w'
     = delete (job_key Demo.group 7 "auth_kick")
         (delete (job_key Demo.group 7 "auth_clean_join_message") Demo.pending_jobs)
  /\ edits w' !! (Demo.group, 501)
     = Some (text_success env Demo.alice "Where is the Favonius Cathedral?" "Mondstadt",
             Some [[button_kick 7]]).
Proof.
  intros env w0.
  apply (query_correct_answer_restore_refused env
           (Demo.press Demo.alice "auth_challenge|7|3|31") w0
           "Where is the Favonius Cathedral?" "Mondstadt"
           "Bad Request: user is an administrator"); reflexivity.
Defined.

(** X13. The edit of the message after a correct answer.  When
    [edit_text] raises a [BadRequest] whose text contains "are exactly
    the same as " (the message already shows this text), the error is
    swallowed: the handler returns normally and removes the job under the
    kick key as usual.  Any other [BadRequest] is raised again: the
    permissions are already restored and the join-cleanup job already
    removed, but the job under the kick key stays in the scheduler. *)
Theorem query_edit_errors (env : Env) (cq : CallbackQuery) (w : World)
    (question answer error : string) :
  let user := cq_from_user cq in
  let chat := cq_chat_id cq in
  let kick_key := job_key chat (user_id user) "auth_kick" in
  let join_key := job_key chat (user_id user) "auth_clean_join_message" in
  fst (query_callback env (cq_data cq) w) = Ok (user_id user, true, question, answer) ->
  api_restrict_chat_member env chat (user_id user) FullChatPermissions = None ->
  api_edit_text env chat (cq_message_id cq) (text_success env user question answer)
    (Some [[button_kick (user_id user)]]) = Some error ->
  let w' := snd (query env cq w) in
  permissions w' = <[(chat, user_id user) := FullChatPermissions]> (permissions w)
  /\ edits w' = edits w
  /\ (Py.contains marker_same_content error = true ->
      fst (query env cq w) = Ok tt
      /\ scheduler w' = delete kick_key (delete join_key (scheduler w)))
  /\ (Py.contains marker_same_content error = false ->
      fst (query env cq w) = Raise (Py.BadRequest error)
      /\ scheduler w' = delete join_key (scheduler w)
      /\ scheduler w' !! kick_key = scheduler w !! kick_key).
Proof.
  intros user chat kick_key join_key Hq Hr He w'. subst w'.
  rewrite (query_correct_enter env cq w question answer Hq).
  fold user chat. rewrite Hr.
  assert (Hne : join_key <> kick_key)
    by (intros H; apply job_key_kind_inj in H; discriminate).
  destruct (Py.contains marker_same_content error) eqn:Ec.
  - erewrite bind_Ok; cycle 1.
    { unfold try_except_BadRequest.
      rewrite (message_edit_text_failed _ _ _ _ _ _ _ He). rewrite Ec. reflexivity. }
    rewrite remove_job_if_scheduled_run. cbn [fst snd]. simpl.
    split; [reflexivity |]. split; [reflexivity |].
    split; [intros _; split; reflexivity | discriminate].
  - erewrite bind_Raise; cycle 1.
    { unfold try_except_BadRequest.
      rewrite (message_edit_text_failed _ _ _ _ _ _ _ He). rewrite Ec. reflexivity. }
    cbn [fst snd]. simpl.
    split; [reflexivity |]. split; [reflexivity |]. split; [discriminate |].
    intros _. split; [reflexivity |]. split; [reflexivity |].
    fold join_key kick_key. now rewrite lookup_delete_ne.
Qed.

Lemma query_edit_errors_witness :
  let env := with_edit
               (fun _ _ _ _ =>
                  Some ("Bad Request: message is not modified: specified new message "
                        +:+ "content and reply markup are exactly the same as a current "
                        +:+ "content and reply markup of the message")) Demo.env in
  let w' := snd (query env (Demo.press Demo.alice "auth_challenge|7|3|31")
                   Demo.challenged_world) in
  fst (query env (Demo.press Demo.alice "auth_challenge|7|3|31") Demo.challenged_world) = Ok tt
  /\ scheduler w'
     = delete (job_key Demo.group 7 "auth_kick")
         (delete (job_key Demo.group 7 "auth_clean_join_message") Demo.pending_jobs).
Proof.
  intros env.
  destruct (query_edit_errors env (Demo.press Demo.alice "auth_challenge|7|3|31")
              Demo.challenged_world "Where is the Favonius Cathedral?" "Mondstadt"
              ("Bad Request: message is not modified: specified new message "
               +:+ "content and reply markup are exactly the same as a current "
               +:+ "content and reply markup of the message")
              eq_refl eq_refl eq_refl) as (_ & _ & H & _).
  apply H. reflexivity.
Defined.

(** X14. A wrong answer whose [ban_chat_member] call raises: [query] has
    no handler around the ban, so the [BadRequest] leaves the handler.
    The press has been answered with the alert, but nobody is banned, the
    message is not edited and the job under the kick key is not removed. *)
Theorem query_wrong_answer_ban_refused (env : Env) (cq : CallbackQuery) (w : World)
    (question answer error : string) :
  let user := cq_from_user cq in
  let chat := cq_chat_id cq in
  let until_date := Py.int_of_float (now env (clock_reads w)) + 120 in
  fst (query_callback env (cq_data cq) w) = Ok (user_id user, false, question, answer) ->
  api_ban_chat_member env chat (user_id user) (Some until_date) = Some error ->
  let w' := snd (query env cq w) in
  fst (query env cq w) = Raise (Py.BadRequest error)
  /\ same_chat_state w w'
  /\ callback_answers w'
     = (callback_answers w
        ++ [{| answer_alert_text := text_retry_later; show_alert := true |}])%list.
Proof.
  intros user chat until_date Hq Hb w'. subst w'.
  assert (E : query_callback env (cq_data cq) w
              = (Ok (user_id user, false, question, answer), w))
    by (apply pair_eta; [exact Hq | apply query_callback_pure]).
  unfold query. rewrite (bind_Ok _ _ _ _ _ E). cbv zeta. cbn [fst snd].
  fold user chat. rewrite Z.eqb_refl. cbn [negb].
  erewrite bind_Raise; cycle 1.
  { erewrite bind_Ok by reflexivity.
    erewrite bind_Ok by apply time_time_run.
    erewrite bind_Raise by (apply bot_ban_chat_member_failed; exact Hb).
    reflexivity. }
  cbn [fst snd]. repeat split.
Qed.

Lemma query_wrong_answer_ban_refused_witness :
  let env := with_ban (fun _ _ _ => Some "Bad Request: not enough rights to ban") Demo.env in
  let w' := snd (query env (Demo.press Demo.alice "auth_challenge|7|3|32")
                   Demo.challenged_world) in
  fst (query env (Demo.press Demo.alice "auth_challenge|7|3|32") Demo.challenged_world)
  = Raise (Py.BadRequest "Bad Request: not enough rights to ban")
  /\ same_chat_state Demo.challenged_world w'
  /\ callback_answers w' = [{| answer_alert_text := text_retry_later; show_alert := true |}].
Proof.
  intros env.
  apply (query_wrong_answer_ban_refused env (Demo.press Demo.alice "auth_challenge|7|3|32")
           Demo.challenged_world "Where is the Favonius Cathedral?" "Liyue"
           "Bad Request: not enough rights to ban"); reflexivity.
Defined.

(** ** New members: the paths without a challenge *)

(** [new_mem] up to its second loop, when none of the early returns is
    taken. *)
Lemma new_mem_reaches_loop env message w admins :
  existsb (fun u => user_id u =? bot_id env) (new_chat_members message) = false ->
  get_not_enough_rights (chat_id message) w = false ->
  fst (get_chat_administrators env (chat_id message) w) = Ok admins ->
  is_admin admins (user_id (from_user message)) = false ->
  exists w1,
    new_mem env message w = new_mem_members env message (new_chat_members message) w1
    /\ chat_state w1 = chat_state w
    /\ callback_answers w1 = callback_answers w.
Proof.
  intros He Hf Hl Ha.
  destruct (refresh_quiz_run w) as (w2 & R & O).
  unfold outside_refresh, chat_state in O.
  injection O as Hperm Hbans Hsched Hedits Hsent Hdata Hans Hcache Hclock.
  destruct (get_chat_administrators_chat_state env (chat_id message) w2) as [Hs Hc].
  exists (snd (get_chat_administrators env (chat_id message) w2)).
  split; [| split].
  - rewrite new_mem_eq, (bind_Ok _ _ _ _ _ R). unfold new_mem_gates.
    rewrite He. erewrite bind_Ok by reflexivity.
    assert (Hflag : get_not_enough_rights (chat_id message) w2 = false)
      by (unfold get_not_enough_rights in *; now rewrite Hdata).
    rewrite Hflag.
    assert (E : get_chat_administrators env (chat_id message) w2
                = (Ok admins, snd (get_chat_administrators env (chat_id message) w2))).
    { apply pair_eta; [| reflexivity].
      rewrite (get_chat_administrators_reads env _ w w2 Hcache Hclock). exact Hl. }
    rewrite (bind_Ok _ _ _ _ _ E), Ha. reflexivity.
  - rewrite Hs. unfold chat_state. congruence.
  - congruence.
Qed.

Lemma new_mem_members_only_bots env message users w :
  forallb is_bot users = true -> new_mem_members env message users w = (Ok tt, w).
Proof.
  induction users as [| user rest IH]; [reflexivity |].
  cbn [forallb new_mem_members]. intros [Hb Hr]%andb_prop. rewrite Hb. now apply IH.
Qed.

(** X15. Bots are left alone.  When the bot itself is among the new
    members, [new_mem] does nothing but the one-shot quiz refresh.  When
    every new member is a bot, nobody is restricted, banned or challenged
    and no job is scheduled; the only message that can be sent is the
    auto-pass notice, when the sender is an administrator. *)
Theorem new_mem_ignores_bots (env : Env) (message : JoinMessage) (w : World) :
  (existsb (fun u => user_id u =? bot_id env) (new_chat_members message) = true ->
   new_mem env message w = refresh_quiz w)
  /\ (forallb is_bot (new_chat_members message) = true ->
      let w' := snd (new_mem env message w) in
      fst (new_mem env message w) = Ok tt
      /\ permissions w' = permissions w
      /\ bans w' = bans w
      /\ scheduler w' = scheduler w
      /\ edits w' = edits w
      /\ chat_data w' = chat_data w
      /\ (sent w' = sent w
          \/ sent w'
             = (sent w ++ [{| out_chat_id := chat_id message;
                              out_reply_to := Some (message_id message);
                              out_text := text_admin_invite; out_markup := None |}])%list)).
Proof.
  split.
  - intros He. destruct (refresh_quiz_run w) as (w2 & R & _).
    rewrite new_mem_eq, (bind_Ok _ _ _ _ _ R). unfold new_mem_gates.
    now rewrite He, R.
  - intros Hb w'. subst w'.
    destruct (refresh_quiz_run w) as (w2 & R & O).
    unfold outside_refresh, chat_state in O.
    injection O as Hperm Hbans Hsched Hedits Hsent Hdata Hans Hcache Hclock.
    rewrite new_mem_eq, (bind_Ok _ _ _ _ _ R). unfold new_mem_gates.
    destruct (existsb _ _).
    { cbn [ret fst snd]. repeat split; try assumption. now left. }
    erewrite bind_Ok by reflexivity.
    destruct (get_not_enough_rights (chat_id message) w2).
    { cbn [ret fst snd]. repeat split; try assumption. now left. }
    destruct (get_chat_administrators_returns env (chat_id message) w2) as [admins Hl].
    destruct (get_chat_administrators_chat_state env (chat_id message) w2) as [Hs Hc].
    assert (E : get_chat_administrators env (chat_id message) w2
                = (Ok admins, snd (get_chat_administrators env (chat_id message) w2)))
      by (apply pair_eta; [exact Hl | reflexivity]).
    rewrite (bind_Ok _ _ _ _ _ E).
    unfold chat_state in Hs.
    injection Hs as Hperm' Hbans' Hsched' Hedits' Hsent' Hdata'.
    destruct (is_admin admins (user_id (from_user message))).
    + unfold message_reply_text, modify. cbn [fst snd]. simpl.
      rewrite Hperm', Hbans', Hsched', Hedits', Hsent', Hdata'.
      repeat split; try assumption. right. now rewrite Hsent.
    + rewrite (new_mem_members_only_bots env message _ _ Hb). cbn [fst snd].
      rewrite Hperm', Hbans', Hsched', Hedits', Hsent', Hdata'.
      repeat split; try assumption. now left.
Qed.

Lemma new_mem_ignores_bots_witness :
  let message := {| message_id := 530; chat_id := Demo.group; from_user := Demo.bob;
                    new_chat_members := [{| user_id := 99; is_bot := true |}] |} in
  new_mem Demo.env message init_world = refresh_quiz init_world.
Proof.
  intros message.
  destruct (new_mem_ignores_bots Demo.env message init_world) as [H _].
  apply H. reflexivity.
Defined.

(** X16. With no quiz question configured, the loop of [new_mem] stops
    at the first member that is not a bot: it replies with the notice
    that the question list is missing and returns, so nobody is
    restricted and nothing is scheduled, however many members joined. *)
Theorem new_mem_without_questions (env : Env) (message : JoinMessage) (users : list User)
    (w : World) :
  quiz_get_question_id_list env = [] ->
  new_mem_members env message users w
  = (Ok tt,
     if forallb is_bot users then w
     else set_sent
            (fun l => app l [{| out_chat_id := chat_id message;
                                out_reply_to := Some (message_id message);
                                out_text := text_no_questions; out_markup := None |}])
            w).
Proof.
  intros Hq. induction users as [| user rest IH]; [reflexivity |].
  cbn [new_mem_members forallb]. destruct (is_bot user); [exact IH |].
  cbv zeta. rewrite Hq. reflexivity.
Qed.

Lemma new_mem_without_questions_witness :
  new_mem_members (with_question_ids [] Demo.env) Demo.alice_joins
    [Demo.alice; Demo.bob] init_world
  = (Ok tt,
     set_sent
       (fun l => app l [{| out_chat_id := Demo.group; out_reply_to := Some 500;
                           out_text := text_no_questions; out_markup := None |}])
       init_world).
Proof.
  apply (new_mem_without_questions (with_question_ids [] Demo.env) Demo.alice_joins
           [Demo.alice; Demo.bob] init_world).
  reflexivity.
Defined.

(** X17. When restricting a member fails with a [BadRequest] that does
    not contain "Not enough rights", [new_mem] raises it again at that
    member: the flag is not set, the member is neither restricted nor
    challenged, and the members after it are not visited. *)
Theorem new_mem_restrict_error_raised (env : Env) (message : JoinMessage)
    (bots : list User) (user : User) (rest : list User) (w : World) (err : string) :
  forallb is_bot bots = true ->
  is_bot user = false ->
  quiz_get_question_id_list env <> [] ->
  api_restrict_chat_member env (chat_id message) (user_id user) MutedChatPermissions
  = Some err ->
  Py.contains marker_not_enough_rights err = false ->
  new_mem_members env message (bots ++ user :: rest) w = (Raise (Py.BadRequest err), w).
Proof.
  intros Hbots Hb Hq Hr Hc.
  rewrite new_mem_members_skip_bots
    by (apply Forall_forall; intros u Hu;
        exact (proj1 (forallb_forall _ _) Hbots u (proj1 (list_elem_of_In _ _) Hu))).
  cbn [new_mem_members]. rewrite Hb. cbv zeta.
  rewrite (question_list_nonempty _ Hq).
  erewrite bind_Raise; [reflexivity |].
  cbv beta iota zeta delta [try_except_BadRequest bind bot_restrict_chat_member raise].
  rewrite Hr. rewrite Hc. reflexivity.
Qed.

Lemma new_mem_restrict_error_raised_witness :
  new_mem_members
    (with_restrict (fun _ _ _ => Some "Bad Request: user is an administrator of the chat")
       Demo.env)
    Demo.alice_joins ([] ++ Demo.alice :: [Demo.bob]) init_world
  = (Raise (Py.BadRequest "Bad Request: user is an administrator of the chat"), init_world).
Proof.
  apply (new_mem_restrict_error_raised
           (with_restrict (fun _ _ _ => Some "Bad Request: user is an administrator of the chat")
              Demo.env)
           Demo.alice_joins [] Demo.alice [Demo.bob] init_world);
    try reflexivity.
  vm_compute. discriminate.
Defined.

(** X18. When the challenge message cannot be sent ([reply_markdown_v2]
    raises a [BadRequest]), the member has already been restricted: the
    handler sends the apology, raises the error again and schedules
    nothing.  The member stays muted with no challenge to answer and no
    job that would ever kick or clean up. *)
Theorem new_mem_challenge_not_sent (env : Env) (message : JoinMessage) (user : User)
    (rest : list User) (w : World) (chosen : Z) (question : Question) (error : string) :
  let chat := chat_id message in
  is_bot user = false ->
  quiz_get_question_id_list env <> [] ->
  api_restrict_chat_member env chat (user_id user) MutedChatPermissions = None ->
  Py.index (quiz_get_question_id_list env)
    (mt_random env 0 (Z.of_nat (length (quiz_get_question_id_list env)))) = inr chosen ->
  quiz_get_question env chosen = inr question ->
  api_reply_markdown_v2 env chat (message_id message) (text_challenge env question)
    (challenge_buttons env user question) = inl error ->
  new_mem_members env message (user :: rest) w
  = (Raise (Py.BadRequest error),
     set_sent
       (fun l => app l [{| out_chat_id := chat; out_reply_to := Some (message_id message);
                           out_text := text_forgot_you; out_markup := None |}])
       (set_permissions (insert (chat, user_id user) MutedChatPermissions) w)).
Proof.
  intros chat Hb Hq Hr Hi Hg Hs.
  cbn [new_mem_members]. rewrite Hb. cbv zeta. fold chat.
  rewrite (question_list_nonempty _ Hq).
  erewrite bind_Ok; cycle 1.
  { cbv beta iota zeta delta [try_except_BadRequest bind bot_restrict_chat_member modify ret].
    rewrite Hr. reflexivity. }
  cbn [negb]. rewrite Hi. erewrite bind_Ok by reflexivity.
  rewrite Hg. erewrite bind_Ok by reflexivity.
  erewrite bind_Raise; [reflexivity |].
  cbv beta iota zeta delta [try_except_BadRequest bind message_reply_markdown_v2
    message_reply_text modify ret raise].
  rewrite Hs. reflexivity.
Qed.

Lemma new_mem_challenge_not_sent_witness :
  let env := with_reply (fun _ _ _ _ => inl "Bad Request: replied message not found")
               Demo.env in
  new_mem_members env Demo.alice_joins [Demo.alice] init_world
  = (Raise (Py.BadRequest "Bad Request: replied message not found"),
     set_sent
       (fun l => app l [{| out_chat_id := Demo.group; out_reply_to := Some 500;
                           out_text := text_forgot_you; out_markup := None |}])
       (set_permissions (insert (Demo.group, 7) MutedChatPermissions) init_world)).
Proof.
  intros env.
  apply (new_mem_challenge_not_sent env Demo.alice_joins Demo.alice [] init_world
           3 Demo.the_question "Bad Request: replied message not found");
    try reflexivity.
  vm_compute. discriminate.
Defined.

(** X19. A challenge touches the challenged member only: the jobs of
    every other (chat, user) pair, whatever their kind, and the
    permissions of every other (chat, user) pair are what they were, and
    exactly one message, the challenge, is sent. *)
Theorem challenge_leaves_others_alone (env : Env) (message : JoinMessage) (user : User)
    (w : World) (chosen : Z) (question : Question) (question_message : Z) :
  let chat := chat_id message in
  is_bot user = false ->
  quiz_get_question_id_list env <> [] ->
  api_restrict_chat_member env chat (user_id user) MutedChatPermissions = None ->
  Py.index (quiz_get_question_id_list env)
    (mt_random env 0 (Z.of_nat (length (quiz_get_question_id_list env)))) = inr chosen ->
  quiz_get_question env chosen = inr question ->
  api_reply_markdown_v2 env chat (message_id message) (text_challenge env question)
    (challenge_buttons env user question) = inr question_message ->
  let w' := snd (new_mem_members env message [user] w) in
  (forall chat' user' kind,
      (chat', user') <> (chat, user_id user) ->
      scheduler w' !! job_key chat' user' kind = scheduler w !! job_key chat' user' kind)
  /\ (forall chat' user',
      (chat', user') <> (chat, user_id user) ->
      permissions w' !! (chat', user') = permissions w !! (chat', user'))
  /\ permissions w' !! (chat, user_id user) = Some MutedChatPermissions
  /\ sent w'
     = (sent w ++ [{| out_chat_id := chat; out_reply_to := Some (message_id message);
                      out_text := text_challenge env question;
                      out_markup := Some (challenge_buttons env user question) |}])%list
  /\ bans w' = bans w
  /\ chat_data w' = chat_data w.
Proof.
  intros chat Hb Hq Hr Hi Hg Hs w'.
  pose proof (new_mem_members_challenge env message user [] w chosen question
                question_message Hb Hq Hr Hi Hg Hs) as R.
  subst w'. rewrite R. cbn [new_mem_members ret fst snd]. simpl. fold chat.
  split; [| split; [| split; [| now repeat split]]].
  - intros chat' user' kind Hne.
    assert (K : job_key chat (user_id user) "auth_kick" <> job_key chat' user' kind).
    { intros H. apply job_key_components in H as (Hc & Hu & _). apply Hne. congruence. }
    now rewrite !lookup_insert_ne.
  - intros chat' user' Hne. rewrite lookup_insert_ne; [reflexivity |]. congruence.
  - apply lookup_insert_eq.
Qed.

Lemma challenge_leaves_others_alone_witness :
  let w' := snd (new_mem_members Demo.env Demo.alice_joins [Demo.alice]
                   Demo.challenged_world) in
  scheduler w' !! job_key Demo.group 8 "auth_kick" = None
  /\ permissions w' !! (Demo.group, 8) = None.
Proof.
  intros w'.
  destruct (challenge_leaves_others_alone Demo.env Demo.alice_joins Demo.alice
              Demo.challenged_world 3 Demo.the_question 501) as (H1 & H2 & _);
    try reflexivity; [vm_compute; discriminate |].
  split.
  - subst w'. rewrite (H1 Demo.group 8 "auth_kick"); [reflexivity | discriminate].
  - subst w'. rewrite (H2 Demo.group 8); [reflexivity | discriminate].
Defined.

(** ** Invariants of the flow *)

Lemma preserves_ret {A} (P : World -> Prop) (a : A) : preserves P (ret a).
Proof. intros w H. exact H. Qed.

Lemma preserves_raise {A} (P : World -> Prop) e : preserves P (@raise A e).
Proof. intros w H. exact H. Qed.

Lemma preserves_lift {A} (P : World -> Prop) (r : Py.exn + A) : preserves P (lift r).
Proof. intros w H. destruct r; exact H. Qed.

Lemma preserves_gets {A} (P : World -> Prop) (g : World -> A) : preserves P (gets g).
Proof. intros w H. exact H. Qed.

Lemma preserves_modify (P : World -> Prop) (g : World -> World) :
  (forall w, P w -> P (g w)) -> preserves P (modify g).
Proof. intros H w Hw. apply H, Hw. Qed.

Lemma preserves_bind {A B} (P : World -> Prop) (m : M A) (k : A -> M B) :
  preserves P m -> (forall a, preserves P (k a)) -> preserves P (bind m k).
Proof.
  intros Hm Hk w Hw. unfold bind. specialize (Hm w Hw).
  destruct (m w) as [[a | e] w1]; simpl in *; [now apply Hk | exact Hm].
Qed.

Lemma preserves_try {A} (P : World -> Prop) (body : M A) (handler : string -> M A) :
  preserves P body -> (forall message, preserves P (handler message)) ->
  preserves P (try_except_BadRequest body handler).
Proof.
  intros Hb Hh w Hw. unfold try_except_BadRequest. specialize (Hb w Hw).
  destruct (body w) as [[a | e] w1]; simpl in *; [exact Hb |].
  destruct e; simpl; try exact Hb. now apply Hh.
Qed.

(** Decomposes a goal [preserves P m]; [tac] settles the updates. *)
Ltac keep_step tac :=
  lazymatch goal with
  | |- preserves _ (bind _ _) => apply preserves_bind; [| intros ?]
  | |- preserves _ (try_except_BadRequest _ _) => apply preserves_try; [| intros ?]
  | |- preserves _ (ret _) => apply preserves_ret
  | |- preserves _ (raise _) => apply preserves_raise
  | |- preserves _ (lift _) => apply preserves_lift
  | |- preserves _ (gets _) => apply preserves_gets
  | |- preserves _ (modify _) => apply preserves_modify; tac
  | |- preserves _ (if ?b then _ else _) => destruct b
  | |- preserves _ (match ?x with _ => _ end) => destruct x
  end.

Ltac keep tac := autounfold with flow; cbv zeta; repeat keep_step tac.

Lemma preserves_run env (P : World -> Prop) :
  (forall e, preserves P (handle env e)) ->
  forall events w, P w -> P (run env events w).
Proof.
  intros H events. induction events as [| e rest IH]; intros w Hw; [exact Hw |].
  cbn [run]. apply IH, H, Hw.
Qed.

(** *** The flag is never cleared *)

Lemma flag_kept_by_set c chat w :
  get_not_enough_rights c w = true ->
  get_not_enough_rights c (set_not_enough_rights chat w) = true.
Proof.
  intros H. destruct (decide (chat = c)) as [-> | Hne];
    [apply get_not_enough_rights_set |].
  unfold get_not_enough_rights, set_not_enough_rights in *. simpl.
  now rewrite lookup_insert_ne.
Qed.

Ltac keep_flag :=
  first [ now apply flag_kept_by_set | intros ? H; exact H ].

Lemma new_mem_members_keeps_flag env c message users :
  preserves (fun w => get_not_enough_rights c w = true) (new_mem_members env message users).
Proof.
  induction users as [| user rest IH]; cbn [new_mem_members]; [apply preserves_ret |].
  destruct (is_bot user); [exact IH |]. cbv zeta.
  destruct (Z.of_nat _ =? 0); [keep keep_flag |].
  keep_step keep_flag; [keep keep_flag; intros; now apply flag_kept_by_set |].
  keep_step keep_flag; [apply preserves_ret |].
  repeat (keep_step keep_flag; [keep keep_flag |]).
  exact IH.
Qed.

(** X20. No handler ever clears [chat_data["not_enough_rights"]]: once
    the flag of a chat is set it stays set through every sequence of
    new-member events, admin presses and quiz answers, in that chat or any
    other, whether the handlers return or raise. *)
Theorem not_enough_rights_never_cleared (env : Env) (events : list Event) (c : Z)
    (w : World) :
  get_not_enough_rights c w = true ->
  get_not_enough_rights c (run env events w) = true.
Proof.
  apply (preserves_run env (fun w => get_not_enough_rights c w = true)).
  intros [message | cq | cq]; cbn [handle].
  - unfold new_mem. keep_step keep_flag; [keep keep_flag |].
    destruct (existsb _ _); [apply preserves_ret |].
    keep_step keep_flag; [keep keep_flag |].
    destruct a0; [apply preserves_ret |].
    keep_step keep_flag; [unfold get_chat_administrators; keep keep_flag |].
    destruct (is_admin _ _); [keep keep_flag |].
    apply new_mem_members_keeps_flag.
  - unfold admin. keep_step keep_flag; [unfold get_chat_administrators; keep keep_flag |].
    keep keep_flag.
  - unfold query. keep keep_flag.
Qed.

Lemma not_enough_rights_never_cleared_witness :
  get_not_enough_rights Demo.group
    (run Demo.env
       [AuthAdmin (Demo.press Demo.owner "auth_admin|pass|7");
        NewChatMembers Demo.alice_joins;
        AuthChallenge (Demo.press Demo.alice "auth_challenge|7|3|31")]
       (set_not_enough_rights Demo.group init_world)) = true.
Proof.
  apply (not_enough_rights_never_cleared Demo.env). reflexivity.
Defined.

(** *** Where the jobs are *)

Lemma under_kick_key_insert chat user job w :
  job_chat_id job = chat -> job_user_id job = user -> job_when job = time_out ->
  jobs_under_kick_key w ->
  jobs_under_kick_key (set_scheduler (insert (job_key chat user "auth_kick") job) w).
Proof.
  intros Hc Hu Hw H id job' Hl. simpl in Hl.
  destruct (decide (job_key chat user "auth_kick" = id)) as [<- | Hne].
  - rewrite lookup_insert_eq in Hl. injection Hl as <-. now rewrite Hc, Hu.
  - rewrite lookup_insert_ne in Hl by exact Hne. now apply H.
Qed.

Lemma under_kick_key_delete id w :
  jobs_under_kick_key w -> jobs_under_kick_key (set_scheduler (delete id) w).
Proof.
  intros H id' job Hl. simpl in Hl.
  destruct (decide (id = id')) as [<- | Hne].
  - now rewrite lookup_delete_eq in Hl.
  - rewrite lookup_delete_ne in Hl by exact Hne. now apply H.
Qed.

Ltac keep_keys :=
  first [ intros ? H; exact H
        | intros ? H; now apply under_kick_key_delete
        | intros ? H; now apply under_kick_key_insert ].

Lemma new_mem_members_keeps_keys env message users :
  preserves jobs_under_kick_key (new_mem_members env message users).
Proof.
  induction users as [| user rest IH]; cbn [new_mem_members]; [apply preserves_ret |].
  destruct (is_bot user); [exact IH |]. cbv zeta.
  destruct (Z.of_nat _ =? 0); [keep keep_keys |].
  keep_step keep_keys; [keep keep_keys |].
  keep_step keep_keys; [apply preserves_ret |].
  repeat (keep_step keep_keys; [keep keep_keys |]).
  exact IH.
Qed.

Lemma handle_keeps_keys env e : preserves jobs_under_kick_key (handle env e).
Proof.
  destruct e as [message | cq | cq]; cbn [handle].
  - unfold new_mem. keep_step keep_keys; [keep keep_keys |].
    destruct (existsb _ _); [apply preserves_ret |].
    keep_step keep_keys; [keep keep_keys |].
    destruct a0; [apply preserves_ret |].
    keep_step keep_keys; [unfold get_chat_administrators; keep keep_keys |].
    destruct (is_admin _ _); [keep keep_keys |].
    apply new_mem_members_keeps_keys.
  - unfold admin. keep_step keep_keys; [unfold get_chat_administrators; keep keep_keys |].
    keep keep_keys.
  - unfold query. keep keep_keys.
Qed.

(** X21. In every state the flow reaches from its initial state, each
    job in the scheduler is stored under the kick key
    [f"{chat_id}|{user_id}|auth_kick"] of its own chat and user and is due
    after [time_out] seconds.  No job is ever stored under a key of the
    kinds [auth_clean_join_message] or [auth_clean_question_message], so
    the lookups of the join-cleanup key in [admin] and [query] never find
    a job. *)
Theorem jobs_only_under_kick_keys (env : Env) (events : list Event) :
  let w := run env events init_world in
  jobs_under_kick_key w
  /\ (forall chat user, scheduler w !! job_key chat user "auth_clean_join_message" = None)
  /\ (forall chat user, scheduler w !! job_key chat user "auth_clean_question_message" = None).
Proof.
  intros w.
  assert (I : jobs_under_kick_key w).
  { apply (preserves_run env jobs_under_kick_key (handle_keeps_keys env)).
    intros id job Hl. simpl in Hl. now rewrite lookup_empty in Hl. }
  split; [exact I |].
  split; intros chat user;
    (destruct (scheduler w !! _) as [job |] eqn:E; [| reflexivity]);
    apply I in E as [E _]; apply job_key_components in E as (_ & _ & E); discriminate.
Qed.

(** *** What the jobs are *)

Lemma no_kick_job_delete id w :
  no_kick_job w -> no_kick_job (set_scheduler (delete id) w).
Proof.
  intros H id' job Hl. simpl in Hl.
  destruct (decide (id = id')) as [<- | Hne].
  - now rewrite lookup_delete_eq in Hl.
  - rewrite lookup_delete_ne in Hl by exact Hne. now apply (H id').
Qed.

Ltac keep_cleanup :=
  first [ intros ? H; exact H | intros ? H; now apply no_kick_job_delete ].

(** The three [run_once] calls of a challenge, taken together. *)
Lemma preserves_three_jobs (j1 j2 j3 : Job) (id : string) (rest : M unit) :
  job_callback j3 = clean_message_job ->
  preserves no_kick_job rest ->
  preserves no_kick_job
    (job_queue_run_once j1 id true ;;;
     job_queue_run_once j2 id true ;;;
     job_queue_run_once j3 id true ;;;
     rest).
Proof.
  intros H3 Hrest w Hw.
  erewrite bind_Ok by apply job_queue_run_once_replacing.
  erewrite bind_Ok by apply job_queue_run_once_replacing.
  erewrite bind_Ok by apply job_queue_run_once_replacing.
  apply Hrest. intros id' job Hl. simpl in Hl.
  rewrite !insert_insert_eq in Hl.
  destruct (decide (id = id')) as [<- | Hne].
  - rewrite lookup_insert_eq in Hl. now injection Hl as <-.
  - rewrite lookup_insert_ne in Hl by exact Hne. now apply (Hw id').
Qed.

Lemma new_mem_members_no_kick_job env message users :
  preserves no_kick_job (new_mem_members env message users).
Proof.
  induction users as [| user rest IH]; cbn [new_mem_members]; [apply preserves_ret |].
  destruct (is_bot user); [exact IH |]. cbv zeta.
  destruct (Z.of_nat _ =? 0); [keep keep_cleanup |].
  keep_step keep_cleanup; [keep keep_cleanup |].
  keep_step keep_cleanup; [apply preserves_ret |].
  keep_step keep_cleanup; [keep keep_cleanup |].
  keep_step keep_cleanup; [keep keep_cleanup |].
  keep_step keep_cleanup; [keep keep_cleanup |].
  apply preserves_three_jobs; [reflexivity | exact IH].
Qed.

Lemma handle_no_kick_job env e : preserves no_kick_job (handle env e).
Proof.
  destruct e as [message | cq | cq]; cbn [handle].
  - unfold new_mem. keep_step keep_cleanup; [keep keep_cleanup |].
    destruct (existsb _ _); [apply preserves_ret |].
    keep_step keep_cleanup; [keep keep_cleanup |].
    destruct a0; [apply preserves_ret |].
    keep_step keep_cleanup; [unfold get_chat_administrators; keep keep_cleanup |].
    destruct (is_admin _ _); [keep keep_cleanup |].
    apply new_mem_members_no_kick_job.
  - unfold admin.
    keep_step keep_cleanup; [unfold get_chat_administrators; keep keep_cleanup |].
    keep keep_cleanup.
  - unfold query. keep keep_cleanup.
Qed.

(** X22. Between two events the scheduler never holds a job whose
    callback is [kick_member_job]: in every state the flow reaches from
    its initial state all jobs are [clean_message_job] jobs.  Each
    challenge stores its kick job and replaces it, under the same id,
    before the handler ends. *)
Theorem kick_job_never_pending (env : Env) (events : list Event) :
  forall id job,
    scheduler (run env events init_world) !! id = Some job ->
    job_callback job = clean_message_job.
Proof.
  apply (preserves_run env no_kick_job (handle_no_kick_job env)).
  intros id job Hl. simpl in Hl. now rewrite lookup_empty in Hl.
Qed.

Lemma kick_job_never_pending_witness :
  job_callback
    {| job_callback := clean_message_job; job_when := time_out; job_data := Some 501;
       job_name := job_key Demo.group 7 "auth_clean_question_message";
       job_chat_id := Demo.group; job_user_id := 7 |}
  = clean_message_job.
Proof.
  apply (kick_job_never_pending Demo.env [NewChatMembers Demo.alice_joins]
           (job_key Demo.group 7 "auth_kick")).
  reflexivity.
Defined.

(** ** The preview cache: other keys and errors *)

Lemma cache_key_inj key key' :
  TemplatePreviewCache.cache_key key = TemplatePreviewCache.cache_key key' -> key = key'.
Proof.
  unfold TemplatePreviewCache.cache_key. intros H.
  apply String.app_inj in H. now apply String.app_inj in H.
Qed.

Lemma client_expire_other k k' seconds (st : gmap string (list Byte.byte * option Z)) :
  k <> k' -> TemplatePreviewCache.client_expire k seconds st !! k' = st !! k'.
Proof.
  intros Hne. unfold TemplatePreviewCache.client_expire.
  destruct (st !! k) as [[v e] |]; [| reflexivity].
  destruct (seconds <=? 0).
  - now rewrite lookup_delete_ne.
  - now rewrite lookup_insert_ne.
Qed.

(** X23. Keys do not interfere: [cache_key] maps different keys to
    different Redis keys, so [set_data] on one key, with any value and any
    time to live, whether it succeeds or raises, leaves what [get_data]
    returns for every other key as it was. *)
Theorem preview_cache_keys_independent (V : Type)
    (pickle_dumps : V -> Py.exn + list Byte.byte)
    (pickle_loads : list Byte.byte -> Py.exn + V)
    (gzip_compress : list Byte.byte -> list Byte.byte)
    (gzip_decompress : list Byte.byte -> Py.exn + list Byte.byte)
    (key key' : string) (v : V) (ttl : Z) (st : gmap string (list Byte.byte * option Z)) :
  key <> key' ->
  TemplatePreviewCache.get_data V pickle_loads gzip_decompress key'
    (snd (TemplatePreviewCache.set_data V pickle_dumps gzip_compress key v ttl st))
  = TemplatePreviewCache.get_data V pickle_loads gzip_decompress key' st.
Proof.
  intros Hne.
  assert (Hk : TemplatePreviewCache.cache_key key <> TemplatePreviewCache.cache_key key')
    by (intros H; apply cache_key_inj in H; contradiction).
  assert (L : snd (TemplatePreviewCache.set_data V pickle_dumps gzip_compress key v ttl st)
              !! TemplatePreviewCache.cache_key key'
              = st !! TemplatePreviewCache.cache_key key').
  { unfold TemplatePreviewCache.set_data. cbv zeta.
    destruct (pickle_dumps v) as [e | raw]; [reflexivity |].
    destruct (negb (ttl =? -1)); cbn [snd].
    - rewrite client_expire_other by exact Hk.
      unfold TemplatePreviewCache.client_set. now rewrite lookup_insert_ne.
    - unfold TemplatePreviewCache.client_set. now rewrite lookup_insert_ne. }
  unfold TemplatePreviewCache.get_data, TemplatePreviewCache.client_get. now rewrite L.
Qed.

Lemma preview_cache_keys_independent_witness :
  let st := snd (TemplatePreviewCache.set_data (list Byte.byte) Demo.dumps Demo.compress
                   "card" [Byte.x61] (-1) ∅) in
  TemplatePreviewCache.get_data (list Byte.byte) Demo.loads Demo.decompress "card"
    (snd (TemplatePreviewCache.set_data (list Byte.byte) Demo.dumps Demo.compress
            "stats" [Byte.x62] 0 st))
  = TemplatePreviewCache.get_data (list Byte.byte) Demo.loads Demo.decompress "card" st.
Proof.
  intros st.
  apply (preview_cache_keys_independent (list Byte.byte) Demo.dumps Demo.loads
           Demo.compress Demo.decompress "stats" "card").
  discriminate.
Defined.

(** X24. What goes wrong in the cache goes to the caller.  A value that
    [pickle] cannot dump makes [set_data] raise before anything is
    written.  Bytes under the key that [gzip] cannot decompress, or whose
    decompressed form [pickle] cannot load, make [get_data] raise that
    error.  Empty bytes under the key are falsy and read as if the key
    were absent. *)
Theorem preview_cache_errors (V : Type)
    (pickle_dumps : V -> Py.exn + list Byte.byte)
    (pickle_loads : list Byte.byte -> Py.exn + V)
    (gzip_compress : list Byte.byte -> list Byte.byte)
    (gzip_decompress : list Byte.byte -> Py.exn + list Byte.byte)
    (key : string) (st : gmap string (list Byte.byte * option Z)) :
  let ck := TemplatePreviewCache.cache_key key in
  let get := TemplatePreviewCache.get_data V pickle_loads gzip_decompress key in
  (forall v ttl e,
      pickle_dumps v = inl e ->
      TemplatePreviewCache.set_data V pickle_dumps gzip_compress key v ttl st = (Raise e, st))
  /\ (forall b bytes expiry e,
      st !! ck = Some (b :: bytes, expiry) ->
      gzip_decompress (b :: bytes) = inl e ->
      get st = Raise e)
  /\ (forall b bytes expiry raw e,
      st !! ck = Some (b :: bytes, expiry) ->
      gzip_decompress (b :: bytes) = inr raw ->
      pickle_loads raw = inl e ->
      get st = Raise e)
  /\ (forall expiry, st !! ck = Some ([], expiry) -> get st = Ok None).
Proof.
  intros ck get. subst get.
  unfold TemplatePreviewCache.get_data, TemplatePreviewCache.set_data,
    TemplatePreviewCache.client_get. fold ck.
  split; [| split; [| split]].
  - intros v ttl e H. cbv zeta. now rewrite H.
  - intros b bytes expiry e Hs Hd. rewrite Hs. simpl. now rewrite Hd.
  - intros b bytes expiry raw e Hs Hd Hl. rewrite Hs. simpl. now rewrite Hd, Hl.
  - intros expiry Hs. now rewrite Hs.
Qed.

Lemma preview_cache_errors_witness :
  TemplatePreviewCache.get_data (list Byte.byte) Demo.loads Demo.decompress "card"
    (<[TemplatePreviewCache.cache_key "card" := ([Byte.x00], None)]> ∅)
  = Raise (Py.OtherError "not a gzipped file").
Proof.
  destruct (preview_cache_errors (list Byte.byte) Demo.dumps Demo.loads
              Demo.compress Demo.decompress "card"
              (<[TemplatePreviewCache.cache_key "card" := ([Byte.x00], None)]> ∅))
    as (_ & H & _).
  apply (H Byte.x00 [] None); reflexivity.
Defined.
